(** * QAStudio.dev Playwright reporter: the delivery pipeline

    A shallow embedding of the reporter class of [src/index.ts] and of the
    helpers of [src/utils.ts] it relies on, and the properties of the
    delivery pipeline proved about it.

    The repository holds three revisions of the reporter class:
    - the readiness-gate revision ([Gated] below), whose types
      ([UploadFailure], [PendingUpload]) are the ones of [src/types.ts];
    - a batched revision with a result queue ([Batched]);
    - a streaming revision whose failures carry a status ([Streaming]).

    JavaScript numbers are integers here ([Z]); a [Map] is a [gmap]; a
    promise is represented by the way it settles.  The HTTP client
    ([QAStudioAPIClient]) is a parameter: any deterministic machine
    answering the four requests, with a state of its own. *)

From Stdlib Require Import ZArith Ascii String.
From stdpp Require Import base strings list gmap pretty.

#[local] Open Scope string_scope.
#[local] Open Scope Z_scope.

(** ** Values thrown and promises *)

(** What a [catch] clause can receive: an [Error] object, of which the code
    reads [message]; any other value but [null] and [undefined], of which
    it takes [String(error)];
    among these, a value of which [String(error)] itself throws, as an
    object without [toString] ([Object.create(null)], for which [raised] is
    a [TypeError]) or one whose [toString] throws [raised]. *)
Inductive Thrown :=
| ErrorObject (message : string)
| OtherValue (asString : string)
| Unprintable (raised : Thrown).

(** The way a promise settles, or a call ends: with a value, or with a
    value thrown. *)
Inductive Settled (A : Type) :=
| Fulfilled (value : A)
| Rejected (reason : Thrown).
Arguments Fulfilled {A} value.
Arguments Rejected {A} reason.

(** [error instanceof Error ? error.message : String(error)]: the text, or
    what the conversion throws. *)
Definition errorText (error : Thrown) : Settled string :=
  match error with
  | ErrorObject message => Fulfilled message
  | OtherValue s => Fulfilled s
  | Unprintable raised => Rejected raised
  end.

(** [String(error)] returns. *)
Definition hasStringForm (error : Thrown) : bool :=
  match error with
  | Unprintable _ => false
  | _ => true
  end.

(** JavaScript truthiness of an optional string: [undefined] and the empty
    string are falsy. *)
Definition truthy (s : option string) : bool :=
  match s with
  | Some s => negb (String.eqb s "")
  | None => false
  end.

(** [`${s}`] for an optional string. *)
Definition showOpt (s : option string) : string := default "undefined" s.

(** ** The console *)

Inductive Stream := ConsoleLog | ConsoleWarn | ConsoleError.

(** A further argument of a call of [console.log] and the like: a string,
    or a value caught, which the console formats by itself. *)
Inductive ConsoleArg :=
| Text (s : string)
| Value (v : Thrown).

(** A call of [console.log], [console.warn] or [console.error]: the first
    argument, and the remaining ones. *)
Record ConsoleLine := {
  stream : Stream;
  text : string;
  extra : list ConsoleArg
}.

Definition nl : string := String "010"%char "".
Definition tag : string := "[QAStudio.dev Reporter] ".

(** ** Playwright's test model (the part the reporter reads) *)

Inductive TestStatus := passed | failed | timedOut | skipped | interrupted.

Definition statusName (s : TestStatus) : string :=
  match s with
  | passed => "passed"
  | failed => "failed"
  | timedOut => "timedOut"
  | skipped => "skipped"
  | interrupted => "interrupted"
  end.

Inductive AttachmentType := screenshot | video | trace | other.

(** An element of the array [extractAttachmentsAsBuffers] returns. *)
Record AttachmentBuffer := {
  att_name : string;
  att_contentType : string;
  att_data : list Byte.byte;
  att_type : AttachmentType
}.

Record TestCase := {
  title : string;
  titlePath : list string;
  retries : Z
}.

(** An attachment of a Playwright result: [body] is a [Buffer] when it is
    there, [path] names a file.  [a_file] is what [fs.readFileSync(path)]
    gives while [onTestEnd] handles the result: the content of the file, or
    the error it throws. *)
Record Attachment := {
  a_name : string;
  a_contentType : string;
  a_body : option (list Byte.byte);
  a_path : option string;
  a_file : Settled (list Byte.byte)
}.

Record TestResult := {
  status : TestStatus;
  retry : Z;
  duration : Z;
  errorMessage : option string;
  attachments : list Attachment
}.

(** ** utils.ts *)

(** [mapTestStatus]: the [switch] on the status string, with its default. *)
Definition mapTestStatus (status : string) : string :=
  if decide (status = "passed") then "passed"
  else if decide (status = "failed") then "failed"
  else if decide (status = "timedOut") then "timedout"
  else if decide (status = "skipped") then "skipped"
  else if decide (status = "interrupted") then "skipped"
  else "failed".

(** The four values of the wire type
    ['passed' | 'failed' | 'skipped' | 'timedout']. *)
Definition wireStatuses : list string :=
  ["passed"; "failed"; "skipped"; "timedout"].

(** [determineAttachmentType].  [toLowerCase] is taken on the letters A
    to Z only: no other character has a lower case in which one of the
    three words could begin or go on. *)
Definition toLowerCase (s : string) : string :=
  string_of_list_ascii
    ((λ c, if (65 <=? nat_of_ascii c)%nat && (nat_of_ascii c <=? 90)%nat
           then ascii_of_nat (nat_of_ascii c + 32) else c)
       <$> list_ascii_of_string s).

Fixpoint includes (needle s : string) : bool :=
  String.prefix needle s
  || match s with
     | String _ rest => includes needle rest
     | EmptyString => false
     end.

Definition determineAttachmentType (name contentType : string)
    : AttachmentType :=
  if String.prefix "image/" contentType
     || includes "screenshot" (toLowerCase name) then screenshot
  else if String.prefix "video/" contentType
          || includes "video" (toLowerCase name) then video
  else if includes "trace" (toLowerCase name) then trace
  else other.

(** The [console.warn] of the two functions below. *)
Definition readWarning (path : string) (error : Thrown) : ConsoleLine :=
  {| stream := ConsoleWarn;
     text := tag +:+ "Failed to read attachment file: " +:+ path;
     extra := [Value error] |}.

(** The [body] of a [QAStudioAttachment]: the buffer of the attachment,
    the base64 text of the content of its file, or the empty string. *)
Inductive AttachmentBody :=
| BufferBody (data : list Byte.byte)
| Base64Of (data : list Byte.byte)
| EmptyBody.

Record QAStudioAttachment := {
  qat_name : string;
  qat_contentType : string;
  qat_body : AttachmentBody;
  qat_type : AttachmentType
}.

(** [extractAttachments]: the lines it prints, and the array it returns.
    An attachment whose file cannot be read is skipped with a warning; one
    with neither body nor path is kept, with an empty body. *)
Fixpoint extractAttachmentsOf (atts : list Attachment)
    : list ConsoleLine * list QAStudioAttachment :=
  match atts with
  | [] => ([], [])
  | attachment :: rest =>
      let '(lines, found) := extractAttachmentsOf rest in
      let type :=
        determineAttachmentType (a_name attachment)
          (a_contentType attachment) in
      let keep body :=
        (lines,
         {| qat_name := a_name attachment;
            qat_contentType := a_contentType attachment;
            qat_body := body; qat_type := type |} :: found) in
      match a_body attachment with
      | Some data => keep (BufferBody data)
      | None =>
          if truthy (a_path attachment) then
            match a_file attachment with
            | Fulfilled fileBuffer => keep (Base64Of fileBuffer)
            | Rejected error =>
                (readWarning (showOpt (a_path attachment)) error :: lines,
                 found)
            end
          else keep EmptyBody
      end
  end.

Definition extractAttachments (result : TestResult)
    : list ConsoleLine * list QAStudioAttachment :=
  extractAttachmentsOf (attachments result).

(** [extractAttachmentsAsBuffers]: the lines it prints, and the array it
    returns.  An attachment whose file cannot be read, or with neither body
    nor path, is skipped; only the former with a warning. *)
Fixpoint extractBuffersOf (atts : list Attachment)
    : list ConsoleLine * list AttachmentBuffer :=
  match atts with
  | [] => ([], [])
  | attachment :: rest =>
      let '(lines, found) := extractBuffersOf rest in
      let type :=
        determineAttachmentType (a_name attachment)
          (a_contentType attachment) in
      let keep data :=
        (lines,
         {| att_name := a_name attachment;
            att_contentType := a_contentType attachment;
            att_data := data; att_type := type |} :: found) in
      match a_body attachment with
      | Some data => keep data
      | None =>
          if truthy (a_path attachment) then
            match a_file attachment with
            | Fulfilled data => keep data
            | Rejected error =>
                (readWarning (showOpt (a_path attachment)) error :: lines,
                 found)
            end
          else (lines, found)
      end
  end.

Definition extractAttachmentsAsBuffers (result : TestResult)
    : list ConsoleLine * list AttachmentBuffer :=
  extractBuffersOf (attachments result).

(** [QAStudioTestResult], with the fields the pipeline itself reads or sets;
    [qa_attachments] is optional because [onTestEnd] deletes it. *)
Record QAStudioTestResult := {
  qa_title : string;
  qa_status : string;
  qa_duration : Z;
  qa_error : option string;
  qa_startTime : Z;
  qa_endTime : Z;
  qa_retry : Z;
  qa_attachments : option (list QAStudioAttachment)
}.

(** [convertTestResult], on those fields; times are milliseconds.  What
    the call prints is what its [extractAttachments] prints. *)
Definition convertTestResult (test : TestCase) (result : TestResult)
    (startTime : Z) : QAStudioTestResult :=
  {| qa_title := title test;
     qa_status := mapTestStatus (statusName (status result));
     qa_duration := duration result;
     qa_error := errorMessage result;
     qa_startTime := startTime;
     qa_endTime := startTime + duration result;
     qa_retry := retry result;
     qa_attachments := Some (extractAttachments result).2 |}.

(** [delete qaResult.attachments] *)
Definition deleteAttachments (r : QAStudioTestResult) : QAStudioTestResult :=
  {| qa_title := qa_title r;
     qa_status := qa_status r;
     qa_duration := qa_duration r;
     qa_error := qa_error r;
     qa_startTime := qa_startTime r;
     qa_endTime := qa_endTime r;
     qa_retry := qa_retry r;
     qa_attachments := None |}.

(** [formatDuration] *)
Definition formatDuration (ms : Z) : string :=
  if ms <? 1000 then pretty ms +:+ "ms"
  else
    let seconds := ms / 1000 in
    let minutes := seconds / 60 in
    let hours := minutes / 60 in
    if 0 <? hours then
      pretty hours +:+ "h " +:+ pretty (minutes mod 60) +:+ "m "
        +:+ pretty (seconds mod 60) +:+ "s"
    else if 0 <? minutes then
      pretty minutes +:+ "m " +:+ pretty (seconds mod 60) +:+ "s"
    else pretty seconds +:+ "s".

(** [apiUrl.replace(/\/api\/?$/, '')] *)
Definition dropLast (n : nat) (s : string) : string :=
  String.substring 0 (String.length s - n) s.

Definition endsWith (suffix s : string) : bool :=
  let n := String.length suffix in
  let m := String.length s in
  (n <=? m)%nat && String.eqb (String.substring (m - n) n s) suffix.

Definition stripApiSuffix (apiUrl : string) : string :=
  if endsWith "/api/" apiUrl then dropLast 5 apiUrl
  else if endsWith "/api" apiUrl then dropLast 4 apiUrl
  else apiUrl.

(** ** The options of the reporter, after the constructor's defaults *)

Record Options := {
  apiUrl : string;
  projectId : string;
  environment : string;
  opt_testRunId : option string;
  milestoneId : option string;
  createTestRun : bool;
  testRunName : string;
  testRunDescription : option string;
  verbose : bool;
  batchSize : Z;
  uploadScreenshots : bool;
  uploadVideos : bool;
  silent : bool
}.

(** ** types.ts: requests and responses of the remote service *)

Record CreateTestRunRequest := {
  ctr_projectId : string;
  ctr_name : string;
  ctr_description : option string;
  ctr_environment : string;
  ctr_milestoneId : option string
}.

Record CreateTestRunResponse := { resp_id : string }.

Record SubmitTestResultsRequest := {
  str_testRunId : string;
  str_results : list QAStudioTestResult
}.

Record ResultId := {
  testResultId : string;
  testCaseId : option string;
  rid_title : string
}.

Record SubmitError := { se_testTitle : string; se_error : string }.

Record SubmitTestResultsResponse := {
  processedCount : Z;
  resp_results : option (list ResultId);
  resp_errors : option (list SubmitError)
}.

Record Summary := {
  total : Z;
  sum_passed : Z;
  sum_failed : Z;
  sum_skipped : Z;
  sum_duration : Z
}.

Record CompleteTestRunRequest := {
  cmp_testRunId : string;
  summary : Summary
}.

(** A request as the client receives it; the reporter's requests are logged
    in the order they are issued. *)
Inductive ApiCall :=
| CallCreateTestRun (req : CreateTestRunRequest)
| CallSubmitTestResults (req : SubmitTestResultsRequest)
| CallUploadAttachment (resultId name contentType : string)
    (data : list Byte.byte) (type : AttachmentType)
| CallCompleteTestRun (req : CompleteTestRunRequest).

(** [QAStudioAPIClient]: each method returns a promise; [W] is whatever the
    client and the remote service remember between requests. *)
Class ApiClient (W : Type) := {
  createTestRun_api :
    CreateTestRunRequest → W → Settled CreateTestRunResponse * W;
  submitTestResults_api :
    SubmitTestResultsRequest → W → Settled SubmitTestResultsResponse * W;
  uploadAttachment_api :
    string → string → string → list Byte.byte → AttachmentType →
    W → Settled unit * W;
  completeTestRun_api :
    CompleteTestRunRequest → W → Settled unit * W
}.

(** ** The world outside the reporter object *)

Record World (W : Type) := {
  remote : W;
  calls : list ApiCall;
  console : list ConsoleLine
}.
Arguments remote {W} _.
Arguments calls {W} _.
Arguments console {W} _.

Definition newWorld {W} (w0 : W) : World W :=
  {| remote := w0; calls := []; console := [] |}.

Definition print {W} (line : ConsoleLine) (w : World W) : World W :=
  {| remote := remote w; calls := calls w; console := console w ++ [line] |}.

(** The lines a helper of utils.ts prints, in order. *)
Definition printAll {W} (lines : list ConsoleLine) (w : World W) : World W :=
  {| remote := remote w; calls := calls w; console := console w ++ lines |}.

Definition request {W A} (call : ApiCall) (f : W → Settled A * W)
    (w : World W) : Settled A * World W :=
  let '(answer, remote') := f (remote w) in
  (answer, {| remote := remote'; calls := calls w ++ [call];
              console := console w |}).

(** ** A state monad over the reporter object and the world *)

Definition M (W S A : Type) : Type := S → World W → A * S * World W.

Definition ret {W S A} (a : A) : M W S A := λ r w, (a, r, w).

Definition bind {W S A B} (m : M W S A) (k : A → M W S B) : M W S B :=
  λ r w, let '(a, r', w') := m r w in k a r' w'.

Notation "x <- m ;; k" := (bind m (λ x, k))
  (at level 100, m at next level, right associativity).
Notation "m ;; k" := (bind m (λ _, k))
  (at level 100, right associativity).

Definition gets {W S A} (f : S → A) : M W S A := λ r w, (f r, r, w).
Definition modify {W S} (f : S → S) : M W S unit := λ r w, (tt, f r, w).
Definition inWorld {W S} (f : World W → World W) : M W S unit :=
  λ r w, (tt, r, f w).
Definition ask {W S A} (f : World W → A * World W) : M W S A :=
  λ r w, let '(a, w') := f w in (a, r, w').

Definition when {W S} (b : bool) (m : M W S unit) : M W S unit :=
  if b then m else ret tt.

(** [array.forEach(f)] *)
Fixpoint forEach {W S A} (f : A → M W S unit) (l : list A) : M W S unit :=
  match l with
  | [] => ret tt
  | x :: l => f x ;; forEach f l
  end.

(** [promise.then(f)] and [promise.catch(h)], on the way promises settle. *)
Definition then_ {W S A B} (p : M W S (Settled A))
    (f : A → M W S (Settled B)) : M W S (Settled B) :=
  s <- p ;;
  match s with
  | Fulfilled a => f a
  | Rejected e => ret (Rejected e)
  end.

Definition catch_ {W S A} (p : M W S (Settled A))
    (h : Thrown → M W S (Settled A)) : M W S (Settled A) :=
  s <- p ;;
  match s with
  | Fulfilled a => ret (Fulfilled a)
  | Rejected e => h e
  end.

(** ** What the three revisions of the class share *)

(** [InternalTestData] *)
Record InternalTestData := {
  td_test : TestCase;
  td_result : TestResult;
  td_startTime : Z;
  td_endTime : option Z
}.

(** [ReporterState] *)
Record ReporterState := {
  testRunId : option string;
  tests : gmap string InternalTestData;
  startTime : option Z;
  endTime : option Z
}.

Definition setTestRunId (v : option string) (s : ReporterState) :=
  {| testRunId := v; tests := tests s;
     startTime := startTime s; endTime := endTime s |}.
Definition setTests (v : gmap string InternalTestData) (s : ReporterState) :=
  {| testRunId := testRunId s; tests := v;
     startTime := startTime s; endTime := endTime s |}.
Definition setStartTime (v : option Z) (s : ReporterState) :=
  {| testRunId := testRunId s; tests := tests s;
     startTime := v; endTime := endTime s |}.
Definition setEndTime (v : option Z) (s : ReporterState) :=
  {| testRunId := testRunId s; tests := tests s;
     startTime := startTime s; endTime := v |}.

(** The state the constructor builds: [{ tests: new Map() }]. *)
Definition newState : ReporterState :=
  {| testRunId := None; tests := ∅; startTime := None; endTime := None |}.

(** The four private counters of the class. *)
Record Counters := {
  totalTests : Z;
  passedTests : Z;
  failedTests : Z;
  skippedTests : Z
}.

Definition zeroCounters : Counters :=
  {| totalTests := 0; passedTests := 0; failedTests := 0; skippedTests := 0 |}.

(** [this.totalTests++] *)
Definition incTotal (c : Counters) : Counters :=
  {| totalTests := totalTests c + 1; passedTests := passedTests c;
     failedTests := failedTests c; skippedTests := skippedTests c |}.

(** The [switch (result.status)] of [onTestEnd]. *)
Definition countStatus (s : TestStatus) (c : Counters) : Counters :=
  match s with
  | passed =>
      {| totalTests := totalTests c; passedTests := passedTests c + 1;
         failedTests := failedTests c; skippedTests := skippedTests c |}
  | failed | timedOut =>
      {| totalTests := totalTests c; passedTests := passedTests c;
         failedTests := failedTests c + 1; skippedTests := skippedTests c |}
  | skipped | interrupted =>
      {| totalTests := totalTests c; passedTests := passedTests c;
         failedTests := failedTests c; skippedTests := skippedTests c + 1 |}
  end.

(** [getTestId] *)
Definition getTestId (test : TestCase) : string :=
  String.concat " > " (titlePath test).

(** The predicate of [attachmentBuffers.filter(...)] in [onTestEnd]. *)
#[global] Instance AttachmentType_eq_dec : EqDecision AttachmentType.
Proof. solve_decision. Defined.

Definition keepAttachment (o : Options) (att : AttachmentBuffer) : bool :=
  if bool_decide (att_type att = screenshot) && negb (uploadScreenshots o)
  then false
  else if bool_decide (att_type att = video) && negb (uploadVideos o)
  then false
  else true.

(** [log(message, ...args)]: printed only in verbose mode. *)
Definition logLine {W} (o : Options) (message : string)
    (args : list ConsoleArg) (w : World W) : World W :=
  if verbose o then
    print {| stream := ConsoleLog; text := tag +:+ message; extra := args |} w
  else w.

(** [handleError(message, error)]: in silent mode the message goes to
    [console.error] and the call returns; otherwise it throws.  It throws
    in both modes when the error has no string form. *)
Definition handleErrorIn {W} (o : Options) (message : string) (error : Thrown)
    (w : World W) : Settled unit * World W :=
  match errorText error with
  | Rejected raised => (Rejected raised, w)
  | Fulfilled errorMessage =>
      let fullMessage := message +:+ ": " +:+ errorMessage in
      if silent o then
        (Fulfilled tt,
         print {| stream := ConsoleError; text := tag +:+ fullMessage;
                  extra := [] |} w)
      else (Rejected (ErrorObject fullMessage), w)
  end.

(** [array.length] *)
Definition len {A} (l : list A) : Z := Z.of_nat (length l).

(** How far an [async] method got: suspended at an [await] whose promise
    has not settled, or completed (returned or thrown). *)
Inductive Completion :=
| Awaiting
| Completed (s : Settled unit).

(** * The readiness-gate revision of the reporter *)

Module Gated.

(** [UploadFailure] *)
Record UploadFailure := { uf_testTitle : string; uf_error : string }.

(** [{ success: true } | { success: false; error: string }] *)
Inductive UploadOutcome :=
| Success
| Failure (error : string).

(** The promise tracked for one result: its first callback has not run yet
    because the gate is not resolved, or the chain has settled. *)
Inductive SendPromise :=
| AwaitingGate (result : QAStudioTestResult) (atts : list AttachmentBuffer)
| Done (s : Settled UploadOutcome).

(** [PendingUpload] *)
Record PendingUpload := { promise : SendPromise; testTitle : string }.

(** [testRunReadyPromise]: built with a [resolve] function only. *)
Inductive Gate := Unresolved | Resolved.

(** The fields of the class; [pendingCreate] is the promise [onBegin] is
    suspended on while [createTestRun] is in flight. *)
Record Reporter := {
  options : Options;
  state : ReporterState;
  counters : Counters;
  flushPromises : list PendingUpload;
  uploadFailures : list UploadFailure;
  testRunReadyPromise : Gate;
  testRunCreationError : option string;
  pendingCreate : option (Settled CreateTestRunResponse)
}.

Definition setState (f : ReporterState → ReporterState) (r : Reporter) :=
  {| options := options r; state := f (state r); counters := counters r;
     flushPromises := flushPromises r; uploadFailures := uploadFailures r;
     testRunReadyPromise := testRunReadyPromise r;
     testRunCreationError := testRunCreationError r;
     pendingCreate := pendingCreate r |}.
Definition setCounters (f : Counters → Counters) (r : Reporter) :=
  {| options := options r; state := state r; counters := f (counters r);
     flushPromises := flushPromises r; uploadFailures := uploadFailures r;
     testRunReadyPromise := testRunReadyPromise r;
     testRunCreationError := testRunCreationError r;
     pendingCreate := pendingCreate r |}.
Definition setFlushPromises (v : list PendingUpload) (r : Reporter) :=
  {| options := options r; state := state r; counters := counters r;
     flushPromises := v; uploadFailures := uploadFailures r;
     testRunReadyPromise := testRunReadyPromise r;
     testRunCreationError := testRunCreationError r;
     pendingCreate := pendingCreate r |}.
Definition setUploadFailures (v : list UploadFailure) (r : Reporter) :=
  {| options := options r; state := state r; counters := counters r;
     flushPromises := flushPromises r; uploadFailures := v;
     testRunReadyPromise := testRunReadyPromise r;
     testRunCreationError := testRunCreationError r;
     pendingCreate := pendingCreate r |}.
Definition setGate (v : Gate) (r : Reporter) :=
  {| options := options r; state := state r; counters := counters r;
     flushPromises := flushPromises r; uploadFailures := uploadFailures r;
     testRunReadyPromise := v;
     testRunCreationError := testRunCreationError r;
     pendingCreate := pendingCreate r |}.
Definition setCreationError (v : option string) (r : Reporter) :=
  {| options := options r; state := state r; counters := counters r;
     flushPromises := flushPromises r; uploadFailures := uploadFailures r;
     testRunReadyPromise := testRunReadyPromise r;
     testRunCreationError := v;
     pendingCreate := pendingCreate r |}.
Definition setPendingCreate (v : option (Settled CreateTestRunResponse))
    (r : Reporter) :=
  {| options := options r; state := state r; counters := counters r;
     flushPromises := flushPromises r; uploadFailures := uploadFailures r;
     testRunReadyPromise := testRunReadyPromise r;
     testRunCreationError := testRunCreationError r;
     pendingCreate := v |}.

(** The object the constructor returns, for sanitized options [o]. *)
Definition newReporter (o : Options) : Reporter :=
  {| options := o; state := newState; counters := zeroCounters;
     flushPromises := []; uploadFailures := [];
     testRunReadyPromise := Unresolved;
     testRunCreationError := None;
     pendingCreate := None |}.

(** [testRunReadyResolve?.()]: resolving a resolved promise does nothing. *)
Definition testRunReadyResolve (r : Reporter) : Reporter :=
  match testRunReadyPromise r with
  | Unresolved => setGate Resolved r
  | Resolved => r
  end.

(** What a callback attached to the gate reads when it runs: nothing while
    the gate is unresolved, then the run id and the creation error. *)
Definition gateObservation (r : Reporter)
    : option (option string * option string) :=
  match testRunReadyPromise r with
  | Unresolved => None
  | Resolved => Some (testRunId (state r), testRunCreationError r)
  end.

(** [calculateUploadedCounts] *)
Definition calculateUploadedCounts (r : Reporter) : Z * Z * Z * Z :=
  (totalTests (counters r) - len (uploadFailures r),
   passedTests (counters r),
   failedTests (counters r),
   skippedTests (counters r)).

Section WithClient.
Context {W : Type} {client : ApiClient W}.

#[local] Abbreviation Act := (M W Reporter).

Definition log (message : string) (args : list ConsoleArg) : Act unit :=
  o <- gets options ;; inWorld (logLine o message args).

Definition warn (message : string) : Act unit :=
  inWorld (print {| stream := ConsoleWarn; text := message; extra := [] |}).

Definition say (message : string) : Act unit :=
  inWorld (print {| stream := ConsoleLog; text := message; extra := [] |}).

Definition handleError (message : string) (error : Thrown)
    : Act (Settled unit) :=
  o <- gets options ;; ask (handleErrorIn o message error).

(** [uploadAttachments]: one request per attachment, each with its own
    [then] and [catch]; the method waits for all of them. *)
Definition uploadOne (resultId : string) (attachment : AttachmentBuffer)
    : Act unit :=
  answer <- ask (request
    (CallUploadAttachment resultId (att_name attachment)
       (att_contentType attachment) (att_data attachment)
       (att_type attachment))
    (uploadAttachment_api resultId (att_name attachment)
       (att_contentType attachment) (att_data attachment)
       (att_type attachment))) ;;
  match answer with
  | Fulfilled _ =>
      log ("Uploaded: " +:+ att_name attachment +:+ " ("
             +:+ pretty (len (att_data attachment)) +:+ " bytes)") []
  | Rejected error =>
      log ("Failed to upload " +:+ att_name attachment +:+ ":")
        [Value error]
  end.

Definition uploadAttachments (resultId : string)
    (atts : list AttachmentBuffer) : Act (Settled unit) :=
  if len atts =? 0 then ret (Fulfilled tt)
  else
    log ("Uploading " +:+ pretty (len atts) +:+ " attachments for result "
           +:+ resultId) [] ;;
    forEach (uploadOne resultId) atts ;;
    log ("Finished uploading " +:+ pretty (len atts) +:+ " attachments") [] ;;
    ret (Fulfilled tt).

(** [sendTestResult] *)
Definition sendTestResult (result : QAStudioTestResult)
    (atts : list AttachmentBuffer) : Act (Settled unit) :=
  runId <- gets (λ r, testRunId (state r)) ;;
  if negb (truthy runId) then ret (Fulfilled tt)
  else
    log ("Sending result: " +:+ qa_title result) [] ;;
    let req := {| str_testRunId := showOpt runId; str_results := [result] |} in
    answer <- ask (request (CallSubmitTestResults req)
                     (submitTestResults_api req)) ;;
    match answer with
    | Rejected error => ret (Rejected error)
    | Fulfilled response =>
        log ("Result submitted: " +:+ qa_title result +:+ " ("
               +:+ pretty (processedCount response) +:+ " processed)") [] ;;
        forEach (λ err, log ("  Error: " +:+ se_error err) [])
          (default [] (resp_errors response)) ;;
        match default [] (resp_results response), atts with
        | first :: _, _ :: _ => uploadAttachments (testResultId first) atts
        | _, _ => ret (Fulfilled tt)
        end
    end.

(** The chain [testRunReadyPromise.then(...).then(...).catch(...)] of
    [onTestEnd], from the moment the gate is resolved. *)
Definition afterGate (result : QAStudioTestResult)
    (atts : list AttachmentBuffer) (_ : unit) : Act (Settled unit) :=
  runId <- gets (λ r, testRunId (state r)) ;;
  if negb (truthy runId) then
    creationError <- gets testRunCreationError ;;
    match creationError with
    | Some message =>
        ret (Rejected (ErrorObject ("Test run creation failed: " +:+ message)))
    | None =>
        ret (Rejected (ErrorObject "Test run was not created successfully"))
    end
  else sendTestResult result atts.

Definition sendPromise (result : QAStudioTestResult)
    (atts : list AttachmentBuffer) : Act (Settled UploadOutcome) :=
  catch_
    (then_ (then_ (ret (Fulfilled tt)) (afterGate result atts))
       (λ _, ret (Fulfilled Success)))
    (λ error,
       match errorText error with
       | Fulfilled message => ret (Fulfilled (Failure message))
       | Rejected raised => ret (Rejected raised)
       end).

(** The callbacks attached to the gate run once it is resolved, in the order
    they were attached; each tracked chain then runs to its end. *)
Definition settle (item : PendingUpload) : Act PendingUpload :=
  match promise item with
  | AwaitingGate result atts =>
      s <- sendPromise result atts ;;
      ret {| promise := Done s; testTitle := testTitle item |}
  | Done _ => ret item
  end.

Fixpoint settleAll (items : list PendingUpload) : Act (list PendingUpload) :=
  match items with
  | [] => ret []
  | item :: items =>
      item' <- settle item ;;
      items' <- settleAll items ;;
      ret (item' :: items')
  end.

Definition runCallbacks : Act unit :=
  gate <- gets testRunReadyPromise ;;
  match gate with
  | Unresolved => ret tt
  | Resolved =>
      items <- gets flushPromises ;;
      items' <- settleAll items ;;
      modify (setFlushPromises items')
  end.

(** [onBegin]: the [finally] block, then the code up to the [await], then
    the code after it. *)
Definition onBeginFinally (outcome : Settled unit) : Act Completion :=
  modify testRunReadyResolve ;;
  log "Test run ready signal sent" [] ;;
  ret (Completed outcome).

Definition onBegin (now : Z) : Act Completion :=
  modify (setState (setStartTime (Some now))) ;;
  log "Test run starting..." [] ;;
  o <- gets options ;;
  if createTestRun o && negb (truthy (opt_testRunId o)) then
    let req := {| ctr_projectId := projectId o;
                  ctr_name := testRunName o;
                  ctr_description := testRunDescription o;
                  ctr_environment := environment o;
                  ctr_milestoneId := milestoneId o |} in
    answer <- ask (request (CallCreateTestRun req) (createTestRun_api req)) ;;
    modify (setPendingCreate (Some answer)) ;;
    ret Awaiting
  else
    modify (setState (setTestRunId (opt_testRunId o))) ;;
    log ("Using existing test run ID: " +:+ showOpt (opt_testRunId o)) [] ;;
    onBeginFinally (Fulfilled tt).

Definition onBeginResume : Act Completion :=
  pending <- gets pendingCreate ;;
  match pending with
  | None => ret Awaiting
  | Some (Fulfilled response) =>
      modify (setPendingCreate None) ;;
      modify (setState (setTestRunId (Some (resp_id response)))) ;;
      log ("Created test run with ID: " +:+ resp_id response) [] ;;
      onBeginFinally (Fulfilled tt)
  | Some (Rejected error) =>
      modify (setPendingCreate None) ;;
      match errorText error with
      | Rejected raised => onBeginFinally (Rejected raised)
      | Fulfilled message =>
          modify (setCreationError (Some message)) ;;
          thrown <- handleError "Failed to create test run" error ;;
          onBeginFinally thrown
      end
  end.

(** [onTestBegin] *)
Definition onTestBegin (now : Z) (test : TestCase) (result : TestResult)
    : Act unit :=
  modify (setState (λ s, setTests
    (<[getTestId test :=
         {| td_test := test; td_result := result;
            td_startTime := now; td_endTime := None |}]> (tests s)) s)) ;;
  log ("Test started: " +:+ title test) [].

Definition retryOf (test : TestCase) (result : TestResult) : string :=
  pretty (retry result) +:+ "/" +:+ pretty (retries test).

(** [onTestEnd] *)
Definition onTestEnd (now : Z) (test : TestCase) (result : TestResult)
    : Act unit :=
  known <- gets (λ r, tests (state r) !! getTestId test) ;;
  match known with
  | None => log ("Warning: Test data not found for " +:+ title test) []
  | Some testData =>
      modify (setState (λ s, setTests
        (<[getTestId test :=
             {| td_test := td_test testData; td_result := result;
                td_startTime := td_startTime testData;
                td_endTime := Some now |}]> (tests s)) s)) ;;
      (if retry result =? retries test then
         modify (setCounters incTotal) ;;
         n <- gets (λ r, totalTests (counters r)) ;;
         log ("[onTestEnd] Final retry for test #" +:+ pretty n +:+ ": "
                +:+ title test +:+ " (retry " +:+ retryOf test result
                +:+ ")") [] ;;
         modify (setCounters (countStatus (status result))) ;;
         log ("[onTestEnd] Preparing to send test #" +:+ pretty n +:+ ": "
                +:+ title test) [] ;;
         o <- gets options ;;
         inWorld (printAll (extractAttachments result).1) ;;
         let qaResult :=
           deleteAttachments
             (convertTestResult test result (td_startTime testData)) in
         inWorld (printAll (extractAttachmentsAsBuffers result).1) ;;
         let filteredAttachments :=
           List.filter (keepAttachment o)
             (extractAttachmentsAsBuffers result).2 in
         tracked <- gets flushPromises ;;
         modify (setFlushPromises
           (tracked ++ [{| promise := AwaitingGate qaResult filteredAttachments;
                           testTitle := title test |}])) ;;
         log ("[onTestEnd] Promise tracked for test #" +:+ pretty n +:+ ": "
                +:+ title test +:+ " (total tracked: "
                +:+ pretty (len tracked + 1) +:+ ")") []
       else
         log ("[onTestEnd] Skipping retry " +:+ retryOf test result
                +:+ " for: " +:+ title test) []) ;;
      log ("Test ended: " +:+ title test +:+ " - "
             +:+ statusName (status result) +:+ " ("
             +:+ pretty (duration result) +:+ "ms) [retry: "
             +:+ retryOf test result +:+ "]") []
  end.

(** [Promise.all] over the tracked promises: it stays pending while one of
    them is, rejects with the first rejection, and otherwise yields the
    values in order. *)
Fixpoint promiseAll (items : list PendingUpload)
    : option (Settled (list UploadOutcome)) :=
  match items with
  | [] => Some (Fulfilled [])
  | item :: items =>
      match promise item, promiseAll items with
      | AwaitingGate _ _, _ => None
      | Done _, None => None
      | Done (Rejected e), Some _ => Some (Rejected e)
      | Done (Fulfilled _), Some (Rejected e) => Some (Rejected e)
      | Done (Fulfilled o), Some (Fulfilled os) => Some (Fulfilled (o :: os))
      end
  end.

(** The body of [results.forEach((result, index) => ...)]. *)
Definition collectFailure (index : nat) (result : UploadOutcome)
    : Act (Settled unit) :=
  match result with
  | Success => ret (Fulfilled tt)
  | Failure error =>
      tracked <- gets flushPromises ;;
      match tracked !! index with
      | None =>
          ret (Rejected (ErrorObject
                 "Cannot read properties of undefined (reading 'testTitle')"))
      | Some item =>
          failures <- gets uploadFailures ;;
          modify (setUploadFailures
            (failures ++ [{| uf_testTitle := testTitle item;
                             uf_error := error |}])) ;;
          o <- gets options ;;
          when (verbose o)
            (log ("Failed to upload result for " +:+ testTitle item +:+ ":")
               [Text error]) ;;
          ret (Fulfilled tt)
      end
  end.

Fixpoint collectFailures (index : nat) (results : list UploadOutcome)
    : Act (Settled unit) :=
  match results with
  | [] => ret (Fulfilled tt)
  | result :: results =>
      then_ (collectFailure index result)
        (λ _, collectFailures (S index) results)
  end.

(** [sendTestResults]: the drain. *)
Definition sendTestResults : Act Completion :=
  runId <- gets (λ r, testRunId (state r)) ;;
  if negb (truthy runId) then
    log "No test run ID available, skipping result submission" [] ;;
    ret (Completed (Fulfilled tt))
  else
    tracked <- gets flushPromises ;;
    if 0 <? len tracked then
      let totalPending := len tracked in
      log ("Waiting for " +:+ pretty totalPending
             +:+ " pending result submissions...") [] ;;
      match promiseAll tracked with
      | None => ret Awaiting
      | Some (Rejected e) => ret (Completed (Rejected e))
      | Some (Fulfilled results) =>
          collected <- collectFailures 0 results ;;
          match collected with
          | Rejected e => ret (Completed (Rejected e))
          | Fulfilled _ =>
              failures <- gets uploadFailures ;;
              let successCount := totalPending - len failures in
              log ("Test result processing complete: " +:+ pretty successCount
                     +:+ "/" +:+ pretty totalPending
                     +:+ " uploaded successfully") [] ;;
              modify (setFlushPromises []) ;;
              ret (Completed (Fulfilled tt))
          end
      end
    else ret (Completed (Fulfilled tt)).

(** The block of [onEnd] that reports the upload failures. *)
Definition creationFailureMsg (r : Reporter) : option string :=
  (λ message, "Test run creation failed: " +:+ message)
    <$> testRunCreationError r.

Definition allFailuresDueToTestRunCreation (r : Reporter) : bool :=
  match creationFailureMsg r with
  | Some msg =>
      negb (String.eqb msg "")
      && forallb (λ f, String.eqb (uf_error f) msg) (uploadFailures r)
  | None => false
  end.

Definition reportUploadFailures : Act unit :=
  failures <- gets uploadFailures ;;
  when (0 <? len failures)
    (deduplicate <- gets allFailuresDueToTestRunCreation ;;
     n <- gets (λ r, totalTests (counters r)) ;;
     if deduplicate then
       cause <- gets (λ r, default "" (testRunCreationError r)) ;;
       warn (nl +:+ tag
               +:+ "WARNING: Test run creation failed, no results were uploaded."
               +:+ nl) ;;
       warn ("  Error: " +:+ cause +:+ nl) ;;
       warn (tag +:+ pretty n
               +:+ " test(s) ran locally but could not be uploaded." +:+ nl)
     else
       warn (nl +:+ tag +:+ "WARNING: " +:+ pretty (len failures)
               +:+ " test result(s) failed to upload:" +:+ nl) ;;
       forEach (λ failure,
                  warn ("  - " +:+ uf_testTitle failure) ;;
                  warn ("    Error: " +:+ uf_error failure +:+ nl))
         failures ;;
       warn (tag +:+ "Test run may be incomplete. Expected " +:+ pretty n
               +:+ " tests, but " +:+ pretty (len failures)
               +:+ " failed to upload." +:+ nl)).

(** The block of [onEnd] that completes the test run. *)
Definition completeRun (duration : Z) : Act (Settled unit) :=
  runId <- gets (λ r, testRunId (state r)) ;;
  if truthy runId then
    actualUploaded <- gets calculateUploadedCounts ;;
    let '(uploaded, passedCount, failedCount, skippedCount) :=
      actualUploaded in
    let req :=
      {| cmp_testRunId := showOpt runId;
         summary := {| total := uploaded; sum_passed := passedCount;
                       sum_failed := failedCount;
                       sum_skipped := skippedCount;
                       sum_duration := duration |} |} in
    answer <- ask (request (CallCompleteTestRun req)
                     (completeTestRun_api req)) ;;
    match answer with
    | Rejected e => ret (Rejected e)
    | Fulfilled _ =>
        log "Test run completed successfully" [] ;;
        o <- gets options ;;
        let baseUrl := stripApiSuffix (apiUrl o) in
        let testRunUrl :=
          baseUrl +:+ "/projects/" +:+ projectId o +:+ "/runs/"
            +:+ showOpt runId in
        say (nl +:+ tag +:+ "View test run: " +:+ testRunUrl) ;;
        failures <- gets uploadFailures ;;
        n <- gets (λ r, totalTests (counters r)) ;;
        (if 0 <? len failures then
           say (tag +:+ pretty (n - len failures) +:+ "/" +:+ pretty n
                  +:+ " tests uploaded successfully" +:+ nl)
         else
           say (tag +:+ "All " +:+ pretty n
                  +:+ " tests uploaded successfully" +:+ nl)) ;;
        ret (Fulfilled tt)
    end
  else ret (Fulfilled tt).

(** [onEnd] *)
Definition onEnd (now : Z) : Act Completion :=
  modify (setState (setEndTime (Some now))) ;;
  begun <- gets (λ r, startTime (state r)) ;;
  let duration := now - default 0 begun in
  log "Test run completed" [] ;;
  c <- gets counters ;;
  log ("Total: " +:+ pretty (totalTests c) +:+ ", Passed: "
         +:+ pretty (passedTests c) +:+ ", Failed: "
         +:+ pretty (failedTests c) +:+ ", Skipped: "
         +:+ pretty (skippedTests c)) [] ;;
  log ("Duration: " +:+ formatDuration duration) [] ;;
  drained <- sendTestResults ;;
  match drained with
  | Awaiting => ret Awaiting
  | Completed (Rejected e) =>
      thrown <- handleError "Failed to send test results" e ;;
      ret (Completed thrown)
  | Completed (Fulfilled _) =>
      reportUploadFailures ;;
      completed <- completeRun duration ;;
      match completed with
      | Rejected e =>
          thrown <- handleError "Failed to send test results" e ;;
          ret (Completed thrown)
      | Fulfilled _ => ret (Completed (Fulfilled tt))
      end
  end.

(** ** Runs: the calls Playwright makes, and the settling of the request
    [onBegin] waits for *)

Inductive Event :=
| OnBegin (now : Z)
| CreateTestRunSettled
| OnTestBegin (now : Z) (test : TestCase) (result : TestResult)
| OnTestEnd (now : Z) (test : TestCase) (result : TestResult)
| OnEnd (now : Z).

Definition handle (e : Event) : Act unit :=
  match e with
  | OnBegin now => onBegin now ;; runCallbacks
  | CreateTestRunSettled => onBeginResume ;; runCallbacks
  | OnTestBegin now test result => onTestBegin now test result
  | OnTestEnd now test result => onTestEnd now test result ;; runCallbacks
  | OnEnd now => onEnd now ;; ret tt
  end.

Definition step (e : Event) (m : Reporter * World W) : Reporter * World W :=
  let '(_, r, w) := handle e m.1 m.2 in (r, w).

Definition run (es : list Event) (m : Reporter * World W)
    : Reporter * World W :=
  foldl (λ m e, step e m) m es.

End WithClient.
End Gated.

(** * The batched revision of the reporter *)

Module Batched.

(** [PendingAttachment] *)
Record PendingAttachment := {
  pa_testResultId : string;
  pa_name : string;
  pa_contentType : string;
  pa_data : list Byte.byte;
  pa_type : AttachmentType
}.

(** An element of [resultQueue]. *)
Record QueueItem := {
  result : QAStudioTestResult;
  atts : list PendingAttachment
}.

(** A promise of [flushPromises]: the request of the batch is in flight
    with the answer it will get, or its [then] and [catch] have run. *)
Inductive FlushPromise :=
| InFlight (batch : list QueueItem)
    (answer : Settled SubmitTestResultsResponse)
| Finished (s : Settled unit).

Record Reporter := {
  options : Options;
  state : ReporterState;
  counters : Counters;
  resultQueue : list QueueItem;
  flushPromises : list FlushPromise;
  pendingCreate : option (Settled CreateTestRunResponse)
}.

Definition setState (f : ReporterState → ReporterState) (r : Reporter) :=
  {| options := options r; state := f (state r); counters := counters r;
     resultQueue := resultQueue r; flushPromises := flushPromises r;
     pendingCreate := pendingCreate r |}.
Definition setCounters (f : Counters → Counters) (r : Reporter) :=
  {| options := options r; state := state r; counters := f (counters r);
     resultQueue := resultQueue r; flushPromises := flushPromises r;
     pendingCreate := pendingCreate r |}.
Definition setResultQueue (v : list QueueItem) (r : Reporter) :=
  {| options := options r; state := state r; counters := counters r;
     resultQueue := v; flushPromises := flushPromises r;
     pendingCreate := pendingCreate r |}.
Definition setFlushPromises (v : list FlushPromise) (r : Reporter) :=
  {| options := options r; state := state r; counters := counters r;
     resultQueue := resultQueue r; flushPromises := v;
     pendingCreate := pendingCreate r |}.
Definition setPendingCreate (v : option (Settled CreateTestRunResponse))
    (r : Reporter) :=
  {| options := options r; state := state r; counters := counters r;
     resultQueue := resultQueue r; flushPromises := flushPromises r;
     pendingCreate := v |}.

Definition newReporter (o : Options) : Reporter :=
  {| options := o; state := newState; counters := zeroCounters;
     resultQueue := []; flushPromises := []; pendingCreate := None |}.

(** [filteredAttachments.map((att) => ({ testResultId: '', ... }))] *)
Definition toPending (att : AttachmentBuffer) : PendingAttachment :=
  {| pa_testResultId := ""; pa_name := att_name att;
     pa_contentType := att_contentType att; pa_data := att_data att;
     pa_type := att_type att |}.

(** [attachment.testResultId = testResultId] *)
Definition withResultId (id : string) (a : PendingAttachment)
    : PendingAttachment :=
  {| pa_testResultId := id; pa_name := pa_name a;
     pa_contentType := pa_contentType a; pa_data := pa_data a;
     pa_type := pa_type a |}.

(** [new Set(response.results.map((r) => r.title))] *)
Definition processedTitles (results : list ResultId) : gset string :=
  list_to_set (rid_title <$> results).

(** [resultQueue.filter((item) => !processedTitles.has(item.result.title))] *)
Definition pruneQueue (results : list ResultId) (queue : list QueueItem)
    : list QueueItem :=
  List.filter
    (λ item, negb (bool_decide (qa_title (result item)
                                  ∈ processedTitles results)))
    queue.

(** The [Map] of [uploadBatchAttachments]: later entries overwrite. *)
Definition titleToResultId (resultIds : list ResultId) : gmap string string :=
  foldl (λ m rid, <[rid_title rid := testResultId rid]> m) ∅ resultIds.

(** The attachments [uploadBatchAttachments] collects, each with the
    identifier of its result. *)
Definition allAttachments (batch : list QueueItem) (resultIds : list ResultId)
    : list PendingAttachment :=
  flat_map
    (λ item,
       let found := titleToResultId resultIds !! qa_title (result item) in
       if truthy found && (0 <? len (atts item))
       then withResultId (showOpt found) <$> atts item
       else [])
    batch.

Section WithClient.
Context {W : Type} {client : ApiClient W}.

#[local] Abbreviation Act := (M W Reporter).

Definition log (message : string) (args : list ConsoleArg) : Act unit :=
  o <- gets options ;; inWorld (logLine o message args).

Definition say (message : string) : Act unit :=
  inWorld (print {| stream := ConsoleLog; text := message; extra := [] |}).

Definition handleError (message : string) (error : Thrown)
    : Act (Settled unit) :=
  o <- gets options ;; ask (handleErrorIn o message error).

Definition uploadOne (attachment : PendingAttachment) : Act unit :=
  answer <- ask (request
    (CallUploadAttachment (pa_testResultId attachment) (pa_name attachment)
       (pa_contentType attachment) (pa_data attachment) (pa_type attachment))
    (uploadAttachment_api (pa_testResultId attachment) (pa_name attachment)
       (pa_contentType attachment) (pa_data attachment)
       (pa_type attachment))) ;;
  match answer with
  | Fulfilled _ =>
      log ("Uploaded attachment: " +:+ pa_name attachment +:+ " ("
             +:+ pretty (len (pa_data attachment)) +:+ " bytes)") []
  | Rejected error =>
      log ("Failed to upload attachment " +:+ pa_name attachment +:+ ":")
        [Value error]
  end.

(** [uploadBatchAttachments] *)
Definition uploadBatchAttachments (batch : list QueueItem)
    (resultIds : list ResultId) : Act (Settled unit) :=
  let all := allAttachments batch resultIds in
  if len all =? 0 then ret (Fulfilled tt)
  else
    log ("Uploading " +:+ pretty (len all) +:+ " attachments in parallel") [] ;;
    forEach uploadOne all ;;
    log ("Finished uploading " +:+ pretty (len all) +:+ " attachments") [] ;;
    ret (Fulfilled tt).

(** The [then] callback of [flushResults]. *)
Definition afterSubmit (batch : list QueueItem)
    (response : SubmitTestResultsResponse) : Act (Settled unit) :=
  log ("Batch submitted successfully: " +:+ pretty (processedCount response)
         +:+ " results processed") [] ;;
  let results := default [] (resp_results response) in
  let errors := default [] (resp_errors response) in
  when (0 <? len results)
    (queue <- gets resultQueue ;;
     modify (setResultQueue (pruneQueue results queue)) ;;
     log ("Removed " +:+ pretty (Z.of_nat (size (processedTitles results)))
            +:+ " processed results from queue, "
            +:+ pretty (len (pruneQueue results queue)) +:+ " remaining") []) ;;
  when (0 <? len errors)
    (log ("Batch had " +:+ pretty (len errors) +:+ " errors:") [] ;;
     forEach (λ err, log ("  - " +:+ se_testTitle err +:+ ": "
                            +:+ se_error err) []) errors) ;;
  if 0 <? len results then uploadBatchAttachments batch results
  else ret (Fulfilled tt).

(** The [catch] callback of [flushResults]. *)
Definition onBatchFailure (error : Thrown) : Act (Settled unit) :=
  thrown <- handleError "Failed to send batch" error ;;
  match thrown with
  | Rejected e => ret (Rejected e)
  | Fulfilled _ =>
      queue <- gets resultQueue ;;
      log ("Batch failed, " +:+ pretty (len queue)
             +:+ " results remain in queue for retry") [] ;;
      ret (Fulfilled tt)
  end.

(** What happens when the request of a batch settles. *)
Definition settleFlush (batch : list QueueItem)
    (answer : Settled SubmitTestResultsResponse) : Act (Settled unit) :=
  catch_ (then_ (ret answer) (afterSubmit batch)) onBatchFailure.

(** [flushResults]: it has no [await], so it runs to its end when called. *)
Definition flushResults : Act unit :=
  queue <- gets resultQueue ;;
  runId <- gets (λ r, testRunId (state r)) ;;
  if (len queue =? 0) || negb (truthy runId) then ret tt
  else
    let batch := queue in
    log ("Flushing batch of " +:+ pretty (len batch) +:+ " results") [] ;;
    let req := {| str_testRunId := showOpt runId;
                  str_results := result <$> batch |} in
    answer <- ask (request (CallSubmitTestResults req)
                     (submitTestResults_api req)) ;;
    promises <- gets flushPromises ;;
    modify (setFlushPromises (promises ++ [InFlight batch answer])).

(** [onBegin], up to the [await] and after it. *)
Definition onBegin (now : Z) : Act Completion :=
  modify (setState (setStartTime (Some now))) ;;
  log "Test run starting..." [] ;;
  o <- gets options ;;
  if createTestRun o && negb (truthy (opt_testRunId o)) then
    let req := {| ctr_projectId := projectId o;
                  ctr_name := testRunName o;
                  ctr_description := testRunDescription o;
                  ctr_environment := environment o;
                  ctr_milestoneId := milestoneId o |} in
    answer <- ask (request (CallCreateTestRun req) (createTestRun_api req)) ;;
    modify (setPendingCreate (Some answer)) ;;
    ret Awaiting
  else
    modify (setState (setTestRunId (opt_testRunId o))) ;;
    log ("Using existing test run ID: " +:+ showOpt (opt_testRunId o)) [] ;;
    ret (Completed (Fulfilled tt)).

Definition onBeginResume : Act Completion :=
  pending <- gets pendingCreate ;;
  match pending with
  | None => ret Awaiting
  | Some (Fulfilled response) =>
      modify (setPendingCreate None) ;;
      modify (setState (setTestRunId (Some (resp_id response)))) ;;
      log ("Created test run with ID: " +:+ resp_id response) [] ;;
      ret (Completed (Fulfilled tt))
  | Some (Rejected error) =>
      modify (setPendingCreate None) ;;
      thrown <- handleError "Failed to create test run" error ;;
      ret (Completed thrown)
  end.

(** [onTestBegin] *)
Definition onTestBegin (now : Z) (test : TestCase) (res : TestResult)
    : Act unit :=
  modify (setState (λ s, setTests
    (<[getTestId test :=
         {| td_test := test; td_result := res;
            td_startTime := now; td_endTime := None |}]> (tests s)) s)) ;;
  log ("Test started: " +:+ title test) [].

(** [onTestEnd] *)
Definition onTestEnd (now : Z) (test : TestCase) (res : TestResult)
    : Act unit :=
  known <- gets (λ r, tests (state r) !! getTestId test) ;;
  match known with
  | None => log ("Warning: Test data not found for " +:+ title test) []
  | Some testData =>
      modify (setState (λ s, setTests
        (<[getTestId test :=
             {| td_test := td_test testData; td_result := res;
                td_startTime := td_startTime testData;
                td_endTime := Some now |}]> (tests s)) s)) ;;
      when (retry res =? retries test)
        (modify (setCounters incTotal) ;;
         modify (setCounters (countStatus (status res))) ;;
         runId <- gets (λ r, testRunId (state r)) ;;
         when (truthy runId)
           (o <- gets options ;;
            inWorld (printAll (extractAttachments res).1) ;;
            let qaResult :=
              deleteAttachments
                (convertTestResult test res (td_startTime testData)) in
            inWorld (printAll (extractAttachmentsAsBuffers res).1) ;;
            let filteredAttachments :=
              List.filter (keepAttachment o)
                (extractAttachmentsAsBuffers res).2 in
            queue <- gets resultQueue ;;
            modify (setResultQueue
              (queue ++ [{| result := qaResult;
                            atts := toPending <$> filteredAttachments |}])) ;;
            when (batchSize o <=? len queue + 1) flushResults)) ;;
      log ("Test ended: " +:+ title test +:+ " - "
             +:+ statusName (status res) +:+ " ("
             +:+ pretty (duration res) +:+ "ms) [retry: "
             +:+ pretty (retry res) +:+ "/" +:+ pretty (retries test)
             +:+ "]") []
  end.

(** [Promise.allSettled(flushPromises)]: every request still in flight
    settles and its callbacks run. *)
Definition finish (p : FlushPromise) : Act FlushPromise :=
  match p with
  | InFlight batch answer =>
      s <- settleFlush batch answer ;; ret (Finished s)
  | Finished s => ret (Finished s)
  end.

Fixpoint allSettled (ps : list FlushPromise) : Act unit :=
  match ps with
  | [] => ret tt
  | p :: ps => finish p ;; allSettled ps
  end.

(** [sendTestResults] *)
Definition sendTestResults : Act unit :=
  runId <- gets (λ r, testRunId (state r)) ;;
  if negb (truthy runId) then
    log "No test run ID available, skipping result submission" []
  else
    queue <- gets resultQueue ;;
    when (0 <? len queue) flushResults ;;
    promises <- gets flushPromises ;;
    when (0 <? len promises)
      (log ("Waiting for " +:+ pretty (len promises)
              +:+ " pending batch submissions...") [] ;;
       allSettled promises ;;
       modify (setFlushPromises [])) ;;
    log "All test results sent successfully" [].

(** [onEnd] *)
Definition onEnd (now : Z) : Act Completion :=
  modify (setState (setEndTime (Some now))) ;;
  begun <- gets (λ r, startTime (state r)) ;;
  let duration := now - default 0 begun in
  log "Test run completed" [] ;;
  c <- gets counters ;;
  log ("Total: " +:+ pretty (totalTests c) +:+ ", Passed: "
         +:+ pretty (passedTests c) +:+ ", Failed: "
         +:+ pretty (failedTests c) +:+ ", Skipped: "
         +:+ pretty (skippedTests c)) [] ;;
  log ("Duration: " +:+ formatDuration duration) [] ;;
  sendTestResults ;;
  runId <- gets (λ r, testRunId (state r)) ;;
  if truthy runId then
    let req :=
      {| cmp_testRunId := showOpt runId;
         summary := {| total := totalTests c; sum_passed := passedTests c;
                       sum_failed := failedTests c;
                       sum_skipped := skippedTests c;
                       sum_duration := duration |} |} in
    answer <- ask (request (CallCompleteTestRun req)
                     (completeTestRun_api req)) ;;
    match answer with
    | Rejected e =>
        thrown <- handleError "Failed to send test results" e ;;
        ret (Completed thrown)
    | Fulfilled _ =>
        log "Test run completed successfully" [] ;;
        o <- gets options ;;
        say (nl +:+ tag +:+ "View test run: " +:+ stripApiSuffix (apiUrl o)
               +:+ "/projects/" +:+ projectId o +:+ "/runs/"
               +:+ showOpt runId +:+ nl) ;;
        ret (Completed (Fulfilled tt))
    end
  else ret (Completed (Fulfilled tt)).

(** The [i]-th promise of [flushPromises] settles, if it is in flight. *)
Definition flushSettled (i : nat) : Act unit :=
  promises <- gets flushPromises ;;
  match promises !! i with
  | Some (InFlight batch answer) =>
      s <- settleFlush batch answer ;;
      promises' <- gets flushPromises ;;
      modify (setFlushPromises (<[i := Finished s]> promises'))
  | _ => ret tt
  end.

Inductive Event :=
| OnBegin (now : Z)
| CreateTestRunSettled
| OnTestBegin (now : Z) (test : TestCase) (res : TestResult)
| OnTestEnd (now : Z) (test : TestCase) (res : TestResult)
| FlushSettled (i : nat)
| OnEnd (now : Z).

Definition handle (e : Event) : Act unit :=
  match e with
  | OnBegin now => onBegin now ;; ret tt
  | CreateTestRunSettled => onBeginResume ;; ret tt
  | OnTestBegin now test res => onTestBegin now test res
  | OnTestEnd now test res => onTestEnd now test res
  | FlushSettled i => flushSettled i
  | OnEnd now => onEnd now ;; ret tt
  end.

Definition step (e : Event) (m : Reporter * World W) : Reporter * World W :=
  let '(_, r, w) := handle e m.1 m.2 in (r, w).

Definition run (es : list Event) (m : Reporter * World W)
    : Reporter * World W :=
  foldl (λ m e, step e m) m es.

End WithClient.
End Batched.

(** * The streaming revision of the reporter (no gate) *)

Module Streaming.

(** ['passed' | 'failed' | 'skipped'], the status kept with a failure. *)
Inductive Bucket := inPassed | inFailed | inSkipped.

Record UploadFailure := {
  uf_testTitle : string;
  uf_error : string;
  uf_status : Bucket
}.

Record Reporter := {
  options : Options;
  state : ReporterState;
  counters : Counters;
  flushPromises : list (Settled unit);
  uploadFailures : list UploadFailure;
  pendingCreate : option (Settled CreateTestRunResponse)
}.

Definition setState (f : ReporterState → ReporterState) (r : Reporter) :=
  {| options := options r; state := f (state r); counters := counters r;
     flushPromises := flushPromises r; uploadFailures := uploadFailures r;
     pendingCreate := pendingCreate r |}.
Definition setCounters (f : Counters → Counters) (r : Reporter) :=
  {| options := options r; state := state r; counters := f (counters r);
     flushPromises := flushPromises r; uploadFailures := uploadFailures r;
     pendingCreate := pendingCreate r |}.
Definition setFlushPromises (v : list (Settled unit)) (r : Reporter) :=
  {| options := options r; state := state r; counters := counters r;
     flushPromises := v; uploadFailures := uploadFailures r;
     pendingCreate := pendingCreate r |}.
Definition setUploadFailures (v : list UploadFailure) (r : Reporter) :=
  {| options := options r; state := state r; counters := counters r;
     flushPromises := flushPromises r; uploadFailures := v;
     pendingCreate := pendingCreate r |}.
Definition setPendingCreate (v : option (Settled CreateTestRunResponse))
    (r : Reporter) :=
  {| options := options r; state := state r; counters := counters r;
     flushPromises := flushPromises r; uploadFailures := uploadFailures r;
     pendingCreate := v |}.

Definition newReporter (o : Options) : Reporter :=
  {| options := o; state := newState; counters := zeroCounters;
     flushPromises := []; uploadFailures := []; pendingCreate := None |}.

(** The status [onTestEnd] records with a failed upload. *)
Definition failedStatus (s : TestStatus) : Bucket :=
  match s with
  | passed => inPassed
  | failed | timedOut => inFailed
  | _ => inSkipped
  end.

(** [uploadFailures.reduce(...)]: failures per status, as
    [(passed, failed, skipped)]. *)
Definition failuresByStatus (failures : list UploadFailure) : Z * Z * Z :=
  foldl
    (λ acc failure,
       let '(p, f, s) := acc in
       match uf_status failure with
       | inPassed => (p + 1, f, s)
       | inFailed => (p, f + 1, s)
       | inSkipped => (p, f, s + 1)
       end)
    (0, 0, 0) failures.

(** [actualUploaded] of [onEnd] *)
Definition actualUploaded (r : Reporter) : Z * Z * Z * Z :=
  let '(p, f, s) := failuresByStatus (uploadFailures r) in
  (totalTests (counters r) - len (uploadFailures r),
   passedTests (counters r) - p,
   failedTests (counters r) - f,
   skippedTests (counters r) - s).

Section WithClient.
Context {W : Type} {client : ApiClient W}.

#[local] Abbreviation Act := (M W Reporter).

Definition log (message : string) (args : list ConsoleArg) : Act unit :=
  o <- gets options ;; inWorld (logLine o message args).

Definition say (message : string) : Act unit :=
  inWorld (print {| stream := ConsoleLog; text := message; extra := [] |}).

Definition complain (message : string) : Act unit :=
  inWorld (print {| stream := ConsoleError; text := message; extra := [] |}).

Definition handleError (message : string) (error : Thrown)
    : Act (Settled unit) :=
  o <- gets options ;; ask (handleErrorIn o message error).

Definition uploadOne (resultId : string) (attachment : AttachmentBuffer)
    : Act unit :=
  answer <- ask (request
    (CallUploadAttachment resultId (att_name attachment)
       (att_contentType attachment) (att_data attachment)
       (att_type attachment))
    (uploadAttachment_api resultId (att_name attachment)
       (att_contentType attachment) (att_data attachment)
       (att_type attachment))) ;;
  match answer with
  | Fulfilled _ =>
      log ("Uploaded: " +:+ att_name attachment +:+ " ("
             +:+ pretty (len (att_data attachment)) +:+ " bytes)") []
  | Rejected error =>
      log ("Failed to upload " +:+ att_name attachment +:+ ":")
        [Value error]
  end.

Definition uploadAttachments (resultId : string)
    (atts : list AttachmentBuffer) : Act (Settled unit) :=
  if len atts =? 0 then ret (Fulfilled tt)
  else
    log ("Uploading " +:+ pretty (len atts) +:+ " attachments for result "
           +:+ resultId) [] ;;
    forEach (uploadOne resultId) atts ;;
    log ("Finished uploading " +:+ pretty (len atts) +:+ " attachments") [] ;;
    ret (Fulfilled tt).

Definition sendTestResult (result : QAStudioTestResult)
    (atts : list AttachmentBuffer) : Act (Settled unit) :=
  runId <- gets (λ r, testRunId (state r)) ;;
  if negb (truthy runId) then ret (Fulfilled tt)
  else
    log ("Sending result: " +:+ qa_title result) [] ;;
    let req := {| str_testRunId := showOpt runId; str_results := [result] |} in
    answer <- ask (request (CallSubmitTestResults req)
                     (submitTestResults_api req)) ;;
    match answer with
    | Rejected error => ret (Rejected error)
    | Fulfilled response =>
        log ("Result submitted: " +:+ qa_title result +:+ " ("
               +:+ pretty (processedCount response) +:+ " processed)") [] ;;
        forEach (λ err, log ("  Error: " +:+ se_error err) [])
          (default [] (resp_errors response)) ;;
        match default [] (resp_results response), atts with
        | first :: _, _ :: _ => uploadAttachments (testResultId first) atts
        | _, _ => ret (Fulfilled tt)
        end
    end.

(** [error.message] of the value caught in [onTestEnd]: [undefined] when
    the value is no [Error]. *)
Definition messageOf (error : Thrown) : string :=
  match error with
  | ErrorObject message => message
  | OtherValue _ | Unprintable _ => "undefined"
  end.

(** The [catch] callback of [onTestEnd]. *)
Definition onSendFailure (test : TestCase) (res : TestResult)
    (error : Thrown) : Act (Settled unit) :=
  failures <- gets uploadFailures ;;
  modify (setUploadFailures
    (failures ++ [{| uf_testTitle := title test;
                     uf_error := messageOf error;
                     uf_status := failedStatus (status res) |}])) ;;
  o <- gets options ;;
  when (verbose o)
    (log ("Failed to send result for " +:+ title test +:+ ":")
       [Text (messageOf error)]) ;;
  ret (Fulfilled tt).

Definition onBegin (now : Z) : Act Completion :=
  modify (setState (setStartTime (Some now))) ;;
  log "Test run starting..." [] ;;
  o <- gets options ;;
  if createTestRun o && negb (truthy (opt_testRunId o)) then
    let req := {| ctr_projectId := projectId o;
                  ctr_name := testRunName o;
                  ctr_description := testRunDescription o;
                  ctr_environment := environment o;
                  ctr_milestoneId := milestoneId o |} in
    answer <- ask (request (CallCreateTestRun req) (createTestRun_api req)) ;;
    modify (setPendingCreate (Some answer)) ;;
    ret Awaiting
  else
    modify (setState (setTestRunId (opt_testRunId o))) ;;
    log ("Using existing test run ID: " +:+ showOpt (opt_testRunId o)) [] ;;
    ret (Completed (Fulfilled tt)).

Definition onBeginResume : Act Completion :=
  pending <- gets pendingCreate ;;
  match pending with
  | None => ret Awaiting
  | Some (Fulfilled response) =>
      modify (setPendingCreate None) ;;
      modify (setState (setTestRunId (Some (resp_id response)))) ;;
      log ("Created test run with ID: " +:+ resp_id response) [] ;;
      ret (Completed (Fulfilled tt))
  | Some (Rejected error) =>
      modify (setPendingCreate None) ;;
      thrown <- handleError "Failed to create test run" error ;;
      ret (Completed thrown)
  end.

Definition onTestBegin (now : Z) (test : TestCase) (res : TestResult)
    : Act unit :=
  modify (setState (λ s, setTests
    (<[getTestId test :=
         {| td_test := test; td_result := res;
            td_startTime := now; td_endTime := None |}]> (tests s)) s)) ;;
  log ("Test started: " +:+ title test) [].

Definition onTestEnd (now : Z) (test : TestCase) (res : TestResult)
    : Act unit :=
  known <- gets (λ r, tests (state r) !! getTestId test) ;;
  match known with
  | None => log ("Warning: Test data not found for " +:+ title test) []
  | Some testData =>
      modify (setState (λ s, setTests
        (<[getTestId test :=
             {| td_test := td_test testData; td_result := res;
                td_startTime := td_startTime testData;
                td_endTime := Some now |}]> (tests s)) s)) ;;
      when (retry res =? retries test)
        (modify (setCounters incTotal) ;;
         modify (setCounters (countStatus (status res))) ;;
         runId <- gets (λ r, testRunId (state r)) ;;
         when (truthy runId)
           (o <- gets options ;;
            inWorld (printAll (extractAttachments res).1) ;;
            let qaResult :=
              deleteAttachments
                (convertTestResult test res (td_startTime testData)) in
            inWorld (printAll (extractAttachmentsAsBuffers res).1) ;;
            let filteredAttachments :=
              List.filter (keepAttachment o)
                (extractAttachmentsAsBuffers res).2 in
            sent <- catch_ (sendTestResult qaResult filteredAttachments)
                      (onSendFailure test res) ;;
            tracked <- gets flushPromises ;;
            modify (setFlushPromises (tracked ++ [sent])))) ;;
      log ("Test ended: " +:+ title test +:+ " - "
             +:+ statusName (status res) +:+ " ("
             +:+ pretty (duration res) +:+ "ms) [retry: "
             +:+ pretty (retry res) +:+ "/" +:+ pretty (retries test)
             +:+ "]") []
  end.

Definition sendTestResults : Act unit :=
  runId <- gets (λ r, testRunId (state r)) ;;
  if negb (truthy runId) then
    log "No test run ID available, skipping result submission" []
  else
    tracked <- gets flushPromises ;;
    when (0 <? len tracked)
      (log ("Waiting for " +:+ pretty (len tracked)
              +:+ " pending result submissions...") [] ;;
       modify (setFlushPromises [])) ;;
    log "All test results sent successfully" [].

Definition reportUploadFailures : Act unit :=
  failures <- gets uploadFailures ;;
  n <- gets (λ r, totalTests (counters r)) ;;
  when (0 <? len failures)
    (complain (nl +:+ tag +:+ "⚠️  WARNING: " +:+ pretty (len failures)
                 +:+ " test result(s) failed to upload:" +:+ nl) ;;
     forEach (λ failure,
                complain ("  ❌ " +:+ uf_testTitle failure) ;;
                complain ("     Error: " +:+ uf_error failure +:+ nl))
       failures ;;
     complain (tag +:+ "Test run may be incomplete. Expected " +:+ pretty n
                 +:+ " tests, but " +:+ pretty (len failures)
                 +:+ " failed to upload." +:+ nl)).

Definition completeRun (duration : Z) : Act (Settled unit) :=
  runId <- gets (λ r, testRunId (state r)) ;;
  if truthy runId then
    actual <- gets actualUploaded ;;
    let '(uploaded, passedCount, failedCount, skippedCount) := actual in
    let req :=
      {| cmp_testRunId := showOpt runId;
         summary := {| total := uploaded; sum_passed := passedCount;
                       sum_failed := failedCount;
                       sum_skipped := skippedCount;
                       sum_duration := duration |} |} in
    answer <- ask (request (CallCompleteTestRun req)
                     (completeTestRun_api req)) ;;
    match answer with
    | Rejected e => ret (Rejected e)
    | Fulfilled _ =>
        log "Test run completed successfully" [] ;;
        o <- gets options ;;
        say (nl +:+ tag +:+ "View test run: " +:+ stripApiSuffix (apiUrl o)
               +:+ "/projects/" +:+ projectId o +:+ "/runs/"
               +:+ showOpt runId) ;;
        failures <- gets uploadFailures ;;
        n <- gets (λ r, totalTests (counters r)) ;;
        (if 0 <? len failures then
           say (tag +:+ "⚠️  " +:+ pretty (n - len failures) +:+ "/"
                  +:+ pretty n +:+ " tests uploaded successfully" +:+ nl)
         else
           say (tag +:+ "✅ All " +:+ pretty n
                  +:+ " tests uploaded successfully" +:+ nl)) ;;
        ret (Fulfilled tt)
    end
  else ret (Fulfilled tt).

Definition onEnd (now : Z) : Act Completion :=
  modify (setState (setEndTime (Some now))) ;;
  begun <- gets (λ r, startTime (state r)) ;;
  let duration := now - default 0 begun in
  log "Test run completed" [] ;;
  c <- gets counters ;;
  log ("Total: " +:+ pretty (totalTests c) +:+ ", Passed: "
         +:+ pretty (passedTests c) +:+ ", Failed: "
         +:+ pretty (failedTests c) +:+ ", Skipped: "
         +:+ pretty (skippedTests c)) [] ;;
  log ("Duration: " +:+ formatDuration duration) [] ;;
  sendTestResults ;;
  reportUploadFailures ;;
  completed <- completeRun duration ;;
  match completed with
  | Rejected e =>
      thrown <- handleError "Failed to send test results" e ;;
      ret (Completed thrown)
  | Fulfilled _ => ret (Completed (Fulfilled tt))
  end.

Inductive Event :=
| OnBegin (now : Z)
| CreateTestRunSettled
| OnTestBegin (now : Z) (test : TestCase) (res : TestResult)
| OnTestEnd (now : Z) (test : TestCase) (res : TestResult)
| OnEnd (now : Z).

Definition handle (e : Event) : Act unit :=
  match e with
  | OnBegin now => onBegin now ;; ret tt
  | CreateTestRunSettled => onBeginResume ;; ret tt
  | OnTestBegin now test res => onTestBegin now test res
  | OnTestEnd now test res => onTestEnd now test res
  | OnEnd now => onEnd now ;; ret tt
  end.

Definition step (e : Event) (m : Reporter * World W) : Reporter * World W :=
  let '(_, r, w) := handle e m.1 m.2 in (r, w).

Definition run (es : list Event) (m : Reporter * World W)
    : Reporter * World W :=
  foldl (λ m e, step e m) m es.

End WithClient.
End Streaming.

(** * utils.ts: the other helpers *)

(** ** [batchArray] *)

(** [Array.prototype.slice(start, end)]: a negative index counts from the
    end, and both are clamped to the array. *)
Definition clampIndex (n k : Z) : Z :=
  if k <? 0 then Z.max (n + k) 0 else Z.min k n.

Definition slice {A} (start stop : Z) (l : list A) : list A :=
  let first := clampIndex (len l) start in
  let final := clampIndex (len l) stop in
  take (Z.to_nat (final - first)) (drop (Z.to_nat first) l).

(** [batchArray]: the [for] loop, which runs as long as [i < array.length];
    [fuel] bounds the number of times its condition is evaluated. *)
Fixpoint batchLoop {A} (fuel : nat) (array : list A) (size i : Z)
    (batches : list (list A)) : option (list (list A)) :=
  match fuel with
  | O => None
  | S fuel =>
      if i <? len array then
        batchLoop fuel array size (i + size)
          (batches ++ [slice i (i + size) array])%list
      else Some batches
  end.

Definition batchArray {A} (fuel : nat) (array : list A) (size : Z)
    : option (list (list A)) :=
  batchLoop fuel array size 0 [].

(** ** [convertTestStep] *)

(** [Location] *)
Record Location := { loc_file : string; loc_line : Z; loc_column : Z }.

(** [TestError], of which the code reads [message] and [stack]. *)
Record TestError := {
  err_message : option string;
  err_stack : option string
}.

(** Playwright's [TestStep]; [ts_startTime] is in milliseconds. *)
#[warnings="-register-all"]
Inductive TestStep := {
  ts_title : string;
  ts_category : string;
  ts_startTime : Z;
  ts_duration : Z;
  ts_error : option TestError;
  ts_location : option Location;
  ts_steps : list TestStep
}.

(** [QAStudioTestStep]; [qs_steps] is set only when the step has nested
    steps. *)
#[warnings="-register-all"]
Inductive QAStudioTestStep := {
  qs_title : string;
  qs_category : string;
  qs_startTime : Z;
  qs_duration : Z;
  qs_status : string;
  qs_error : option string;
  qs_stackTrace : option string;
  qs_location : option Location;
  qs_steps : option (list QAStudioTestStep)
}.

(** [array.map(f).filter((s) => s !== null)] *)
Definition mapNotNull {A B} (f : A → option B) : list A → list B :=
  fix go (l : list A) : list B :=
    match l with
    | [] => []
    | x :: l => match f x with Some y => y :: go l | None => go l end
    end.

(** [convertTestStep] *)
Fixpoint convertTestStep (filterFixtures : bool) (step : TestStep)
    : option QAStudioTestStep :=
  if filterFixtures && bool_decide (ts_category step = "fixture") then None
  else
    Some
      {| qs_title := ts_title step;
         qs_category := ts_category step;
         qs_startTime := ts_startTime step;
         qs_duration := ts_duration step;
         qs_status :=
           match ts_error step with
           | Some _ => "failed"
           | None => if ts_duration step =? -1 then "skipped" else "passed"
           end;
         qs_error := ts_error step ≫= err_message;
         qs_stackTrace := ts_error step ≫= err_stack;
         qs_location := ts_location step;
         qs_steps :=
           match ts_steps step with
           | [] => None
           | nested => Some (mapNotNull (convertTestStep filterFixtures) nested)
           end |}.

(** ** [extractTestCaseId] *)

(** An element of [test.annotations]. *)
Record Annotation := {
  ann_type : string;
  ann_description : option string
}.

(** The character classes [A-Z] and [\d]. *)
Definition isUpper (c : ascii) : bool :=
  (65 <=? nat_of_ascii c)%nat && (nat_of_ascii c <=? 90)%nat.

Definition isDigit (c : ascii) : bool :=
  (48 <=? nat_of_ascii c)%nat && (nat_of_ascii c <=? 57)%nat.

(** The longest prefix of characters of a class, and what follows it. *)
Fixpoint span (p : ascii → bool) (s : string) : string * string :=
  match s with
  | String c rest =>
      if p c then let '(taken, after) := span p rest in (String c taken, after)
      else ("", s)
  | EmptyString => ("", "")
  end.

(** [title.match(/^\[([A-Z]+-\d+)\]/)], the first group of the match: no
    character of a class can stand for the character that has to follow
    it, so the longest prefixes are the only candidates. *)
Definition matchIdInTitle (title : string) : option string :=
  match title with
  | String "["%char rest =>
      let '(letters, rest) := span isUpper rest in
      match letters, rest with
      | String _ _, String "-"%char rest =>
          let '(digits, rest) := span isDigit rest in
          match digits, rest with
          | String _ _, String "]"%char _ => Some (letters +:+ "-" +:+ digits)
          | _, _ => None
          end
      | _, _ => None
      end
  | _ => None
  end.

(** [extractTestCaseId], on the annotations and the title of the test. *)
Definition extractTestCaseId (annotations : list Annotation) (title : string)
    : option string :=
  let annotation :=
    List.find (λ a, String.eqb (ann_type a) "testCaseId") annotations in
  if truthy (annotation ≫= ann_description)
  then annotation ≫= ann_description
  else matchIdInTitle title.

(** ** [extractMetadata] *)

(** The values [extractMetadata] stores: the list of tags, the location
    of the test, or the description of an annotation. *)
Inductive MetadataValue :=
| MetaTags (tags : list (option string))
| MetaLocation (location : Location)
| MetaText (description : option string).

(** [annotation.type !== 'tag' && annotation.type !== 'testCaseId'] *)
Definition customAnnotation (a : Annotation) : bool :=
  negb (String.eqb (ann_type a) "tag")
  && negb (String.eqb (ann_type a) "testCaseId").

(** [metadata[annotation.type] = annotation.description]: an assignment to
    [__proto__] of a value that is no object goes to the setter of
    [Object.prototype], which ignores it; every other key becomes a
    property of the object. *)
Definition assignProperty (key : string) (value : MetadataValue)
    (metadata : gmap string MetadataValue) : gmap string MetadataValue :=
  if String.eqb key "__proto__" then metadata else <[key := value]> metadata.

(** [extractMetadata], on the annotations and the location of the test. *)
Definition extractMetadata (annotations : list Annotation)
    (location : option Location) : gmap string MetadataValue :=
  let tags :=
    ann_description
      <$> List.filter (λ a, String.eqb (ann_type a) "tag") annotations in
  let metadata : gmap string MetadataValue :=
    if 0 <? len tags then <["tags" := MetaTags tags]> ∅ else ∅ in
  let metadata :=
    match location with
    | Some l =>
        <["location" :=
            MetaLocation {| loc_file := loc_file l; loc_line := loc_line l;
                            loc_column := loc_column l |}]> metadata
    | None => metadata
    end in
  foldl
    (λ metadata a,
       if customAnnotation a
       then assignProperty (ann_type a) (MetaText (ann_description a)) metadata
       else metadata)
    metadata annotations.

(** * Concrete clients and runs *)

(** A client without memory: it answers each kind of request in a fixed
    way. *)
Record Script := {
  creation : Settled CreateTestRunResponse;
  submission : SubmitTestResultsRequest → Settled SubmitTestResultsResponse;
  upload : Settled unit;
  completion : Settled unit
}.

Definition scripted (s : Script) : ApiClient unit :=
  {| createTestRun_api := λ _ w, (creation s, w);
     submitTestResults_api := λ req w, (submission s req, w);
     uploadAttachment_api := λ _ _ _ _ _ w, (upload s, w);
     completeTestRun_api := λ _ w, (completion s, w) |}.

(** The service accepts the results whose title satisfies [accepted]. *)
Definition confirm (accepted : string → bool)
    (req : SubmitTestResultsRequest) : Settled SubmitTestResultsResponse :=
  let done := List.filter (λ r, accepted (qa_title r)) (str_results req) in
  Fulfilled
    {| processedCount := len done;
       resp_results :=
         Some ((λ r, {| testResultId := "id:" +:+ qa_title r;
                        testCaseId := None;
                        rid_title := qa_title r |}) <$> done);
       resp_errors := None |}.

Definition happy : Script :=
  {| creation := Fulfilled {| resp_id := "run-1" |};
     submission := confirm (λ _, true);
     upload := Fulfilled tt;
     completion := Fulfilled tt |}.

Definition quotaExceeded : Script :=
  {| creation := Rejected (ErrorObject "quota exceeded");
     submission := confirm (λ _, true);
     upload := Fulfilled tt;
     completion := Fulfilled tt |}.

Definition lostAttachments : Script :=
  {| creation := Fulfilled {| resp_id := "run-1" |};
     submission := confirm (λ _, true);
     upload := Rejected (ErrorObject "upload refused");
     completion := Fulfilled tt |}.

Definition offline : Script :=
  {| creation := Fulfilled {| resp_id := "run-1" |};
     submission := λ _, Rejected (ErrorObject "socket hang up");
     upload := Fulfilled tt;
     completion := Fulfilled tt |}.

Definition partial : Script :=
  {| creation := Fulfilled {| resp_id := "run-1" |};
     submission := confirm (λ t, String.eqb t "first");
     upload := Fulfilled tt;
     completion := Fulfilled tt |}.

Definition defaults : Options :=
  {| apiUrl := "https://qastudio.dev/api";
     projectId := "abc123";
     environment := "default";
     opt_testRunId := None;
     milestoneId := None;
     createTestRun := true;
     testRunName := "Playwright Test Run";
     testRunDescription := None;
     verbose := false;
     batchSize := 50;
     uploadScreenshots := true;
     uploadVideos := true;
     silent := true |}.

Definition withBatchSize (n : Z) (o : Options) : Options :=
  {| apiUrl := apiUrl o; projectId := projectId o;
     environment := environment o; opt_testRunId := opt_testRunId o;
     milestoneId := milestoneId o; createTestRun := createTestRun o;
     testRunName := testRunName o;
     testRunDescription := testRunDescription o; verbose := verbose o;
     batchSize := n; uploadScreenshots := uploadScreenshots o;
     uploadVideos := uploadVideos o; silent := silent o |}.

Definition testNamed (name : string) : TestCase :=
  {| title := name; titlePath := ["chromium"; "login.spec.ts"; name];
     retries := 0 |}.

Definition resultOf (s : TestStatus) (atts : list Attachment)
    : TestResult :=
  {| status := s; retry := 0; duration := 12; errorMessage := None;
     attachments := atts |}.

(** A screenshot held in memory, and what [extractAttachmentsAsBuffers]
    makes of it. *)
Definition shotFile : Attachment :=
  {| a_name := "screenshot.png"; a_contentType := "image/png";
     a_body := Some [Byte.x89; Byte.x50]; a_path := None;
     a_file := Rejected (ErrorObject "no path") |}.

Definition shot : AttachmentBuffer :=
  {| att_name := "screenshot.png"; att_contentType := "image/png";
     att_data := [Byte.x89; Byte.x50]; att_type := screenshot |}.


Definition fiveNames : list string := ["t1"; "t2"; "t3"; "t4"; "t5"].

(** Scenario B: the session cannot be created, five records, the drain. *)
Definition scenarioB : list Gated.Event :=
  [Gated.OnBegin 0; Gated.CreateTestRunSettled]
  ++ ((λ n, Gated.OnTestBegin 1 (testNamed n) (resultOf passed [])) <$> fiveNames)
  ++ ((λ n, Gated.OnTestEnd 2 (testNamed n) (resultOf passed [])) <$> fiveNames)
  ++ [Gated.OnEnd 100].

(** Scenario D: one record with one attachment, and the end of the run. *)
Definition scenarioD : list Gated.Event :=
  [Gated.OnBegin 0;
   Gated.OnTestBegin 1 (testNamed "login") (resultOf failed [shotFile]);
   Gated.OnTestEnd 2 (testNamed "login") (resultOf failed [shotFile]);
   Gated.CreateTestRunSettled;
   Gated.OnEnd 100].

(** Three records of three different statuses, before the run ends. *)
Definition threeTests : list Gated.Event :=
  [Gated.OnBegin 0; Gated.CreateTestRunSettled;
   Gated.OnTestBegin 1 (testNamed "a") (resultOf passed []);
   Gated.OnTestEnd 2 (testNamed "a") (resultOf passed []);
   Gated.OnTestBegin 3 (testNamed "b") (resultOf timedOut []);
   Gated.OnTestEnd 4 (testNamed "b") (resultOf timedOut []);
   Gated.OnTestBegin 5 (testNamed "c") (resultOf interrupted []);
   Gated.OnTestEnd 6 (testNamed "c") (resultOf interrupted [])].

(** The same in the streaming revision. *)
Definition threeStreamed : list Streaming.Event :=
  [Streaming.OnBegin 0; Streaming.CreateTestRunSettled;
   Streaming.OnTestBegin 1 (testNamed "a") (resultOf passed []);
   Streaming.OnTestEnd 2 (testNamed "a") (resultOf passed []);
   Streaming.OnTestBegin 3 (testNamed "b") (resultOf timedOut []);
   Streaming.OnTestEnd 4 (testNamed "b") (resultOf timedOut []);
   Streaming.OnTestBegin 5 (testNamed "c") (resultOf interrupted []);
   Streaming.OnTestEnd 6 (testNamed "c") (resultOf interrupted [])].

Definition streamingStart : Streaming.Reporter * World unit :=
  (Streaming.newReporter defaults, newWorld tt).

(** A completion request with the given counts, for run [run-1] after 100
    milliseconds. *)
Definition completion100 (uploaded p f s : Z) : CompleteTestRunRequest :=
  {| cmp_testRunId := "run-1";
     summary := {| total := uploaded; sum_passed := p; sum_failed := f;
                   sum_skipped := s; sum_duration := 100 |} |}.

Definition gatedStart : Gated.Reporter * World unit :=
  (Gated.newReporter defaults, newWorld tt).

(** A run in which one test has begun. *)
Definition oneBegun : list Gated.Event :=
  [Gated.OnBegin 0; Gated.CreateTestRunSettled;
   Gated.OnTestBegin 1 (testNamed "a") (resultOf passed [])].

Definition dataOfA : InternalTestData :=
  {| td_test := testNamed "a"; td_result := resultOf passed [];
     td_startTime := 1; td_endTime := None |}.

(** The record of scenario D as it is sent, and the answer it gets. *)
Definition loginRecord : QAStudioTestResult :=
  deleteAttachments
    (convertTestResult (testNamed "login") (resultOf failed [shotFile]) 1).

Definition loginAnswer : SubmitTestResultsResponse :=
  {| processedCount := 1;
     resp_results :=
       Some [{| testResultId := "id:login"; testCaseId := None;
                rid_title := "login" |}];
     resp_errors := None |}.

(** Scenario C: batches of two, three records; the request of the first
    batch settles before the third record ends. *)
Definition scenarioC : list Batched.Event :=
  [Batched.OnBegin 0; Batched.CreateTestRunSettled;
   Batched.OnTestBegin 1 (testNamed "a") (resultOf passed []);
   Batched.OnTestEnd 2 (testNamed "a") (resultOf passed []);
   Batched.OnTestBegin 3 (testNamed "b") (resultOf failed []);
   Batched.OnTestEnd 4 (testNamed "b") (resultOf failed []);
   Batched.FlushSettled 0;
   Batched.OnTestBegin 5 (testNamed "c") (resultOf skipped []);
   Batched.OnTestEnd 6 (testNamed "c") (resultOf skipped []);
   Batched.OnEnd 100].

Definition batchedStart : Batched.Reporter * World unit :=
  (Batched.newReporter (withBatchSize 2 defaults), newWorld tt).

(** A step with a fixture step, which has a nested step, and an
    assertion that failed. *)
Definition leafStep (name category : string) (failure : option TestError)
    (nested : list TestStep) : TestStep :=
  {| ts_title := name; ts_category := category; ts_startTime := 10;
     ts_duration := 5; ts_error := failure; ts_location := None;
     ts_steps := nested |}.

Definition stepTree : TestStep :=
  leafStep "log in" "test.step" None
    [leafStep "fixture: page" "fixture" None
       [leafStep "browser.newPage" "pw:api" None []];
     leafStep "expect.toBeVisible" "expect"
       (Some {| err_message := Some "not visible"; err_stack := None |}) []].

(** The service takes everything but the completion of the run. *)
Definition refusesCompletion : Script :=
  {| creation := Fulfilled {| resp_id := "run-1" |};
     submission := confirm (λ _, true);
     upload := Fulfilled tt;
     completion := Rejected (ErrorObject "gateway timeout") |}.

Definition withoutScreenshots (o : Options) : Options :=
  {| apiUrl := apiUrl o; projectId := projectId o;
     environment := environment o; opt_testRunId := opt_testRunId o;
     milestoneId := milestoneId o; createTestRun := createTestRun o;
     testRunName := testRunName o;
     testRunDescription := testRunDescription o; verbose := verbose o;
     batchSize := batchSize o; uploadScreenshots := false;
     uploadVideos := uploadVideos o; silent := silent o |}.


(** The first two records of scenario C are ended and the request of
    their batch has not settled. *)
Definition twoQueued : list Batched.Event :=
  take 6 scenarioC.

(** The answer of the service that confirms the two records. *)
Definition bothConfirmed : SubmitTestResultsResponse :=
  {| processedCount := 2;
     resp_results :=
       Some [{| testResultId := "id:a"; testCaseId := None;
                rid_title := "a" |};
             {| testResultId := "id:b"; testCaseId := None;
                rid_title := "b" |}];
     resp_errors := None |}.

(** The same test in another project: the same title under another
    path. *)
Definition inFirefox (name : string) : TestCase :=
  {| title := name; titlePath := ["firefox"; "login.spec.ts"; name];
     retries := 0 |}.

(** The service processes the first record of a request and reports an
    error for each of the others. *)
Definition firstOnly : Script :=
  {| creation := Fulfilled {| resp_id := "run-1" |};
     submission := λ req,
       Fulfilled
         {| processedCount := len (take 1 (str_results req));
            resp_results :=
              Some ((λ r, {| testResultId := "id:" +:+ qa_title r;
                             testCaseId := None;
                             rid_title := qa_title r |})
                      <$> take 1 (str_results req));
            resp_errors :=
              Some ((λ r, {| se_testTitle := qa_title r;
                             se_error := "database unavailable" |})
                      <$> drop 1 (str_results req)) |};
     upload := Fulfilled tt;
     completion := Fulfilled tt |}.

(** One test that runs in two projects, with a batch size of two. *)
Definition twoProjects : list Batched.Event :=
  [Batched.OnBegin 0; Batched.CreateTestRunSettled;
   Batched.OnTestBegin 1 (testNamed "a") (resultOf passed []);
   Batched.OnTestEnd 2 (testNamed "a") (resultOf passed []);
   Batched.OnTestBegin 3 (inFirefox "a") (resultOf failed []);
   Batched.OnTestEnd 4 (inFirefox "a") (resultOf failed []);
   Batched.FlushSettled 0;
   Batched.OnEnd 100].

(** Scenario C when no request is answered before the drain. *)
Definition slowAnswers : list Batched.Event :=
  [Batched.OnBegin 0; Batched.CreateTestRunSettled;
   Batched.OnTestBegin 1 (testNamed "a") (resultOf passed []);
   Batched.OnTestEnd 2 (testNamed "a") (resultOf passed []);
   Batched.OnTestBegin 3 (testNamed "b") (resultOf failed []);
   Batched.OnTestEnd 4 (testNamed "b") (resultOf failed []);
   Batched.OnTestBegin 5 (testNamed "c") (resultOf skipped []);
   Batched.OnTestEnd 6 (testNamed "c") (resultOf skipped []);
   Batched.OnEnd 100].

(** The service rejects every submission with an object that has no
    string form, as [Object.create(null)]: [String] of it throws a
    [TypeError]. *)
Definition typeError : Thrown :=
  ErrorObject "Cannot convert object to primitive value".

Definition nullPrototype : Thrown := Unprintable typeError.

Definition rejectsOddly : Script :=
  {| creation := Fulfilled {| resp_id := "run-1" |};
     submission := λ _, Rejected nullPrototype;
     upload := Fulfilled tt;
     completion := Fulfilled tt |}.


(** * Predicates used in the statements

    What an action leaves as it is: [keeps R m] says that the states before
    and after [m] are related by [R]. *)

Definition keeps {W S A} (R : relation (S * World W)) (m : M W S A) : Prop :=
  ∀ r w, R (r, w) ((m r w).1.2, (m r w).2).

Definition sameReporter {W S} : relation (S * World W) :=
  λ a b, b.1 = a.1.

Definition sameCalls {W S} : relation (S * World W) :=
  λ a b, calls b.2 = calls a.2 ∧ remote b.2 = remote a.2.

Definition sameWorld {W S} : relation (S * World W) :=
  λ a b, b.2 = a.2.

(** Only the console may differ. *)
Definition quiet {W S} : relation (S * World W) :=
  λ a b, b.1 = a.1 ∧ calls b.2 = calls a.2 ∧ remote b.2 = remote a.2.

(** A field of the reporter object is as before. *)
Definition sameField {W S B} (f : S → B) : relation (S * World W) :=
  λ a b, f b.1 = f a.1.

(** The requests issued in between all satisfy [P]. *)
Definition callsGrowBy {W S} (P : ApiCall → Prop) : relation (S * World W) :=
  λ a b, ∃ l, calls b.2 = (calls a.2 ++ l)%list ∧ Forall P l.

(** The attempted counters add up. *)
Definition balanced (c : Counters) : Prop :=
  totalTests c = passedTests c + failedTests c + skippedTests c.

(** ** The gated revision: tracked promises *)

(** A tracked promise that has not been rejected. *)
Definition neverRejected (item : Gated.PendingUpload) : Prop :=
  match Gated.promise item with
  | Gated.AwaitingGate _ _ => True
  | Gated.Done (Fulfilled _) => True
  | Gated.Done (Rejected _) => False
  end.

(** A tracked promise that is fulfilled with an outcome. *)
Definition settledItem (item : Gated.PendingUpload) : Prop :=
  ∃ o, Gated.promise item = Gated.Done (Fulfilled o).

(** A tracked promise whose chain has run to its end, one way or the
    other. *)
Definition settled (item : Gated.PendingUpload) : Prop :=
  ∃ s, Gated.promise item = Gated.Done s.

(** Every value the client rejects a creation, a submission or a
    completion with has a string form; the rejection of an upload is only
    passed to the console. *)
Definition printable {W} (client : ApiClient W) : Prop :=
  ∀ (w : W) e,
    (∀ req, (createTestRun_api req w).1 = Rejected e → hasStringForm e = true)
    ∧ (∀ req, (submitTestResults_api req w).1 = Rejected e →
              hasStringForm e = true)
    ∧ (∀ req, (completeTestRun_api req w).1 = Rejected e →
              hasStringForm e = true).

(** The failure records of the tracked promises fulfilled with a failure,
    in the order of the promises. *)
Definition failuresOf (items : list Gated.PendingUpload)
    : list Gated.UploadFailure :=
  flat_map
    (λ item,
       match Gated.promise item with
       | Gated.Done (Fulfilled (Gated.Failure e)) =>
           [{| Gated.uf_testTitle := Gated.testTitle item;
               Gated.uf_error := e |}]
       | _ => []
       end)
    items.

(** What the drain may change: the tracked promises, the collected
    failures and the console. *)
Definition drained {W} : relation (Gated.Reporter * World W) :=
  λ a b,
    Gated.options b.1 = Gated.options a.1
    ∧ Gated.state b.1 = Gated.state a.1
    ∧ Gated.counters b.1 = Gated.counters a.1
    ∧ Gated.testRunReadyPromise b.1 = Gated.testRunReadyPromise a.1
    ∧ Gated.testRunCreationError b.1 = Gated.testRunCreationError a.1
    ∧ Gated.pendingCreate b.1 = Gated.pendingCreate a.1
    ∧ (Gated.flushPromises b.1 = Gated.flushPromises a.1
       ∨ Gated.flushPromises b.1 = [])
    ∧ calls b.2 = calls a.2
    ∧ remote b.2 = remote a.2.

(** The request [onEnd] sends to complete the run, for a reporter [r]
    after the drain. *)
Definition completionOf (duration : Z) (r : Gated.Reporter)
    : CompleteTestRunRequest :=
  {| cmp_testRunId := showOpt (testRunId (Gated.state r));
     summary :=
       {| total :=
            totalTests (Gated.counters r) - len (Gated.uploadFailures r);
          sum_passed := passedTests (Gated.counters r);
          sum_failed := failedTests (Gated.counters r);
          sum_skipped := skippedTests (Gated.counters r);
          sum_duration := duration |} |}.

(** The requests of a single upload task, once the primary submission is
    answered. *)
Definition uploadCall (resultId : string) (att : AttachmentBuffer) : ApiCall :=
  CallUploadAttachment resultId (att_name att) (att_contentType att)
    (att_data att) (att_type att).

Definition uploadsFor (response : SubmitTestResultsResponse)
    (atts : list AttachmentBuffer) : list ApiCall :=
  match default [] (resp_results response) with
  | first :: _ => uploadCall (testResultId first) <$> atts
  | [] => []
  end.

Definition submitRequest (r : Gated.Reporter) (result : QAStudioTestResult)
    : SubmitTestResultsRequest :=
  {| str_testRunId := showOpt (testRunId (Gated.state r));
     str_results := [result] |}.

(** The message a task fails with when there is no run id. *)
Definition gateFailure (r : Gated.Reporter) : string :=
  match Gated.testRunCreationError r with
  | Some message => "Test run creation failed: " +:+ message
  | None => "Test run was not created successfully"
  end.

(** ** The gated revision: runs *)

(** What holds of the reporter after any sequence of events. *)
Definition gatedInvariant (r : Gated.Reporter) : Prop :=
  balanced (Gated.counters r)
  ∧ (Gated.testRunReadyPromise r = Gated.Resolved →
     Forall settled (Gated.flushPromises r)).

(** Playwright calls [onBegin] once, first. *)
Definition isBegin (e : Gated.Event) : bool :=
  match e with
  | Gated.OnBegin _ => true
  | _ => false
  end.

Definition noBegin (es : list Gated.Event) : Prop :=
  Forall (λ e, isBegin e = false) es.

Definition notSubmit (c : ApiCall) : Prop :=
  match c with
  | CallSubmitTestResults _ => False
  | _ => True
  end.

Definition notCompletion (c : ApiCall) : Prop :=
  match c with
  | CallCompleteTestRun _ => False
  | _ => True
  end.

(** A submission that carries the run id of [r]. *)
Definition submitFor (r : Gated.Reporter) (c : ApiCall) : Prop :=
  match c with
  | CallSubmitTestResults req =>
      str_testRunId req = showOpt (testRunId (Gated.state r))
  | _ => True
  end.

Definition awaiting (item : Gated.PendingUpload) : Prop :=
  ∃ result atts, Gated.promise item = Gated.AwaitingGate result atts.

(** A tracked promise settled after reading the run id and the creation
    error of [r]. *)
Definition settledFor (r : Gated.Reporter) (item : Gated.PendingUpload)
    : Prop :=
  settled item
  ∧ (truthy (testRunId (Gated.state r)) = false →
     Gated.promise item
     = Gated.Done (Fulfilled (Gated.Failure (gateFailure r)))).

(** What holds during a run that starts with its only [onBegin]. *)
Definition lifecycleInvariant {W} (r : Gated.Reporter) (w : World W) : Prop :=
  match Gated.testRunReadyPromise r with
  | Gated.Unresolved =>
      testRunId (Gated.state r) = None
      ∧ Gated.testRunCreationError r = None
      ∧ Gated.uploadFailures r = []
      ∧ Forall awaiting (Gated.flushPromises r)
      ∧ Forall notSubmit (calls w)
      ∧ Forall notCompletion (calls w)
  | Gated.Resolved =>
      Gated.pendingCreate r = None
      ∧ (is_Some (Gated.testRunCreationError r) →
         testRunId (Gated.state r) = None)
      ∧ (truthy (testRunId (Gated.state r)) = false →
         Gated.uploadFailures r = []
         ∧ Forall notSubmit (calls w)
         ∧ Forall notCompletion (calls w))
      ∧ Forall (settledFor r) (Gated.flushPromises r)
      ∧ Forall (submitFor r) (calls w)
  end.

(** The same, between the handler of an event and the callbacks that run
    after it: some tracked promises may still wait for their callback. *)
Definition beforeCallbacks {W} (r : Gated.Reporter) (w : World W) : Prop :=
  match Gated.testRunReadyPromise r with
  | Gated.Unresolved => lifecycleInvariant r w
  | Gated.Resolved =>
      Gated.pendingCreate r = None
      ∧ (is_Some (Gated.testRunCreationError r) →
         testRunId (Gated.state r) = None)
      ∧ (truthy (testRunId (Gated.state r)) = false →
         Gated.uploadFailures r = []
         ∧ Forall notSubmit (calls w)
         ∧ Forall notCompletion (calls w))
      ∧ Forall (λ item, awaiting item ∨ settledFor r item)
          (Gated.flushPromises r)
      ∧ Forall (submitFor r) (calls w)
  end.

(** The requests issued between two worlds. *)
Definition newCalls {W} (before after : World W) : list ApiCall :=
  drop (length (calls before)) (calls after).

(** ** The batched revision *)

(** The request of a flush: every queued record, in one request. *)
Definition batchRequest (r : Batched.Reporter) : SubmitTestResultsRequest :=
  {| str_testRunId := showOpt (testRunId (Batched.state r));
     str_results := Batched.result <$> Batched.resultQueue r |}.

(** [flushResults] does something: the queue is not empty and there is a
    run id. *)
Definition canFlush (r : Batched.Reporter) : bool :=
  negb ((len (Batched.resultQueue r) =? 0)
        || negb (truthy (testRunId (Batched.state r)))).

(** The element [onTestEnd] appends to the queue. *)
Definition queued (o : Options) (test : TestCase) (res : TestResult)
    (startTime : Z) : Batched.QueueItem :=
  {| Batched.result :=
       deleteAttachments (convertTestResult test res startTime);
     Batched.atts :=
       Batched.toPending
         <$> List.filter (keepAttachment o)
               (extractAttachmentsAsBuffers res).2
  |}.

Definition pendingCall (a : Batched.PendingAttachment) : ApiCall :=
  CallUploadAttachment (Batched.pa_testResultId a) (Batched.pa_name a)
    (Batched.pa_contentType a) (Batched.pa_data a) (Batched.pa_type a).

(** The reporter once [onTestEnd] has counted and queued a final result
    whose test data is [td], before any flush. *)
Definition counted (now : Z) (test : TestCase) (res : TestResult)
    (td : InternalTestData) (r : Batched.Reporter) : Batched.Reporter :=
  Batched.setCounters (countStatus (status res))
    (Batched.setCounters incTotal
       (Batched.setState (λ s, setTests
          (<[getTestId test :=
               {| td_test := td_test td; td_result := res;
                  td_startTime := td_startTime td;
                  td_endTime := Some now |}]> (tests s)) s) r)).

Definition pushed (now : Z) (test : TestCase) (res : TestResult)
    (td : InternalTestData) (r : Batched.Reporter) : Batched.Reporter :=
  Batched.setResultQueue
    (Batched.resultQueue r
       ++ [queued (Batched.options r) test res (td_startTime td)])
    (counted now test res td r).

(** [onTestEnd] flushes: the test is known, the result is final, there is a
    run id, and the queue has reached the batch size. *)
Definition triggersFlush (test : TestCase) (res : TestResult)
    (r : Batched.Reporter) : bool :=
  bool_decide (is_Some (tests (Batched.state r) !! getTestId test))
  && (retry res =? retries test)
  && truthy (testRunId (Batched.state r))
  && (batchSize (Batched.options r) <=? len (Batched.resultQueue r) + 1).

(** The batches among some requests, in the order they were sent. *)
Definition submissions (l : list ApiCall) : list SubmitTestResultsRequest :=
  omap (λ c, match c with
             | CallSubmitTestResults req => Some req
             | _ => None
             end) l.

(** The titles of the records of each batch sent. *)
Definition batchesSent {W} (w : World W) : list (list string) :=
  (λ req, qa_title <$> str_results req) <$> submissions (calls w).

(** ** The helpers of utils.ts *)

(** Every batch but the last has [size] elements. *)
Definition fullButLast {A} (size : Z) (batches : list (list A)) : Prop :=
  ∀ k batch, batches !! k = Some batch → (S k < length batches)%nat →
             len batch = size.

(** The steps of a tree, the root first. *)
Fixpoint stepsOf (step : TestStep) : list TestStep :=
  step :: flat_map stepsOf (ts_steps step).

Fixpoint convertedSteps (step : QAStudioTestStep) : list QAStudioTestStep :=
  step :: match qs_steps step with
          | Some nested => flat_map convertedSteps nested
          | None => []
          end.

(** What identifies a step in both trees. *)
Definition stepKey (step : TestStep) : string * string * Z * Z :=
  (ts_title step, ts_category step, ts_startTime step, ts_duration step).

Definition convertedKey (step : QAStudioTestStep) : string * string * Z * Z :=
  (qs_title step, qs_category step, qs_startTime step, qs_duration step).

(** Every character of the string is of the class. *)
Definition allOf (p : ascii → bool) (s : string) : bool :=
  forallb p (list_ascii_of_string s).

(** ** The readiness-gate revision: more on runs *)

(** A run id is stored only by code that opens the gate next. *)
Definition resolvedWhenReady (r : Gated.Reporter) : Prop :=
  truthy (testRunId (Gated.state r)) = true →
  Gated.testRunReadyPromise r = Gated.Resolved.

(** How a call of [handleError] ends. *)
Definition handled (o : Options) (message : string) (e : Thrown)
    : Settled unit :=
  match errorText e with
  | Rejected raised => Rejected raised
  | Fulfilled errorMessage =>
      if silent o then Fulfilled tt
      else Rejected (ErrorObject (message +:+ ": " +:+ errorMessage))
  end.

(** How [onEnd] ends when the completion request got [answer]. *)
Definition afterCompletion (o : Options) (answer : Settled unit)
    : Settled unit :=
  match answer with
  | Fulfilled _ => Fulfilled tt
  | Rejected e => handled o "Failed to send test results" e
  end.

(** The records and the attachments of the tracked promises whose chain
    has not run yet. *)
Definition waitingRecords (items : list Gated.PendingUpload)
    : list QAStudioTestResult :=
  omap (λ item, match Gated.promise item with
                | Gated.AwaitingGate result _ => Some result
                | Gated.Done _ => None
                end) items.

Definition waitingAttachments (items : list Gated.PendingUpload)
    : list AttachmentBuffer :=
  flat_map (λ item, match Gated.promise item with
                    | Gated.AwaitingGate _ atts => atts
                    | Gated.Done _ => []
                    end) items.

(** The attachment a request uploads, if it is an upload. *)
Definition uploaded (c : ApiCall) : option AttachmentBuffer :=
  match c with
  | CallUploadAttachment _ name contentType data type =>
      Some {| att_name := name; att_contentType := contentType;
              att_data := data; att_type := type |}
  | _ => None
  end.

(** A request of an upload task for one of the attachments [atts]: the
    submission, or the upload of one of them. *)
Definition taskCall (atts : list AttachmentBuffer) (c : ApiCall) : Prop :=
  match c with
  | CallSubmitTestResults _ => True
  | CallUploadAttachment _ _ _ _ _ => ∃ att, uploaded c = Some att ∧ att ∈ atts
  | _ => False
  end.

(** A request the options allow: any request but the upload of an
    attachment that [onTestEnd] filters out. *)
Definition allowedCall (o : Options) (c : ApiCall) : Prop :=
  match uploaded c with
  | Some att => keepAttachment o att = true
  | None => True
  end.

(** The record [onTestEnd] tracks for an event, if it tracks one. *)
Definition trackedRecord (e : Gated.Event) (r : Gated.Reporter)
    : list QAStudioTestResult :=
  match e with
  | Gated.OnTestEnd now test res =>
      match tests (Gated.state r) !! getTestId test with
      | Some td =>
          if retry res =? retries test
          then [deleteAttachments
                  (convertTestResult test res (td_startTime td))]
          else []
      | None => []
      end
  | _ => []
  end.

(** What [onTestEnd]'s filter guarantees during a run with options [o]:
    the attachments still waiting behind the gate passed the filter, and
    so did every attachment uploaded so far. *)
Definition filterRespected {W} (o : Options) (r : Gated.Reporter)
    (w : World W) : Prop :=
  Gated.options r = o
  ∧ Forall (λ att, keepAttachment o att = true)
      (waitingAttachments (Gated.flushPromises r))
  ∧ Forall (allowedCall o) (calls w).


(** ** The batched revision: the end of the run *)

(** The completion request of the batched revision: the attempted counters
    as they are. *)
Definition attemptedSummary (duration : Z) (r : Batched.Reporter)
    : CompleteTestRunRequest :=
  {| cmp_testRunId := showOpt (testRunId (Batched.state r));
     summary :=
       {| total := totalTests (Batched.counters r);
          sum_passed := passedTests (Batched.counters r);
          sum_failed := failedTests (Batched.counters r);
          sum_skipped := skippedTests (Batched.counters r);
          sum_duration := duration |} |}.

(** The service lists the title of every record of the queue among the
    results of its answer. *)
Definition confirmsAll (response : SubmitTestResultsResponse)
    (queue : list Batched.QueueItem) : Prop :=
  Forall (λ item, qa_title (Batched.result item)
                  ∈ (rid_title <$> default [] (resp_results response)))
    queue.

(** The queue of [r'] holds records of the queue of [r], in their order,
    and nothing else of the reporter object differs but the tracked
    promises. *)
Definition pruned (r r' : Batched.Reporter) : Prop :=
  Batched.options r' = Batched.options r
  ∧ Batched.state r' = Batched.state r
  ∧ Batched.counters r' = Batched.counters r
  ∧ Batched.resultQueue r' `sublist_of` Batched.resultQueue r.

(** No title the answer lists is in the queue. *)
Definition unconfirmed (response : SubmitTestResultsResponse)
    (queue : list Batched.QueueItem) : Prop :=
  Forall (λ item, qa_title (Batched.result item)
                  ∉ (rid_title <$> default [] (resp_results response)))
    queue.

(** ** The streaming revision: failures and counters *)

(** Every recorded failure is the failure of a counted test of the same
    status: per status there are no more failures than tests, and the
    attempted counters add up. *)
Definition accounted (r : Streaming.Reporter) : Prop :=
  let c := Streaming.counters r in
  let lost := Streaming.failuresByStatus (Streaming.uploadFailures r) in
  balanced c
  ∧ 0 ≤ lost.1.1 ≤ passedTests c
  ∧ 0 ≤ lost.1.2 ≤ failedTests c
  ∧ 0 ≤ lost.2 ≤ skippedTests c
  ∧ lost.1.1 + lost.1.2 + lost.2 = len (Streaming.uploadFailures r).

(** ** The batched revision: where attachments go *)

(** The identifier a response lists last for a title. *)
Definition lastListed (resultIds : list ResultId) (t : string)
    : option string :=
  testResultId <$> last (filter (λ rid, rid_title rid = t) resultIds).

(** The upload request of an attachment, for a result identifier. *)
Definition uploadCallOf (id : string) (a : Batched.PendingAttachment)
    : ApiCall :=
  CallUploadAttachment id (Batched.pa_name a) (Batched.pa_contentType a)
    (Batched.pa_data a) (Batched.pa_type a).

(** The upload requests of a batch: for every record whose title the
    response lists with a non-empty identifier, one request per
    attachment, to the identifier listed last for that title. *)
Definition batchUploads (batch : list Batched.QueueItem)
    (resultIds : list ResultId) : list ApiCall :=
  flat_map
    (λ item,
       match lastListed resultIds (qa_title (Batched.result item)) with
       | Some id =>
           if String.eqb id "" then []
           else uploadCallOf id <$> Batched.atts item
       | None => []
       end)
    batch.

(** ** The metadata of a test *)

(** The annotations that become the property [key] of the metadata. *)
Definition writesProperty (key : string) (a : Annotation) : Prop :=
  customAnnotation a = true ∧ ann_type a = key ∧ key ≠ "__proto__".

#[global] Instance writesProperty_dec key a : Decision (writesProperty key a).
Proof. unfold writesProperty. apply _. Defined.

(** The descriptions of the annotations of type [tag], in order. *)
Definition tagsOf (annotations : list Annotation) : list (option string) :=
  ann_description <$> filter (λ a, ann_type a = "tag") annotations.

(** ** The gated revision: what a task prints *)

(** The line [uploadAttachments] passes to [log] when the upload of an
    attachment has settled. *)
Definition uploadLine (att : AttachmentBuffer) (answer : Settled unit)
    : ConsoleLine :=
  match answer with
  | Fulfilled _ =>
      {| stream := ConsoleLog;
         text := tag +:+ "Uploaded: " +:+ att_name att +:+ " ("
                   +:+ pretty (len (att_data att)) +:+ " bytes)";
         extra := [] |}
  | Rejected error =>
      {| stream := ConsoleLog;
         text := tag +:+ "Failed to upload " +:+ att_name att +:+ ":";
         extra := [Value error] |}
  end.

(** The reporter object is as before, and so is the console unless the
    reporter is verbose. *)
Definition muted {W} : relation (Gated.Reporter * World W) :=
  λ a b,
    b.1 = a.1
    ∧ (verbose (Gated.options a.1) = false → console b.2 = console a.2).

(** ** Attachments whose file cannot be read *)




(** * Properties *)

(** ** Actions and the relations they keep *)

Section Frames.
Context {W S : Type}.
Variable R : relation (S * World W).
Context {R_pre : PreOrder R}.

#[local] Abbreviation keeps := (keeps R).

Lemma keeps_ret {A} (a : A) : keeps (ret a).
Proof. intros r w. reflexivity. Qed.

Lemma keeps_gets {A} (f : S → A) : keeps (gets f).
Proof. intros r w. reflexivity. Qed.

Lemma keeps_bind {A B} (m : M W S A) (k : A → M W S B) :
  keeps m → (∀ a, keeps (k a)) → keeps (bind m k).
Proof.
  intros Hm Hk r w. unfold bind.
  specialize (Hm r w). destruct (m r w) as [[a r'] w'] eqn:E.
  etransitivity; [exact Hm|]. apply Hk.
Qed.

Lemma keeps_when (b : bool) (m : M W S unit) : keeps m → keeps (when b m).
Proof. intros Hm. destruct b; [exact Hm | apply keeps_ret]. Qed.

Lemma keeps_forEach {A} (f : A → M W S unit) (l : list A) :
  (∀ x, keeps (f x)) → keeps (forEach f l).
Proof.
  intros Hf. induction l as [|x l IH]; simpl.
  - apply keeps_ret.
  - apply keeps_bind; [apply Hf | intros _; exact IH].
Qed.

Lemma keeps_then {A B} (p : M W S (Settled A)) (f : A → M W S (Settled B)) :
  keeps p → (∀ a, keeps (f a)) → keeps (then_ p f).
Proof.
  intros Hp Hf. apply keeps_bind; [exact Hp|].
  intros [a|e]; [apply Hf | apply keeps_ret].
Qed.

Lemma keeps_catch {A} (p : M W S (Settled A))
    (h : Thrown → M W S (Settled A)) :
  keeps p → (∀ e, keeps (h e)) → keeps (catch_ p h).
Proof.
  intros Hp Hh. apply keeps_bind; [exact Hp|].
  intros [a|e]; [apply keeps_ret | apply Hh].
Qed.

End Frames.

#[local] Instance sameReporter_pre {W S} : PreOrder (@sameReporter W S).
Proof. split; [intros x; reflexivity | intros x y z H1 H2; unfold sameReporter in *; congruence]. Qed.

#[local] Instance sameCalls_pre {W S} : PreOrder (@sameCalls W S).
Proof.
  split; [intros x; split; reflexivity |].
  intros x y z [H1 H1'] [H2 H2']. split; congruence.
Qed.

#[local] Instance quiet_pre {W S} : PreOrder (@quiet W S).
Proof.
  split; [intros x; repeat split; reflexivity |].
  intros x y z (H1 & H2 & H3) (H4 & H5 & H6). repeat split; congruence.
Qed.

#[local] Instance drained_pre {W} : PreOrder (@drained W).
Proof.
  split.
  - intros x. unfold drained. repeat split; try reflexivity. by left.
  - intros x y z H1 H2. unfold drained in *.
    destruct H1 as (?&?&?&?&?&?&Hf1&?&?), H2 as (?&?&?&?&?&?&Hf2&?&?).
    repeat split; try congruence.
    destruct Hf2 as [Hf2|Hf2]; [|by right].
    destruct Hf1 as [Hf1|Hf1]; [left|right]; congruence.
Qed.

#[local] Instance sameField_pre {W S B} (f : S → B) :
  PreOrder (@sameField W S B f).
Proof.
  split; [intros x; reflexivity|].
  intros x y z H1 H2. unfold sameField in *. congruence.
Qed.

#[local] Instance callsGrowBy_pre {W S} (P : ApiCall → Prop) :
  PreOrder (@callsGrowBy W S P).
Proof.
  split.
  - intros x. exists []. rewrite app_nil_r. split; [reflexivity|constructor].
  - intros x y z (l1 & H1 & P1) (l2 & H2 & P2).
    exists (l1 ++ l2)%list. rewrite H2, H1, <- app_assoc.
    split; [reflexivity | apply Forall_app; done].
Qed.

Lemma quiet_callsGrowBy {W S} P (a b : S * World W) :
  quiet a b → callsGrowBy P a b.
Proof.
  intros (_ & H & _). exists []. rewrite app_nil_r.
  split; [exact H | constructor].
Qed.

Lemma keeps_weaken {W S A} (R R' : relation (S * World W)) (m : M W S A) :
  (∀ a b, R a b → R' a b) → keeps R m → keeps R' m.
Proof. intros Himp Hm r w. apply Himp, Hm. Qed.

Lemma quiet_sameReporter {W S} (a b : S * World W) :
  quiet a b → sameReporter a b.
Proof. intros (H & _). exact H. Qed.

Lemma quiet_sameCalls {W S} (a b : S * World W) :
  quiet a b → sameCalls a b.
Proof. intros (_ & H). exact H. Qed.

Lemma quiet_drained {W} (a b : Gated.Reporter * World W) :
  quiet a b → drained a b.
Proof.
  intros (H1 & H2 & H3). unfold drained. rewrite H1.
  repeat split; try done. by left.
Qed.

#[local] Instance sameWorld_pre {W S} : PreOrder (@sameWorld W S).
Proof. split; [intros x; reflexivity | intros x y z H1 H2; unfold sameWorld in *; congruence]. Qed.

(** Splitting a goal about an action along its structure. *)
Ltac frame_step :=
  lazymatch goal with
  | |- PreOrder _ => typeclasses eauto
  | |- keeps _ (ret _) => apply keeps_ret
  | |- keeps _ (gets _) => apply keeps_gets
  | |- keeps _ (bind _ _) => apply keeps_bind; [| |intros ?]
  | |- keeps _ (when _ _) => apply keeps_when
  | |- keeps _ (forEach _ _) => apply keeps_forEach; [|intros ?]
  | |- keeps _ (then_ _ _) => apply keeps_then; [| |intros ?]
  | |- keeps _ (catch_ _ _) => apply keeps_catch; [| |intros ?]
  | |- keeps _ (match ?x with _ => _ end) => destruct x
  | |- keeps _ (let _ := _ in _) => cbv zeta
  end.

Ltac frame := repeat frame_step.

Section WorldFacts.
Context {W S : Type}.

Lemma keeps_inWorld_reporter (f : World W → World W) :
  keeps (S := S) sameReporter (inWorld f).
Proof. intros r w. reflexivity. Qed.

Lemma keeps_ask_reporter {A} (f : World W → A * World W) :
  keeps (S := S) sameReporter (ask f).
Proof. intros r w. unfold ask. destruct (f w). reflexivity. Qed.

Lemma keeps_modify_world (f : S → S) :
  keeps (W := W) sameWorld (modify f).
Proof. intros r w. reflexivity. Qed.

Lemma keeps_modify_calls (f : S → S) :
  keeps (W := W) sameCalls (modify f).
Proof. intros r w. split; reflexivity. Qed.

Lemma logLine_calls o message args (w : World W) :
  calls (logLine o message args w) = calls w
  ∧ remote (logLine o message args w) = remote w.
Proof. unfold logLine. destruct (verbose o); split; reflexivity. Qed.

Lemma keeps_print_calls line :
  keeps (S := S) (W := W) sameCalls (inWorld (print line)).
Proof. intros r w. split; reflexivity. Qed.

Lemma keeps_logLine_calls o message args :
  keeps (S := S) (W := W) sameCalls (inWorld (logLine o message args)).
Proof. intros r w. apply logLine_calls. Qed.

Lemma keeps_handleErrorIn_calls o message e :
  keeps (S := S) (W := W) sameCalls (ask (handleErrorIn o message e)).
Proof.
  intros r w. unfold ask, handleErrorIn.
  destruct (errorText e); [|split; reflexivity].
  destruct (silent o); split; reflexivity.
Qed.

Lemma keeps_logLine_quiet o message args :
  keeps (S := S) (W := W) quiet (inWorld (logLine o message args)).
Proof. intros r w. split; [reflexivity | apply logLine_calls]. Qed.

Lemma keeps_print_quiet line :
  keeps (S := S) (W := W) quiet (inWorld (print line)).
Proof. intros r w. repeat split; reflexivity. Qed.

Lemma keeps_handleErrorIn_quiet o message e :
  keeps (S := S) (W := W) quiet (ask (handleErrorIn o message e)).
Proof.
  intros r w. unfold ask, handleErrorIn.
  destruct (errorText e); [|repeat split; reflexivity].
  destruct (silent o); repeat split; reflexivity.
Qed.

Lemma newCalls_app (w w' : World W) l :
  calls w' = (calls w ++ l)%list → newCalls w w' = l.
Proof. unfold newCalls. intros ->. apply drop_app_length. Qed.

Lemma newCalls_same (w w' : World W) :
  calls w' = calls w → newCalls w w' = [].
Proof. intros H. apply newCalls_app. rewrite app_nil_r. exact H. Qed.

Lemma keeps_inWorld_field {B} (f : S → B) (g : World W → World W) :
  keeps (sameField f) (inWorld g).
Proof. intros r w. reflexivity. Qed.

Lemma keeps_ask_field {A B} (f : S → B) (g : World W → A * World W) :
  keeps (sameField f) (ask g).
Proof. intros r w. unfold ask. destruct (g w). reflexivity. Qed.

Lemma keeps_modify_grow P (f : S → S) :
  keeps (W := W) (callsGrowBy P) (modify f).
Proof.
  intros r w. exists []. simpl. rewrite app_nil_r.
  split; [reflexivity | constructor].
Qed.

Lemma keeps_logLine_grow P o message args :
  keeps (S := S) (W := W) (callsGrowBy P) (inWorld (logLine o message args)).
Proof.
  eapply keeps_weaken; [apply quiet_callsGrowBy | apply keeps_logLine_quiet].
Qed.

Lemma keeps_print_grow P line :
  keeps (S := S) (W := W) (callsGrowBy P) (inWorld (print line)).
Proof.
  eapply keeps_weaken; [apply quiet_callsGrowBy | apply keeps_print_quiet].
Qed.

Lemma keeps_handleErrorIn_grow P o message e :
  keeps (S := S) (W := W) (callsGrowBy P) (ask (handleErrorIn o message e)).
Proof.
  eapply keeps_weaken;
    [apply quiet_callsGrowBy | apply keeps_handleErrorIn_quiet].
Qed.

Lemma keeps_request_grow {A} (P : ApiCall → Prop) call
    (f : W → Settled A * W) :
  P call → keeps (S := S) (callsGrowBy P) (ask (request call f)).
Proof.
  intros Hcall r w. unfold ask, request.
  destruct (f (remote w)) as [answer remote']. exists [call].
  split; [reflexivity | by constructor].
Qed.

Lemma bind_quiet {A B} (m : M W S A) (k : A → M W S B) r w :
  keeps quiet m →
  ∃ a w1, calls w1 = calls w ∧ remote w1 = remote w
          ∧ bind m k r w = k a r w1.
Proof.
  intros H. unfold bind. specialize (H r w).
  destruct (m r w) as [[a r1] w1]. destruct H as (Hr & Hc & Hrem).
  simpl in Hr, Hc, Hrem. subst r1. eauto.
Qed.

Lemma bind_assoc {A B C} (m : M W S A) (f : A → M W S B)
    (k : B → M W S C) r w :
  bind (bind m f) k r w = bind m (λ a, bind (f a) k) r w.
Proof. unfold bind. destruct (m r w) as [[a r1] w1]. reflexivity. Qed.

Lemma run_quiet {A} (m : M W S A) r w :
  keeps quiet m →
  (m r w).1.2 = r ∧ calls (m r w).2 = calls w ∧ remote (m r w).2 = remote w.
Proof. intros H. exact (H r w). Qed.

End WorldFacts.

(** Running an action symbolically: [gets] and [modify] are computed, and
    an action that only writes to the console is skipped, given a proof of
    that. *)
Ltac exec_pure :=
  repeat match goal with
  | |- context [bind (gets ?f) ?k ?r ?w] =>
      change (bind (gets f) k r w) with (k (f r) r w); cbv beta
  | |- context [bind (modify ?f) ?k ?r ?w] =>
      change (bind (modify f) k r w) with (k tt (f r) w); cbv beta
  | |- context [bind (ret ?a) ?k ?r ?w] =>
      change (bind (ret a) k r w) with (k a r w); cbv beta iota
  | |- context [bind (bind ?m ?f) ?k ?r ?w] =>
      rewrite (bind_assoc m f k r w)
  end.

(** The lines of a helper of utils.ts go to the console. *)
Ltac exec_print :=
  repeat first
    [ progress exec_pure
    | match goal with
      | |- context [bind (inWorld (printAll ?l)) ?k ?r ?w] =>
          change (bind (inWorld (printAll l)) k r w)
            with (k tt r (printAll l w)); cbv beta zeta
      end ].

(** Goals about a field no step of the action writes to. *)
Ltac field_leaf :=
  first [ apply keeps_inWorld_field
        | apply keeps_ask_field
        | intros ? ?; reflexivity ].

(** Goals about the requests an action issues. *)
Ltac grow_leaf :=
  first [ apply keeps_modify_grow
        | apply keeps_logLine_grow
        | apply keeps_print_grow
        | apply keeps_handleErrorIn_grow
        | apply keeps_request_grow; exact I ].

Ltac exec_quiet tac :=
  match goal with
  | |- context [bind ?m ?k ?r ?w] =>
      let H := fresh "Hquiet" in
      assert (H : keeps quiet m) by tac;
      let a := fresh "a" in
      let w1 := fresh "w" in
      let Hc := fresh "Hcalls" in
      let Hr := fresh "Hremote" in
      let E := fresh "E" in
      destruct (bind_quiet m k r w H) as (a & w1 & Hc & Hr & E);
      rewrite E; clear E H; cbv beta
  end.

(** ** The counters *)

Lemma balanced_count c s : balanced c → balanced (countStatus s (incTotal c)).
Proof. unfold balanced. destruct s; simpl; lia. Qed.

(** ** The readiness-gate revision *)

Section GatedFacts.
Import Gated.
Context {W : Type} {client : ApiClient W}.

#[local] Abbreviation Act := (M W Reporter).

(** *** Actions that only touch the world *)

Lemma log_reporter message args :
  keeps sameReporter (log (W := W) message args).
Proof. unfold log. frame. apply keeps_inWorld_reporter. Qed.

Lemma warn_reporter message : keeps sameReporter (warn (W := W) message).
Proof. unfold warn. apply keeps_inWorld_reporter. Qed.

Lemma say_reporter message : keeps sameReporter (say (W := W) message).
Proof. unfold say. apply keeps_inWorld_reporter. Qed.

Lemma handleError_reporter message e :
  keeps sameReporter (handleError (W := W) message e).
Proof. unfold handleError. frame. apply keeps_ask_reporter. Qed.

Lemma uploadOne_reporter id att : keeps sameReporter (uploadOne id att).
Proof.
  unfold uploadOne. frame;
    first [apply keeps_ask_reporter | apply log_reporter].
Qed.

Lemma uploadAttachments_reporter id atts :
  keeps sameReporter (uploadAttachments id atts).
Proof.
  unfold uploadAttachments. frame;
    first [apply log_reporter | apply uploadOne_reporter].
Qed.

Lemma sendTestResult_reporter result atts :
  keeps sameReporter (sendTestResult result atts).
Proof.
  unfold sendTestResult. frame;
    first [ apply log_reporter | apply keeps_ask_reporter
          | apply uploadAttachments_reporter ].
Qed.

Lemma afterGate_reporter result atts u :
  keeps sameReporter (afterGate result atts u).
Proof.
  unfold afterGate. frame. apply sendTestResult_reporter.
Qed.

Lemma sendPromise_reporter result atts :
  keeps sameReporter (sendPromise result atts).
Proof. unfold sendPromise. frame. apply afterGate_reporter. Qed.


Lemma sendPromise_same result atts r (w : World W) :
  (sendPromise result atts r w).1.2 = r.
Proof. apply (sendPromise_reporter result atts r w). Qed.

(** *** The tracked chains run to their end *)

Lemma settle_reporter item : keeps sameReporter (settle (W := W) item).
Proof. unfold settle. frame. apply sendPromise_reporter. Qed.

Lemma settleAll_reporter items : keeps sameReporter (settleAll (W := W) items).
Proof.
  induction items as [|item items IH]; simpl; frame;
    [apply settle_reporter | exact IH].
Qed.

Lemma settleAll_same items r (w : World W) :
  (settleAll items r w).1.2 = r.
Proof. apply (settleAll_reporter items r w). Qed.

Lemma settle_settles item r (w : World W) :
  settled (settle item r w).1.1
  ∧ testTitle (settle item r w).1.1 = testTitle item.
Proof.
  unfold settled, settle.
  destruct (promise item) as [result atts|s] eqn:E.
  - unfold bind, ret.
    destruct (sendPromise result atts r w) as [[s r'] w']. simpl. eauto.
  - unfold ret. simpl. rewrite E. eauto.
Qed.

Lemma settleAll_settles items r (w : World W) :
  Forall settled (settleAll items r w).1.1
  ∧ testTitle <$> (settleAll items r w).1.1 = testTitle <$> items.
Proof.
  revert r w.
  induction items as [|item items IH]; intros r w; simpl.
  - split; [constructor | reflexivity].
  - unfold bind, ret.
    destruct (settle_settles item r w) as [Hs Ht].
    destruct (settle item r w) as [[item' r1] w1]. simpl in *.
    destruct (IH r1 w1) as [Hs' Ht'].
    destruct (settleAll items r1 w1) as [[items' r2] w2]. simpl in *.
    split; [constructor; assumption | f_equal; [exact Ht | exact Ht']].
Qed.

(** *** What each handler does to the reporter object *)

Lemma runCallbacks_reporter r (w : World W) :
  (runCallbacks r w).1.2 =
  match testRunReadyPromise r with
  | Unresolved => r
  | Resolved => setFlushPromises (settleAll (flushPromises r) r w).1.1 r
  end.
Proof.
  unfold runCallbacks, bind, gets, modify, ret. simpl.
  destruct (testRunReadyPromise r); [reflexivity|].
  pose proof (settleAll_same (flushPromises r) r w) as Hsame.
  destruct (settleAll (flushPromises r) r w) as [[items' r1] w1].
  simpl in *. subst r1. reflexivity.
Qed.

Lemma onTestBegin_reporter now test res r (w : World W) :
  (onTestBegin now test res r w).1.2 =
  setState (λ s, setTests
    (<[getTestId test :=
         {| td_test := test; td_result := res;
            td_startTime := now; td_endTime := None |}]> (tests s)) s) r.
Proof. reflexivity. Qed.

Lemma onTestEnd_reporter now test res r (w : World W) :
  (onTestEnd now test res r w).1.2 =
  match tests (state r) !! getTestId test with
  | None => r
  | Some td =>
      let r1 :=
        setState (λ s, setTests
          (<[getTestId test :=
               {| td_test := td_test td; td_result := res;
                  td_startTime := td_startTime td;
                  td_endTime := Some now |}]> (tests s)) s) r in
      if retry res =? retries test then
        setFlushPromises
          (flushPromises r ++
             [{| promise :=
                   AwaitingGate
                     (deleteAttachments
                        (convertTestResult test res (td_startTime td)))
                     (List.filter (keepAttachment (options r))
                        (extractAttachmentsAsBuffers res).2);
                 testTitle := title test |}])
          (setCounters (countStatus (status res))
             (setCounters incTotal r1))
      else r1
  end.
Proof.
  unfold onTestEnd, log, bind, gets, modify, inWorld, ret. cbn.
  destruct (tests (state r) !! getTestId test) as [td|]; cbn; [|reflexivity].
  destruct (retry res =? retries test); reflexivity.
Qed.

Lemma onBegin_reporter now r (w : World W) :
  (onBegin now r w).1.2 =
  let r0 := setState (setStartTime (Some now)) r in
  let o := options r in
  if createTestRun o && negb (truthy (opt_testRunId o)) then
    setPendingCreate
      (Some (createTestRun_api
               {| ctr_projectId := projectId o;
                  ctr_name := testRunName o;
                  ctr_description := testRunDescription o;
                  ctr_environment := environment o;
                  ctr_milestoneId := milestoneId o |} (remote w)).1) r0
  else testRunReadyResolve (setState (setTestRunId (opt_testRunId o)) r0).
Proof.
  unfold onBegin, onBeginFinally, log, bind, gets, modify, inWorld, ask,
    request, ret. cbn.
  destruct (createTestRun (options r) && negb (truthy (opt_testRunId (options r)))); cbn.
  - unfold logLine. destruct (verbose (options r)); cbn;
      destruct (createTestRun_api _ _); reflexivity.
  - reflexivity.
Qed.

Lemma onBeginResume_reporter r (w : World W) :
  (onBeginResume r w).1.2 =
  match pendingCreate r with
  | None => r
  | Some (Fulfilled response) =>
      testRunReadyResolve
        (setState (setTestRunId (Some (resp_id response)))
           (setPendingCreate None r))
  | Some (Rejected e) =>
      match errorText e with
      | Fulfilled message =>
          testRunReadyResolve
            (setCreationError (Some message) (setPendingCreate None r))
      | Rejected _ => testRunReadyResolve (setPendingCreate None r)
      end
  end.
Proof.
  unfold onBeginResume, onBeginFinally, handleError, log, bind, gets, modify,
    inWorld, ask, handleErrorIn, ret. cbn.
  destruct (pendingCreate r) as [[response|e]|]; cbn; try reflexivity.
  destruct (errorText e) as [message|raised]; cbn; [|reflexivity].
  destruct (silent (options r)); reflexivity.
Qed.

(** *** The console-only actions *)

Lemma log_quiet message args : keeps quiet (log (W := W) message args).
Proof. unfold log. frame. apply keeps_logLine_quiet. Qed.

Lemma warn_quiet message : keeps quiet (warn (W := W) message).
Proof. unfold warn. apply keeps_print_quiet. Qed.

Lemma say_quiet message : keeps quiet (say (W := W) message).
Proof. unfold say. apply keeps_print_quiet. Qed.

Lemma handleError_quiet message e :
  keeps quiet (handleError (W := W) message e).
Proof. unfold handleError. frame. apply keeps_handleErrorIn_quiet. Qed.

Lemma reportUploadFailures_quiet : keeps quiet (reportUploadFailures (W := W)).
Proof. unfold reportUploadFailures. frame; apply warn_quiet. Qed.

(** *** The drain *)

Lemma log_drained message args : keeps drained (log (W := W) message args).
Proof. eapply keeps_weaken; [apply quiet_drained | apply log_quiet]. Qed.

Lemma modify_uploadFailures_drained v :
  keeps drained (modify (W := W) (setUploadFailures v)).
Proof. intros r w. repeat split; try reflexivity. by left. Qed.

Lemma modify_flushPromises_drained :
  keeps drained (modify (W := W) (setFlushPromises [])).
Proof. intros r w. repeat split; try reflexivity. by right. Qed.

Lemma collectFailures_drained results index :
  keeps drained (collectFailures (W := W) index results).
Proof.
  revert index. induction results as [|result results IH]; intros index;
    simpl; frame; [| apply IH].
  unfold collectFailure. frame;
    first [apply modify_uploadFailures_drained | apply log_drained].
Qed.

Lemma sendTestResults_drained : keeps drained (sendTestResults (W := W)).
Proof.
  unfold sendTestResults. frame;
    first [ apply log_drained | apply collectFailures_drained
          | apply modify_flushPromises_drained ].
Qed.

Lemma promiseAll_settled items :
  Forall settledItem items →
  ∃ os, promiseAll items = Some (Fulfilled os)
        ∧ Forall2 (λ item o, promise item = Done (Fulfilled o)) items os.
Proof.
  induction 1 as [|item items [o Ho] _ (os & Hos & Hall)]; simpl.
  - exists []. split; [reflexivity | constructor].
  - exists (o :: os). rewrite Ho, Hos. split; [reflexivity|].
    constructor; assumption.
Qed.

Lemma failuresOf_cons item items :
  failuresOf (item :: items) = (failuresOf [item] ++ failuresOf items)%list.
Proof. unfold failuresOf. simpl. rewrite app_nil_r. reflexivity. Qed.

Lemma collectFailures_collects items os :
  Forall2 (λ item o, promise item = Done (Fulfilled o)) items os →
  ∀ (before : list PendingUpload) r (w : World W),
    flushPromises r = (before ++ items)%list →
    (collectFailures (length before) os r w).1.1 = Fulfilled ()
    ∧ (collectFailures (length before) os r w).1.2 =
        setUploadFailures (uploadFailures r ++ failuresOf items) r.
Proof.
  induction 1 as [|item o items os Hitem _ IH]; intros before r w Htracked.
  - simpl. rewrite app_nil_r. destruct r; split; reflexivity.
  - rewrite failuresOf_cons.
    assert (Hlen : S (length before) = length (before ++ [item])%list)
      by (rewrite length_app; simpl; lia).
    cbn [collectFailures]. rewrite Hlen. unfold then_, bind.
    destruct o as [|e].
    + unfold failuresOf at 1. simpl. rewrite Hitem. simpl.
      apply (IH (before ++ [item])%list). rewrite <- app_assoc. exact Htracked.
    + unfold collectFailure, bind, gets. rewrite Htracked.
      rewrite list_lookup_middle by reflexivity.
      unfold modify, when, log, bind, gets, inWorld, ret.
      set (r1 := setUploadFailures
                   (uploadFailures r ++
                      [{| uf_testTitle := testTitle item; uf_error := e |}]) r).
      assert (Hr1 : flushPromises r1 = ((before ++ [item]) ++ items)%list)
        by (rewrite <- app_assoc; exact Htracked).
      destruct (verbose (options r1)); simpl;
        match goal with
        | |- context [collectFailures _ os r1 ?w1] =>
            destruct (IH (before ++ [item])%list r1 w1 Hr1) as [H1 H2];
            rewrite H1, H2
        end;
        (split; [reflexivity|]);
        unfold failuresOf at 2; simpl; rewrite Hitem; simpl;
        unfold r1; simpl; rewrite <- app_assoc; reflexivity.
Qed.

(** With a run id, the drain waits for every tracked promise and collects
    one failure record for each promise fulfilled with a failure. *)
Lemma drain_collects r (w : World W) :
  truthy (testRunId (state r)) = true →
  Forall settledItem (flushPromises r) →
  (sendTestResults r w).1.1 = Completed (Fulfilled ())
  ∧ (sendTestResults r w).1.2 =
      setFlushPromises []
        (setUploadFailures
           (uploadFailures r ++ failuresOf (flushPromises r)) r).
Proof.
  intros Hid Hall. unfold sendTestResults, bind, gets. rewrite Hid. simpl.
  destruct (flushPromises r) as [|item items] eqn:Etracked.
  { simpl. rewrite app_nil_r. destruct r; simpl in *; subst.
    split; reflexivity. }
  replace (0 <? len (item :: items)) with true
    by (symmetry; apply Z.ltb_lt; unfold len; simpl; lia).
  destruct (promiseAll_settled _ Hall) as (os & Hos & Hpairs).
  unfold log, bind, gets, inWorld, modify, ret. rewrite Hos.
  match goal with
  | |- context [collectFailures 0 os r ?w1] =>
      destruct (collectFailures_collects _ _ Hpairs [] r w1 Etracked)
        as [H1 H2];
      cbn [length] in H1, H2;
      destruct (collectFailures 0 os r w1) as [[c r1] w2]
  end.
  simpl in H1, H2. subst c r1. simpl. split; reflexivity.
Qed.

(** Without a run id, the drain returns at once. *)
Lemma drain_skipped r (w : World W) :
  truthy (testRunId (state r)) = false →
  (sendTestResults r w).1.1 = Completed (Fulfilled ())
  ∧ (sendTestResults r w).1.2 = r.
Proof.
  intros Hid. unfold sendTestResults, bind, gets. rewrite Hid.
  split; reflexivity.
Qed.

(** *** One upload task *)

Lemma uploadOne_calls id att r (w : World W) :
  calls (uploadOne id att r w).2 = (calls w ++ [uploadCall id att])%list.
Proof.
  unfold uploadOne, bind, ask, request, uploadCall.
  destruct (uploadAttachment_api _ _ _ _ _ (remote w)) as [[u|e] remote'];
    unfold log, bind, gets, inWorld, logLine; simpl;
    destruct (verbose (options r)); reflexivity.
Qed.

Lemma forEach_uploadOne_calls id atts r (w : World W) :
  calls (forEach (uploadOne id) atts r w).2 =
  (calls w ++ (uploadCall id <$> atts))%list.
Proof.
  revert r w. induction atts as [|att atts IH]; intros r w; simpl.
  - rewrite app_nil_r. reflexivity.
  - unfold bind.
    pose proof (uploadOne_calls id att r w) as H1.
    destruct (uploadOne id att r w) as [[u r1] w1]. simpl in H1.
    rewrite IH, H1, <- app_assoc. reflexivity.
Qed.

Lemma uploadAttachments_spec id atts r (w : World W) :
  (uploadAttachments id atts r w).1.1 = Fulfilled ()
  ∧ calls (uploadAttachments id atts r w).2 =
      (calls w ++ (uploadCall id <$> atts))%list.
Proof.
  unfold uploadAttachments.
  destruct (len atts =? 0) eqn:E.
  - destruct atts; [|discriminate E]. simpl. rewrite app_nil_r. done.
  - unfold bind.
    pose proof (log_quiet ("Uploading " +:+ pretty (len atts) +:+ " attachments for result "
           +:+ id) [] r w) as (_ & H0 & _).
    destruct (log _ [] r w) as [[u0 r0] w0]. simpl in H0.
    pose proof (forEach_uploadOne_calls id atts r0 w0) as H1.
    destruct (forEach (uploadOne id) atts r0 w0) as [[u1 r1] w1].
    simpl in H1.
    pose proof (log_quiet ("Finished uploading " +:+ pretty (len atts)
                             +:+ " attachments") [] r1 w1) as (_ & H2 & _).
    destruct (log _ [] r1 w1) as [[u2 r2] w2]. simpl in *.
    split; [reflexivity | congruence].
Qed.

(** With a run id the task first submits the record; it fails exactly when
    that request is rejected, and it sends the attachments only once the
    answer is there, whatever becomes of them. *)
Lemma sendTestResult_spec result atts r (w : World W) :
  truthy (testRunId (state r)) = true →
  let req := submitRequest r result in
  match (submitTestResults_api req (remote w)).1 with
  | Rejected e =>
      (sendTestResult result atts r w).1.1 = Rejected e
      ∧ calls (sendTestResult result atts r w).2 =
          (calls w ++ [CallSubmitTestResults req])%list
  | Fulfilled response =>
      (sendTestResult result atts r w).1.1 = Fulfilled ()
      ∧ calls (sendTestResult result atts r w).2 =
          (calls w ++ CallSubmitTestResults req :: uploadsFor response atts)%list
  end.
Proof.
  intros Hid. cbv zeta.
  cbv beta iota zeta delta [sendTestResult bind gets log inWorld ask request].
  rewrite Hid. cbv beta iota delta [negb].
  destruct (logLine_calls (options r) ("Sending result: " +:+ qa_title result)
              [] w) as [Hc Hr].
  fold (submitRequest r result). rewrite Hr, Hc.
  destruct (submitTestResults_api (submitRequest r result) (remote w))
    as [[response|e] remote']; cbn [fst snd]; [|split; reflexivity].
  match goal with
  | |- context [forEach ?f ?l r ?w1] =>
      pose proof (keeps_forEach quiet f l
                    (λ err, log_quiet _ _) r w1) as (Hr1 & Hc1 & _);
      destruct (forEach f l r w1) as [[u1 r1] w1']
  end.
  simpl in Hr1, Hc1. subst r1.
  unfold logLine in Hc1. unfold uploadsFor.
  destruct (default [] (resp_results response)) as [|first rest].
  { split; [reflexivity|]. simpl. rewrite Hc1.
    destruct (verbose (options r)); reflexivity. }
  destruct atts as [|att atts].
  { split; [reflexivity|]. simpl. rewrite Hc1.
    destruct (verbose (options r)); reflexivity. }
  destruct (uploadAttachments_spec (testResultId first) (att :: atts) r w1')
    as [H1 H2].
  split; [exact H1|]. rewrite H2, Hc1.
  destruct (verbose (options r)); simpl; rewrite <- app_assoc; reflexivity.
Qed.

Lemma sendPromise_spec result atts r (w : World W) :
  if truthy (testRunId (state r)) then
    let req := submitRequest r result in
    match (submitTestResults_api req (remote w)).1 with
    | Rejected e =>
        (sendPromise result atts r w).1.1 =
          match errorText e with
          | Fulfilled message => Fulfilled (Failure message)
          | Rejected raised => Rejected raised
          end
        ∧ calls (sendPromise result atts r w).2 =
            (calls w ++ [CallSubmitTestResults req])%list
    | Fulfilled response =>
        (sendPromise result atts r w).1.1 = Fulfilled Success
        ∧ calls (sendPromise result atts r w).2 =
            (calls w ++ CallSubmitTestResults req
               :: uploadsFor response atts)%list
    end
  else
    (sendPromise result atts r w).1.1 = Fulfilled (Failure (gateFailure r))
    ∧ (sendPromise result atts r w).2 = w.
Proof.
  destruct (truthy (testRunId (state r))) eqn:Hid.
  - pose proof (sendTestResult_spec result atts r w Hid) as Hspec.
    cbv zeta in *.
    unfold sendPromise, catch_, then_, afterGate, bind, gets, ret.
    rewrite Hid. cbn [negb].
    destruct (submitTestResults_api (submitRequest r result) (remote w)).1
      as [response|e];
      destruct Hspec as [H1 H2];
      destruct (sendTestResult result atts r w) as [[s r1] w1];
      simpl in H1, H2; subst s; simpl; [split; done|].
    destruct (errorText e); split; done.
  - unfold sendPromise, catch_, then_, afterGate, bind, gets, ret, gateFailure.
    rewrite Hid. cbn [negb].
    destruct (testRunCreationError r); split; reflexivity.
Qed.

(** *** The end of the run *)

Lemma completeRun_spec duration r (w : World W) :
  (completeRun duration r w).1.2 = r
  ∧ calls (completeRun duration r w).2 =
      if truthy (testRunId (state r))
      then (calls w ++ [CallCompleteTestRun (completionOf duration r)])%list
      else calls w.
Proof.
  unfold completeRun, bind, gets. simpl.
  destruct (truthy (testRunId (state r))); [|split; reflexivity].
  unfold ask, request, completionOf. simpl.
  destruct (completeTestRun_api _ (remote w)) as [[u|e] remote']; simpl;
    [|split; reflexivity].
  unfold log, say, bind, gets, inWorld, logLine, ret. simpl.
  destruct (verbose (options r)), (0 <? len (uploadFailures r));
    split; reflexivity.
Qed.

(** [onEnd] changes the reporter as the drain does, apart from [endTime],
    and sends at most one request, the completion of the run; without a
    run id it collects nothing and sends nothing. *)
Lemma onEnd_spec now r (w : World W) :
  let r' := (onEnd now r w).1.2 in
  let w' := (onEnd now r w).2 in
  let duration := now - default 0 (startTime (state r)) in
  options r' = options r
  ∧ testRunId (state r') = testRunId (state r)
  ∧ counters r' = counters r
  ∧ testRunReadyPromise r' = testRunReadyPromise r
  ∧ testRunCreationError r' = testRunCreationError r
  ∧ pendingCreate r' = pendingCreate r
  ∧ (flushPromises r' = flushPromises r ∨ flushPromises r' = [])
  ∧ (truthy (testRunId (state r)) = false →
     uploadFailures r' = uploadFailures r
     ∧ flushPromises r' = flushPromises r
     ∧ calls w' = calls w)
  ∧ (calls w' = calls w
     ∨ truthy (testRunId (state r)) = true
       ∧ calls w' =
           (calls w ++ [CallCompleteTestRun (completionOf duration r')])%list).
Proof.
  cbv beta iota zeta delta [onEnd bind gets modify log inWorld].
  set (r0 := setState (setEndTime (Some now)) r).
  assert (Hstart : startTime (state r0) = startTime (state r)) by reflexivity.
  rewrite Hstart.
  set (duration := now - default 0 (startTime (state r))).
  match goal with
  | |- context [sendTestResults r0 ?w0] =>
      assert (Hw0 : calls w0 = calls w)
        by (unfold logLine; simpl;
            destruct (verbose (options r)); reflexivity);
      pose proof (sendTestResults_drained r0 w0) as Hd;
      pose proof (drain_skipped r0 w0) as Hskip;
      destruct (sendTestResults r0 w0) as [[c r1] w1]
  end.
  destruct Hd as (Ho & Hs & Hc & Hg & He & Hp & Hf & Hcalls & _).
  simpl in *.
  assert (Hid : testRunId (state r1) = testRunId (state r))
    by (rewrite Hs; reflexivity).
  assert (Hfalsy : truthy (testRunId (state r)) = false →
                   uploadFailures r1 = uploadFailures r
                   ∧ flushPromises r1 = flushPromises r)
    by (intros Hno; destruct (Hskip Hno) as [_ ->]; done).
  destruct c as [|[[]|e]].
  - simpl. repeat split; try assumption; try (by apply Hfalsy).
    + congruence.
    + left. congruence.
  - pose proof (reportUploadFailures_quiet r1 w1) as Hq.
    destruct (reportUploadFailures r1 w1) as [[u r2] w2].
    destruct Hq as (Hr2 & Hcalls2 & _). simpl in Hr2, Hcalls2. subst r2.
    pose proof (completeRun_spec duration r1 w2) as [Hr3 Hcalls3].
    rewrite Hid in Hcalls3.
    destruct (completeRun duration r1 w2) as [[[u3|e3] r3] w3];
      simpl in Hr3, Hcalls3; subst r3.
    + simpl. repeat split; try assumption; try (by apply Hfalsy).
      * match goal with H : truthy _ = false |- _ => rewrite H in Hcalls3 end.
        congruence.
      * destruct (truthy (testRunId (state r))).
        -- right. split; [reflexivity|]. rewrite Hcalls3. congruence.
        -- left. congruence.
    + pose proof (handleError_quiet "Failed to send test results" e3 r1 w3)
        as Hq.
      destruct (handleError "Failed to send test results" e3 r1 w3)
        as [[t r4] w4].
      destruct Hq as (Hr4 & Hcalls4 & _). simpl in Hr4, Hcalls4. subst r4.
      simpl. repeat split; try assumption; try (by apply Hfalsy).
      * match goal with H : truthy _ = false |- _ => rewrite H in Hcalls3 end.
        congruence.
      * destruct (truthy (testRunId (state r))).
        -- right. split; [reflexivity|]. rewrite Hcalls4, Hcalls3. congruence.
        -- left. congruence.
  - pose proof (handleError_quiet "Failed to send test results" e r1 w1)
      as Hq.
    destruct (handleError "Failed to send test results" e r1 w1)
      as [[t r4] w4].
    destruct Hq as (Hr4 & Hcalls4 & _). simpl in Hr4, Hcalls4. subst r4.
    simpl. repeat split; try assumption; try (by apply Hfalsy).
    + congruence.
    + left. congruence.
Qed.

(** *** What holds after any sequence of events *)

Lemma settled_neverRejected item : settledItem item → neverRejected item.
Proof. intros [o Ho]. unfold neverRejected. rewrite Ho. exact I. Qed.

Lemma settledItem_settled item : settledItem item → settled item.
Proof. intros [o Ho]. exists (Fulfilled o). exact Ho. Qed.

Lemma settled_fulfilled item :
  settled item → neverRejected item → settledItem item.
Proof.
  unfold settled, neverRejected, settledItem. intros [[o|e] ->]; [eauto|done].
Qed.

Lemma runCallbacks_invariant r (w : World W) :
  balanced (counters r) →
  gatedInvariant (runCallbacks r w).1.2.
Proof.
  intros Hb. rewrite runCallbacks_reporter. unfold gatedInvariant.
  destruct (testRunReadyPromise r) eqn:Egate.
  - rewrite Egate. split; [assumption | discriminate].
  - destruct (settleAll_settles (flushPromises r) r w) as [Hs _].
    simpl. split; [assumption | intros _; exact Hs].
Qed.

Lemma step_unfold e r (w : World W) :
  step e (r, w) = ((handle e r w).1.2, (handle e r w).2).
Proof. unfold step. simpl. destruct (handle e r w) as [[u r'] w']. done. Qed.

Lemma then_callbacks {A} (m : Act A) r (w : World W) :
  ((m ;; runCallbacks) r w).1.2
  = (runCallbacks (m r w).1.2 (m r w).2).1.2
  ∧ ((m ;; runCallbacks) r w).2
    = (runCallbacks (m r w).1.2 (m r w).2).2.
Proof. unfold bind. destruct (m r w) as [[a r1] w1]. done. Qed.

Lemma step_invariant e r (w : World W) :
  gatedInvariant r → gatedInvariant (step e (r, w)).1.
Proof.
  intros (Hb & Hs). rewrite step_unfold. cbn [fst].
  destruct e as [now| |now test res|now test res|now]; cbn [handle].
  - rewrite (proj1 (then_callbacks _ _ _)).
    apply runCallbacks_invariant; rewrite onBegin_reporter; cbv zeta;
      destruct (createTestRun (options r) && _); try assumption;
      unfold testRunReadyResolve; simpl; destruct (testRunReadyPromise r);
      assumption.
  - rewrite (proj1 (then_callbacks _ _ _)).
    apply runCallbacks_invariant; rewrite onBeginResume_reporter;
      destruct (pendingCreate r) as [[response|e]|]; try assumption;
      [|destruct (errorText e)];
      unfold testRunReadyResolve; simpl; destruct (testRunReadyPromise r);
      assumption.
  - rewrite onTestBegin_reporter. split; assumption.
  - rewrite (proj1 (then_callbacks _ _ _)).
    apply runCallbacks_invariant; rewrite onTestEnd_reporter;
      destruct (tests (state r) !! getTestId test) as [td|]; try assumption;
      cbv zeta; destruct (retry res =? retries test); try assumption; simpl.
    apply balanced_count, Hb.
  - unfold bind.
    pose proof (onEnd_spec now r w) as Hend. cbv zeta in Hend.
    destruct (onEnd now r w) as [[c r'] w']. simpl in *.
    destruct Hend as (_ & _ & Hc & Hg & _ & _ & Hf & _).
    unfold gatedInvariant. rewrite Hc, Hg.
    destruct Hf as [-> | ->]; split; try assumption. intros _. constructor.
Qed.

Lemma run_invariant es (m : Reporter * World W) :
  gatedInvariant m.1 → gatedInvariant (run es m).1.
Proof.
  revert m. induction es as [|e es IH]; intros [r w] Hinv; [exact Hinv|].
  simpl. apply IH, step_invariant, Hinv.
Qed.

Lemma newReporter_invariant o : gatedInvariant (newReporter o).
Proof. split; [reflexivity | discriminate]. Qed.

(** *** A client whose rejections have a string form *)

Lemma hasStringForm_text e :
  hasStringForm e = true → ∃ message, errorText e = Fulfilled message.
Proof. destruct e; simpl; [eauto | eauto | discriminate]. Qed.

Section Printable.
Hypothesis Hprintable : printable client.

(** The tracked chain never rejects. *)
Lemma sendPromise_fulfilled result atts r (w : World W) :
  ∃ o, (sendPromise result atts r w).1.1 = Fulfilled o.
Proof.
  pose proof (sendPromise_spec result atts r w) as Hspec.
  destruct (truthy (testRunId (state r))); [|destruct Hspec; eauto].
  cbv zeta in Hspec.
  destruct (submitTestResults_api (submitRequest r result) (remote w)).1
    as [response|e] eqn:Eanswer; destruct Hspec as [-> _]; [eauto|].
  destruct (hasStringForm_text e) as [message ->]; [|eauto].
  exact (proj1 (proj2 (Hprintable (remote w) e)) _ Eanswer).
Qed.

Lemma settle_fulfilled item r (w : World W) :
  neverRejected item → neverRejected (settle item r w).1.1.
Proof.
  unfold neverRejected, settle. intros Hnr.
  destruct (promise item) as [result atts|[o|e]] eqn:E; try done.
  - unfold bind, ret.
    destruct (sendPromise_fulfilled result atts r w) as [o Ho].
    destruct (sendPromise result atts r w) as [[s r'] w'].
    simpl in *. subst s. exact I.
  - unfold ret. simpl. rewrite E. exact I.
Qed.

Lemma settleAll_fulfilled items r (w : World W) :
  Forall neverRejected items →
  Forall neverRejected (settleAll items r w).1.1.
Proof.
  intros Hall. revert r w.
  induction Hall as [|item items Hitem _ IH]; intros r w; simpl.
  - constructor.
  - unfold bind, ret.
    pose proof (settle_fulfilled item r w Hitem) as Hs.
    destruct (settle item r w) as [[item' r1] w1]. simpl in *.
    specialize (IH r1 w1).
    destruct (settleAll items r1 w1) as [[items' r2] w2]. simpl in *.
    constructor; assumption.
Qed.

Lemma runCallbacks_fulfilled r (w : World W) :
  Forall neverRejected (flushPromises r) →
  Forall neverRejected (flushPromises (runCallbacks r w).1.2).
Proof.
  intros Hnr. rewrite runCallbacks_reporter.
  destruct (testRunReadyPromise r); [exact Hnr|].
  apply settleAll_fulfilled, Hnr.
Qed.

Lemma step_fulfilled e r (w : World W) :
  Forall neverRejected (flushPromises r) →
  Forall neverRejected (flushPromises (step e (r, w)).1).
Proof.
  intros Hnr. rewrite step_unfold. cbn [fst].
  destruct e as [now| |now test res|now test res|now]; cbn [handle].
  - rewrite (proj1 (then_callbacks _ _ _)).
    apply runCallbacks_fulfilled; rewrite onBegin_reporter; cbv zeta;
      destruct (createTestRun (options r) && _); try assumption;
      unfold testRunReadyResolve; simpl; destruct (testRunReadyPromise r);
      assumption.
  - rewrite (proj1 (then_callbacks _ _ _)).
    apply runCallbacks_fulfilled; rewrite onBeginResume_reporter;
      destruct (pendingCreate r) as [[response|e]|]; try assumption;
      [|destruct (errorText e)];
      unfold testRunReadyResolve; simpl; destruct (testRunReadyPromise r);
      assumption.
  - rewrite onTestBegin_reporter. assumption.
  - rewrite (proj1 (then_callbacks _ _ _)).
    apply runCallbacks_fulfilled; rewrite onTestEnd_reporter;
      destruct (tests (state r) !! getTestId test) as [td|]; try assumption;
      cbv zeta; destruct (retry res =? retries test); try assumption; simpl.
    apply Forall_app. split; [assumption|].
    constructor; [exact I | constructor].
  - unfold bind.
    pose proof (onEnd_spec now r w) as Hend. cbv zeta in Hend.
    destruct (onEnd now r w) as [[c r'] w']. simpl in *.
    destruct Hend as (_ & _ & _ & _ & _ & _ & Hf & _).
    destruct Hf as [-> | ->]; [assumption | constructor].
Qed.

Lemma run_fulfilled es (m : Reporter * World W) :
  Forall neverRejected (flushPromises m.1) →
  Forall neverRejected (flushPromises (run es m).1).
Proof.
  revert m. induction es as [|e es IH]; intros [r w] Hinv; [exact Hinv|].
  simpl. apply IH, step_fulfilled, Hinv.
Qed.

(** In a run, once the gate is resolved every tracked chain is fulfilled
    with an outcome. *)
Lemma run_settledItem es o (w0 : W) :
  let r := (run es (newReporter o, newWorld w0)).1 in
  Forall neverRejected (flushPromises r)
  ∧ (testRunReadyPromise r = Resolved →
     Forall settledItem (flushPromises r)).
Proof.
  cbv zeta.
  pose proof (run_fulfilled es (newReporter o, newWorld w0)
                (Forall_nil_2 _)) as Hnr.
  destruct (run_invariant es (newReporter o, newWorld w0)
              (newReporter_invariant o)) as (_ & Hs).
  split; [exact Hnr|]. intros Hg. specialize (Hs Hg).
  apply Forall_forall. intros item Hin.
  apply settled_fulfilled;
    [exact (proj1 (Forall_forall _ _) Hs item Hin)
    | exact (proj1 (Forall_forall _ _) Hnr item Hin)].
Qed.

End Printable.

(** *** What holds during a run with a single [onBegin] *)

Lemma uploadsFor_harmless r response atts :
  Forall (submitFor r) (uploadsFor response atts)
  ∧ Forall notCompletion (uploadsFor response atts).
Proof.
  unfold uploadsFor. destruct (default [] (resp_results response));
    [split; constructor|].
  split; apply Forall_fmap, Forall_true; intros att; exact I.
Qed.

Lemma settle_resolved item r (w : World W) :
  awaiting item ∨ settledFor r item →
  settledFor r (settle item r w).1.1
  ∧ (truthy (testRunId (state r)) = false → (settle item r w).2 = w)
  ∧ ∃ new, calls (settle item r w).2 = (calls w ++ new)%list
           ∧ Forall (submitFor r) new ∧ Forall notCompletion new.
Proof.
  intros [(result & atts & Hitem) | Hitem]; unfold settle.
  - rewrite Hitem. unfold bind, ret.
    pose proof (sendPromise_spec result atts r w) as Hspec.
    destruct (sendPromise result atts r w) as [[s r1] w1]. simpl.
    unfold settledFor, settled. simpl.
    destruct (truthy (testRunId (state r))) eqn:Hid.
    + cbv zeta in Hspec.
      destruct (submitTestResults_api (submitRequest r result) (remote w)).1
        as [response|e]; destruct Hspec as [Hs Hcalls]; simpl in Hs, Hcalls;
        subst s; (split; [split; [eauto | discriminate]|]);
        (split; [discriminate|]); eexists; (split; [exact Hcalls|]).
      * destruct (uploadsFor_harmless r response atts) as [H1 H2].
        split; constructor; try assumption; try exact I. reflexivity.
      * split; repeat constructor.
    + destruct Hspec as [Hs Hw]. simpl in Hs, Hw. subst s w1.
      split; [split; [eauto | reflexivity]|].
      split; [reflexivity|]. exists []. rewrite app_nil_r.
      repeat split; constructor.
  - destruct Hitem as [[o Ho] Hfalsy]. rewrite Ho. unfold ret. simpl.
    split; [split; [exists o; exact Ho | exact Hfalsy]|].
    split; [reflexivity|]. exists []. rewrite app_nil_r.
    repeat split; constructor.
Qed.

Lemma settleAll_resolved items r (w : World W) :
  Forall (λ item, awaiting item ∨ settledFor r item) items →
  Forall (settledFor r) (settleAll items r w).1.1
  ∧ (truthy (testRunId (state r)) = false → (settleAll items r w).2 = w)
  ∧ ∃ new, calls (settleAll items r w).2 = (calls w ++ new)%list
           ∧ Forall (submitFor r) new ∧ Forall notCompletion new.
Proof.
  intros Hall. revert w.
  induction Hall as [|item items Hitem _ IH]; intros w; simpl.
  - split; [constructor|]. split; [reflexivity|].
    exists []. rewrite app_nil_r. repeat split; constructor.
  - unfold bind, ret.
    destruct (settle_resolved item r w Hitem)
      as (Hs & Hw & new1 & Hc1 & Hsub1 & Hcomp1).
    pose proof (settle_reporter item r w) as Hr1.
    destruct (settle item r w) as [[item' r1] w1].
    simpl in Hs, Hw, Hc1, Hr1. unfold sameReporter in Hr1. simpl in Hr1.
    subst r1.
    destruct (IH w1) as (Hs' & Hw' & new2 & Hc2 & Hsub2 & Hcomp2).
    destruct (settleAll items r w1) as [[items' r2] w2].
    simpl in Hs', Hw', Hc2 |- *.
    split; [constructor; assumption|].
    split; [intros Hno; rewrite (Hw' Hno); exact (Hw Hno)|].
    exists (new1 ++ new2)%list. rewrite Hc2, Hc1, <- app_assoc.
    split; [reflexivity|]. split; apply Forall_app; done.
Qed.

Lemma runCallbacks_world r (w : World W) :
  (runCallbacks r w).2 =
  match testRunReadyPromise r with
  | Unresolved => w
  | Resolved => (settleAll (flushPromises r) r w).2
  end.
Proof.
  unfold runCallbacks, bind, gets, modify, ret. simpl.
  destruct (testRunReadyPromise r); [reflexivity|].
  destruct (settleAll (flushPromises r) r w) as [[items' r1] w1].
  reflexivity.
Qed.

Lemma onTestBegin_calls now test res r (w : World W) :
  calls (onTestBegin now test res r w).2 = calls w.
Proof.
  unfold onTestBegin, bind, modify, log, gets, inWorld, logLine. simpl.
  destruct (verbose (options r)); reflexivity.
Qed.

Lemma onTestEnd_calls now test res r (w : World W) :
  calls (onTestEnd now test res r w).2 = calls w.
Proof.
  unfold onTestEnd, log, bind, gets, modify, inWorld, ret, logLine. cbn.
  destruct (tests (state r) !! getTestId test) as [td|]; cbn;
    [|destruct (verbose (options r)); reflexivity].
  destruct (retry res =? retries test); cbn;
    destruct (verbose (options r)); reflexivity.
Qed.

Lemma log_calls message args : keeps sameCalls (log (W := W) message args).
Proof. eapply keeps_weaken; [apply quiet_sameCalls | apply log_quiet]. Qed.

Lemma handleError_calls message e :
  keeps sameCalls (handleError (W := W) message e).
Proof.
  eapply keeps_weaken; [apply quiet_sameCalls | apply handleError_quiet].
Qed.

Lemma onBeginResume_calls r (w : World W) :
  calls (onBeginResume r w).2 = calls w.
Proof.
  assert (H : keeps sameCalls (onBeginResume (W := W))).
  { unfold onBeginResume, onBeginFinally. frame;
      first [ apply keeps_modify_calls | apply log_calls
            | apply handleError_calls ]. }
  apply (H r w).
Qed.

Lemma notSubmit_submitFor r c : notSubmit c → submitFor r c.
Proof. destruct c; simpl; done. Qed.

Lemma lifecycle_calls r (w w' : World W) :
  calls w' = calls w → lifecycleInvariant r w → lifecycleInvariant r w'.
Proof. unfold lifecycleInvariant. intros ->. done. Qed.

Lemma lifecycle_before r (w : World W) :
  lifecycleInvariant r w → beforeCallbacks r w.
Proof.
  unfold beforeCallbacks. intros Hinv.
  destruct (testRunReadyPromise r) eqn:Egate; [exact Hinv|].
  unfold lifecycleInvariant in Hinv. rewrite Egate in Hinv.
  destruct Hinv as (H1 & H2 & H3 & H4 & H5). repeat split; try assumption.
  - by apply H3.
  - by apply H3.
  - by apply H3.
  - eapply Forall_impl; [exact H4 | intros item Hitem; by right].
Qed.

Lemma callbacks_lifecycle r (w : World W) :
  beforeCallbacks r w →
  lifecycleInvariant (runCallbacks r w).1.2 (runCallbacks r w).2.
Proof.
  unfold beforeCallbacks. rewrite runCallbacks_reporter, runCallbacks_world.
  destruct (testRunReadyPromise r) eqn:Egate; [intros H; exact H|].
  intros (Hp & Herr & Hfalsy & Hitems & Hcalls).
  destruct (settleAll_resolved (flushPromises r) r w Hitems)
    as (Hs & Hw & new & Hnew & Hsub & Hcomp).
  unfold lifecycleInvariant. simpl. rewrite Egate.
  split; [assumption|]. split; [assumption|].
  split; [intros Hno; rewrite (Hw Hno); by apply Hfalsy|].
  split; [assumption|].
  rewrite Hnew. apply Forall_app. split; assumption.
Qed.

Lemma step_lifecycle e r (w : World W) :
  isBegin e = false →
  lifecycleInvariant r w →
  lifecycleInvariant (step e (r, w)).1 (step e (r, w)).2.
Proof.
  intros He Hinv. rewrite step_unfold. cbn [fst snd].
  destruct e as [now| |now test res|now test res|now]; [discriminate|..];
    cbn [handle].
  - (* the request of [onBegin] settles *)
    destruct (then_callbacks onBeginResume r w) as [-> ->].
    apply callbacks_lifecycle.
    pose proof (onBeginResume_calls r w) as Hcalls.
    pose proof (onBeginResume_reporter r w) as Hr.
    destruct (onBeginResume r w) as [[c r1] w1]. simpl in Hcalls, Hr |- *.
    subst r1. unfold lifecycleInvariant in Hinv. unfold beforeCallbacks.
    destruct (testRunReadyPromise r) eqn:Egate.
    + destruct Hinv as (Hid & Herr & Hfail & Hitems & Hsub & Hcomp).
      destruct (pendingCreate r) as [[response|e]|];
        [|destruct (errorText e) as [message|raised]|];
        unfold testRunReadyResolve, lifecycleInvariant; simpl;
        rewrite Egate; simpl; rewrite ?Hcalls.
      * repeat split; try assumption.
        -- rewrite Herr. intros [? ?]. discriminate.
        -- eapply Forall_impl; [exact Hitems | intros item Hitem; by left].
        -- eapply Forall_impl; [exact Hsub | apply notSubmit_submitFor].
      * repeat split; try assumption.
        -- intros _. exact Hid.
        -- eapply Forall_impl; [exact Hitems | intros item Hitem; by left].
        -- eapply Forall_impl; [exact Hsub | apply notSubmit_submitFor].
      * repeat split; try assumption.
        -- intros _. exact Hid.
        -- eapply Forall_impl; [exact Hitems | intros item Hitem; by left].
        -- eapply Forall_impl; [exact Hsub | apply notSubmit_submitFor].
      * repeat split; assumption.
    + destruct Hinv as (Hp & Herr & Hfalsy & Hitems & Hsub).
      rewrite Hp, Egate, Hcalls. repeat split; try assumption.
      * by apply Hfalsy.
      * by apply Hfalsy.
      * by apply Hfalsy.
      * eapply Forall_impl; [exact Hitems | intros item Hitem; by right].
  - (* a test begins *)
    pose proof (onTestBegin_calls now test res r w) as Hcalls.
    rewrite onTestBegin_reporter.
    generalize dependent ((onTestBegin now test res r w).2).
    intros w1 Hcalls.
    unfold lifecycleInvariant in *. simpl. rewrite Hcalls. exact Hinv.
  - (* a test ends *)
    destruct (then_callbacks (onTestEnd now test res) r w) as [-> ->].
    apply callbacks_lifecycle.
    pose proof (onTestEnd_calls now test res r w) as Hcalls.
    pose proof (onTestEnd_reporter now test res r w) as Hr.
    destruct (onTestEnd now test res r w) as [[c r1] w1].
    simpl in Hcalls, Hr |- *. subst r1.
    apply (lifecycle_calls r w w1 Hcalls), lifecycle_before in Hinv.
    destruct (tests (state r) !! getTestId test) as [td|]; [|exact Hinv].
    cbv zeta. destruct (retry res =? retries test); [|exact Hinv].
    unfold beforeCallbacks, lifecycleInvariant in *. simpl.
    destruct (testRunReadyPromise r).
    + destruct Hinv as (?&?&?&Hitems&?&?). repeat split; try assumption.
      apply Forall_app. split; [assumption|].
      constructor; [|constructor]. red. simpl. eauto.
    + destruct Hinv as (?&?&?&Hitems&?).
      do 3 (split; [assumption|]). split; [|assumption].
      apply Forall_app. split; [assumption|].
      constructor; [|constructor]. left. red. simpl. eauto.
  - (* the run ends *)
    unfold bind.
    pose proof (onEnd_spec now r w) as Hend. cbv zeta in Hend.
    destruct (onEnd now r w) as [[c r'] w']. simpl in Hend |- *.
    destruct Hend as (_ & Hid & _ & Hg & Herr & Hp & Hf & Hfalsy & Hcalls).
    unfold lifecycleInvariant, settledFor, submitFor, gateFailure in *.
    rewrite Hg, Hid, Herr, Hp.
    destruct (testRunReadyPromise r).
    + destruct Hinv as (Hnone & Herr0 & Hfail & Hitems & Hsub & Hcomp).
      rewrite Hnone in Hfalsy. destruct (Hfalsy eq_refl) as (-> & -> & ->).
      repeat split; assumption.
    + destruct Hinv as (Hp0 & Herr0 & Hfalsy0 & Hitems & Hsub).
      repeat split; try assumption.
      * destruct (Hfalsy H) as (-> & _). by apply Hfalsy0.
      * destruct (Hfalsy H) as (_ & _ & ->). by apply Hfalsy0.
      * destruct (Hfalsy H) as (_ & _ & ->). by apply Hfalsy0.
      * destruct Hf as [-> | ->]; [assumption | constructor].
      * destruct Hcalls as [-> | [_ ->]]; [assumption|].
        apply Forall_app. split; [assumption|]. repeat constructor.
Qed.

Lemma begin_lifecycle o (w0 : W) now :
  let m := step (OnBegin now) (newReporter o, newWorld w0) in
  lifecycleInvariant m.1 m.2.
Proof.
  cbv zeta. rewrite step_unfold. cbn [fst snd handle].
  destruct (then_callbacks (onBegin now) (newReporter o) (newWorld w0))
    as [-> ->].
  apply callbacks_lifecycle.
  unfold beforeCallbacks, lifecycleInvariant.
  rewrite onBegin_reporter. cbv zeta.
  unfold onBegin, onBeginFinally, log, bind, gets, modify, inWorld, ask,
    request, ret, logLine. cbn.
  destruct (createTestRun o && negb (truthy (opt_testRunId o))); cbn.
  - destruct (verbose o); cbn; destruct (createTestRun_api _ w0); cbn;
      repeat split; repeat constructor.
  - destruct (verbose o); cbn; repeat split; try constructor;
      intros [? ?]; discriminate.
Qed.

Lemma run_lifecycle es (m : Reporter * World W) :
  noBegin es →
  lifecycleInvariant m.1 m.2 →
  lifecycleInvariant (run es m).1 (run es m).2.
Proof.
  intros Hes. revert m.
  induction Hes as [|e es He _ IH]; intros [r w] Hinv; [exact Hinv|].
  simpl. apply IH. apply (step_lifecycle e r w He Hinv).
Qed.

(** Once the gate is resolved, no later event changes what its waiters
    read. *)
Lemma step_observation e r (w : World W) :
  isBegin e = false →
  pendingCreate r = None →
  testRunReadyPromise r = Resolved →
  gateObservation (step e (r, w)).1 = gateObservation r.
Proof.
  intros He Hp Hg. rewrite step_unfold. cbn [fst].
  destruct e as [now| |now test res|now test res|now]; [discriminate|..];
    cbn [handle].
  - rewrite (proj1 (then_callbacks _ _ _)), runCallbacks_reporter,
      onBeginResume_reporter, Hp, Hg.
    unfold gateObservation. simpl. rewrite Hg. reflexivity.
  - rewrite onTestBegin_reporter. unfold gateObservation. simpl.
    rewrite Hg. reflexivity.
  - rewrite (proj1 (then_callbacks _ _ _)), runCallbacks_reporter,
      onTestEnd_reporter.
    destruct (tests (state r) !! getTestId test) as [td|]; cbv zeta;
      [destruct (retry res =? retries test)|];
      unfold gateObservation; simpl; rewrite Hg; simpl; rewrite ?Hg;
      reflexivity.
  - unfold bind.
    pose proof (onEnd_spec now r w) as Hend. cbv zeta in Hend.
    destruct (onEnd now r w) as [[c r'] w']. simpl in Hend |- *.
    destruct Hend as (_ & Hid & _ & Hg' & Herr & _).
    unfold gateObservation. rewrite Hg', Hid, Herr. reflexivity.
Qed.

Lemma run_observation es r (w : World W) :
  noBegin es →
  lifecycleInvariant r w →
  testRunReadyPromise r = Resolved →
  gateObservation (run es (r, w)).1 = gateObservation r.
Proof.
  intros Hes. revert r w.
  induction Hes as [|e es He _ IH]; intros r w Hinv Hg; [reflexivity|].
  simpl.
  assert (Hp : pendingCreate r = None)
    by (unfold lifecycleInvariant in Hinv; rewrite Hg in Hinv; apply Hinv).
  pose proof (step_observation e r w He Hp Hg) as Hobs.
  pose proof (step_lifecycle e r w He Hinv) as Hinv'.
  destruct (step e (r, w)) as [r1 w1]. simpl in Hobs, Hinv'.
  assert (Hg1 : testRunReadyPromise r1 = Resolved).
  { unfold gateObservation in Hobs. rewrite Hg in Hobs.
    destruct (testRunReadyPromise r1); [discriminate | reflexivity]. }
  rewrite (IH r1 w1 Hinv' Hg1). exact Hobs.
Qed.

Lemma step_gate_stable e r (w : World W) :
  testRunReadyPromise r = Resolved →
  testRunReadyPromise (step e (r, w)).1 = Resolved.
Proof.
  intros Hg. rewrite step_unfold. cbn [fst].
  destruct e as [now| |now test res|now test res|now]; cbn [handle].
  - rewrite (proj1 (then_callbacks _ _ _)), runCallbacks_reporter,
      onBegin_reporter. cbv zeta.
    destruct (createTestRun (options r) && _); unfold testRunReadyResolve;
      repeat (simpl; rewrite ?Hg); done.
  - rewrite (proj1 (then_callbacks _ _ _)), runCallbacks_reporter,
      onBeginResume_reporter.
    destruct (pendingCreate r) as [[response|e]|];
      [|destruct (errorText e)|];
      unfold testRunReadyResolve; repeat (simpl; rewrite ?Hg); done.
  - rewrite onTestBegin_reporter. exact Hg.
  - rewrite (proj1 (then_callbacks _ _ _)), runCallbacks_reporter,
      onTestEnd_reporter.
    destruct (tests (state r) !! getTestId test) as [td|]; cbv zeta;
      [destruct (retry res =? retries test)|];
      repeat (simpl; rewrite ?Hg); done.
  - unfold bind.
    pose proof (onEnd_spec now r w) as Hend. cbv zeta in Hend.
    destruct (onEnd now r w) as [[c r'] w']. simpl in Hend |- *.
    destruct Hend as (_ & _ & _ & Hg' & _). congruence.
Qed.

Lemma run_gate_stable es r (w : World W) :
  testRunReadyPromise r = Resolved →
  testRunReadyPromise (run es (r, w)).1 = Resolved.
Proof.
  revert r w. induction es as [|e es IH]; intros r w Hg; [exact Hg|].
  simpl. pose proof (step_gate_stable e r w Hg) as Hg'.
  destruct (step e (r, w)) as [r1 w1]. apply IH, Hg'.
Qed.

(** The gate is resolved once the request of [onBegin] has settled. *)
Lemma resume_resolves r (w : World W) :
  is_Some (pendingCreate r) →
  testRunReadyPromise (step CreateTestRunSettled (r, w)).1 = Resolved.
Proof.
  intros [p Hp]. rewrite step_unfold. cbn [fst handle].
  rewrite (proj1 (then_callbacks _ _ _)), runCallbacks_reporter,
    onBeginResume_reporter, Hp.
  destruct p as [response|e]; [|destruct (errorText e)];
    unfold testRunReadyResolve;
    cbn [testRunReadyPromise setState setPendingCreate setCreationError];
    destruct (testRunReadyPromise r) eqn:Eg;
    cbn [testRunReadyPromise setState setPendingCreate setCreationError
         setGate setFlushPromises];
    rewrite ?Eg;
    cbn [testRunReadyPromise setState setPendingCreate setCreationError
         setGate setFlushPromises]; done.
Qed.

Lemma begin_pending o (w0 : W) now :
  let r := (step (OnBegin now) (newReporter o, newWorld w0)).1 in
  testRunReadyPromise r = Resolved ∨ is_Some (pendingCreate r).
Proof.
  cbv zeta. rewrite step_unfold. cbn [fst handle].
  rewrite (proj1 (then_callbacks _ _ _)), runCallbacks_reporter,
    onBegin_reporter. cbv zeta. cbn [options newReporter].
  destruct (createTestRun o && negb (truthy (opt_testRunId o)));
    simpl; [right; eauto | left; reflexivity].
Qed.

Lemma gate_resolves o (w0 : W) now :
  testRunReadyPromise
    (run [OnBegin now; CreateTestRunSettled] (newReporter o, newWorld w0)).1
  = Resolved.
Proof.
  cbn [run foldl].
  pose proof (begin_pending o w0 now) as Hbegin. cbv zeta in Hbegin.
  destruct (step (OnBegin now) (newReporter o, newWorld w0)) as [r1 w1].
  simpl in Hbegin. destruct Hbegin as [Hg | Hp].
  - apply step_gate_stable, Hg.
  - apply resume_resolves, Hp.
Qed.

(** The completion request [onEnd] sends, if any, is the one built from
    the reporter after the drain. *)
Lemma onEnd_completion now r (w : World W) req :
  CallCompleteTestRun req ∈ newCalls w (onEnd now r w).2 →
  req = completionOf (now - default 0 (startTime (state r)))
          (onEnd now r w).1.2.
Proof.
  pose proof (onEnd_spec now r w) as Hend. cbv zeta in Hend.
  destruct Hend as (_ & _ & _ & _ & _ & _ & _ & _ & [Hsame | [_ Hsent]]).
  - rewrite (newCalls_same _ _ Hsame). intros Hin. inversion Hin.
  - rewrite (newCalls_app _ _ _ Hsent). intros Hin.
    apply list_elem_of_singleton in Hin. congruence.
Qed.

(** The deduplication rule of the report, on the state it reads. *)
Lemma reportUploadFailures_deduplicates r (w : World W) cause first rest :
  testRunCreationError r = Some cause →
  uploadFailures r = first :: rest →
  Forall (λ f, uf_error f = "Test run creation failed: " +:+ cause)
    (uploadFailures r) →
  console (reportUploadFailures r w).2 =
    (console w ++
       [ {| stream := ConsoleWarn;
            text := nl +:+ tag
              +:+ "WARNING: Test run creation failed, no results were uploaded."
              +:+ nl;
            extra := [] |};
         {| stream := ConsoleWarn;
            text := "  Error: " +:+ cause +:+ nl;
            extra := [] |};
         {| stream := ConsoleWarn;
            text := tag +:+ pretty (totalTests (counters r))
              +:+ " test(s) ran locally but could not be uploaded." +:+ nl;
            extra := [] |} ])%list.
Proof.
  intros Herr Hfail Hall.
  assert (Hdedup : allFailuresDueToTestRunCreation r = true).
  { unfold allFailuresDueToTestRunCreation, creationFailureMsg.
    rewrite Herr. simpl. apply forallb_forall. intros f Hf.
    rewrite Forall_forall in Hall. apply String.eqb_eq, Hall.
    apply list_elem_of_In, Hf. }
  unfold reportUploadFailures. exec_pure. rewrite Hfail.
  unfold when.
  replace (0 <? len (first :: rest)) with true
    by (symmetry; apply Z.ltb_lt; unfold len; simpl; lia).
  exec_pure. rewrite Hdedup. cbv beta iota. exec_pure. rewrite Herr.
  unfold warn, bind, inWorld, print. simpl.
  rewrite <- !app_assoc. reflexivity.
Qed.

End GatedFacts.

(** ** The batched revision *)

Section BatchedFacts.
Import Batched.
Context {W : Type} {client : ApiClient W}.

#[local] Abbreviation Act := (M W Reporter).

Lemma log_quiet_b message args : keeps quiet (log (W := W) message args).
Proof. unfold log. frame. apply keeps_logLine_quiet. Qed.

Lemma handleError_quiet_b message e :
  keeps quiet (handleError (W := W) message e).
Proof. unfold handleError. frame. apply keeps_handleErrorIn_quiet. Qed.

(** *** A flush *)

Lemma flushResults_spec r (w : World W) :
  if canFlush r then
    (flushResults r w).1.2 =
      setFlushPromises
        (flushPromises r
           ++ [InFlight (resultQueue r)
                 (submitTestResults_api (batchRequest r) (remote w)).1]) r
    ∧ calls (flushResults r w).2 =
        (calls w ++ [CallSubmitTestResults (batchRequest r)])%list
  else flushResults r w = ((), r, w).
Proof.
  unfold canFlush, flushResults, bind, gets.
  destruct ((len (resultQueue r) =? 0)
            || negb (truthy (testRunId (state r)))); [reflexivity|].
  cbn [negb]. unfold log, bind, gets, inWorld, ask, request, modify.
  fold (batchRequest r).
  destruct (logLine_calls (options r)
              ("Flushing batch of " +:+ pretty (len (resultQueue r))
                 +:+ " results") [] w) as [Hc Hr].
  rewrite Hr, Hc.
  destruct (submitTestResults_api (batchRequest r) (remote w))
    as [answer remote'].
  split; reflexivity.
Qed.

(** *** The answer to a flush *)

Lemma uploadOne_calls_b a r (w : World W) :
  (uploadOne a r w).1.2 = r
  ∧ calls (uploadOne a r w).2 = (calls w ++ [pendingCall a])%list.
Proof.
  unfold uploadOne, bind, ask, request, pendingCall.
  destruct (uploadAttachment_api _ _ _ _ _ (remote w)) as [[u|e] remote'];
    unfold log, bind, gets, inWorld, logLine; simpl;
    destruct (verbose (options r)); split; reflexivity.
Qed.

Lemma forEach_uploadOne_b l r (w : World W) :
  (forEach uploadOne l r w).1.2 = r
  ∧ calls (forEach uploadOne l r w).2 = (calls w ++ (pendingCall <$> l))%list.
Proof.
  revert w. induction l as [|a l IH]; intros w; simpl.
  - rewrite app_nil_r. done.
  - unfold bind.
    destruct (uploadOne_calls_b a r w) as [H1 H2].
    destruct (uploadOne a r w) as [[u r1] w1]. simpl in H1, H2. subst r1.
    destruct (IH w1) as [H3 H4]. rewrite H3, H4, H2, <- app_assoc. done.
Qed.

Lemma uploadBatchAttachments_spec batch resultIds r (w : World W) :
  (uploadBatchAttachments batch resultIds r w).1.1 = Fulfilled ()
  ∧ (uploadBatchAttachments batch resultIds r w).1.2 = r
  ∧ calls (uploadBatchAttachments batch resultIds r w).2 =
      (calls w ++ (pendingCall <$> allAttachments batch resultIds))%list.
Proof.
  unfold uploadBatchAttachments. cbv zeta.
  destruct (len (allAttachments batch resultIds) =? 0) eqn:E.
  - destruct (allAttachments batch resultIds); [|discriminate E].
    simpl. rewrite app_nil_r. done.
  - unfold bind.
    match goal with
    | |- context [log ?m [] r w] =>
        pose proof (log_quiet_b m [] r w) as (H0 & H0' & _);
        destruct (log m [] r w) as [[u0 r0] w0]
    end.
    simpl in H0, H0'. subst r0.
    destruct (forEach_uploadOne_b (allAttachments batch resultIds) r w0)
      as [H1 H2].
    destruct (forEach uploadOne _ r w0) as [[u1 r1] w1].
    simpl in H1, H2. subst r1.
    match goal with
    | |- context [log ?m [] r w1] =>
        pose proof (log_quiet_b m [] r w1) as (H3 & H3' & _);
        destruct (log m [] r w1) as [[u3 r3] w3]
    end.
    simpl in *. subst r3. repeat split. congruence.
Qed.

Ltac quiet_b :=
  frame; first [apply log_quiet_b | apply handleError_quiet_b].

Lemma afterSubmit_spec batch response r (w : World W) :
  let results := default [] (resp_results response) in
  ∃ w',
    afterSubmit batch response r w =
      (Fulfilled (),
       if 0 <? len results
       then setResultQueue (pruneQueue results (resultQueue r)) r
       else r,
       w')
    ∧ calls w' =
        (calls w ++ if 0 <? len results
                    then pendingCall <$> allAttachments batch results
                    else [])%list.
Proof.
  cbv zeta. unfold afterSubmit. cbv zeta.
  exec_quiet quiet_b.
  destruct (0 <? len (default [] (resp_results response))) eqn:E.
  - unfold when at 1. exec_pure. exec_quiet quiet_b.
    exec_quiet ltac:(unfold when; quiet_b).
    match goal with
    | |- context [uploadBatchAttachments ?b ?ids ?r1 ?w1] =>
        destruct (uploadBatchAttachments_spec b ids r1 w1) as (H1 & H2 & H3);
        destruct (uploadBatchAttachments b ids r1 w1) as [[s r2] w3]
    end.
    simpl in H1, H2, H3. subst s r2.
    eexists. split; [reflexivity|]. rewrite H3. congruence.
  - unfold when at 1. exec_pure.
    exec_quiet ltac:(unfold when; quiet_b).
    unfold ret. eexists. split; [reflexivity|]. rewrite app_nil_r. congruence.
Qed.

Lemma onBatchFailure_spec e r (w : World W) :
  (onBatchFailure e r w).1.2 = r
  ∧ calls (onBatchFailure e r w).2 = calls w.
Proof.
  assert (H : keeps quiet (onBatchFailure (W := W) e))
    by (unfold onBatchFailure; quiet_b).
  destruct (run_quiet _ r w H) as (H1 & H2 & _). done.
Qed.

(** When the request of a batch is answered, the queue loses the records
    whose title the answer lists; when it fails, the queue is as before. *)
Lemma settleFlush_spec batch answer r (w : World W) :
  match answer with
  | Fulfilled response =>
      let results := default [] (resp_results response) in
      (settleFlush batch answer r w).1.2 =
        (if 0 <? len results
         then setResultQueue (pruneQueue results (resultQueue r)) r
         else r)
      ∧ calls (settleFlush batch answer r w).2 =
          (calls w ++ if 0 <? len results
                      then pendingCall <$> allAttachments batch results
                      else [])%list
  | Rejected e =>
      (settleFlush batch answer r w).1.2 = r
      ∧ calls (settleFlush batch answer r w).2 = calls w
  end.
Proof.
  unfold settleFlush, catch_, then_. destruct answer as [response|e].
  - exec_pure. unfold bind.
    destruct (afterSubmit_spec batch response r w) as (w' & -> & H).
    exact (conj eq_refl H).
  - exec_pure. unfold bind, ret. apply onBatchFailure_spec.
Qed.

Lemma pruneQueue_spec results queue item :
  item ∈ pruneQueue results queue
  ↔ item ∈ queue ∧ qa_title (result item) ∉ (rid_title <$> results).
Proof.
  unfold pruneQueue, processedTitles.
  rewrite (list_elem_of_In (List.filter _ _) item), filter_In,
    negb_true_iff, bool_decide_eq_false, elem_of_list_to_set,
    <- list_elem_of_In.
  reflexivity.
Qed.

(** *** What the handlers do to the counters *)

#[local] Abbreviation sameCounters := (sameField (W := W) counters).

Lemma flushResults_counters : keeps sameCounters (flushResults (W := W)).
Proof. unfold flushResults, log. frame; field_leaf. Qed.

Lemma settleFlush_counters batch answer :
  keeps sameCounters (settleFlush (W := W) batch answer).
Proof.
  unfold settleFlush, afterSubmit, onBatchFailure, uploadBatchAttachments,
    handleError, log.
  frame; try field_leaf.
  all: unfold uploadOne, log; frame; field_leaf.
Qed.

Lemma allSettled_counters ps : keeps sameCounters (allSettled (W := W) ps).
Proof.
  induction ps as [|p ps IH]; simpl; frame; [|exact IH].
  unfold finish. frame. apply settleFlush_counters.
Qed.

Lemma sendTestResults_counters :
  keeps sameCounters (sendTestResults (W := W)).
Proof.
  unfold sendTestResults.
  frame; first [ apply flushResults_counters | apply allSettled_counters
               | unfold log; frame; field_leaf | field_leaf ].
Qed.

Lemma handle_counters e :
  match e with
  | OnTestEnd _ _ _ => True
  | _ => keeps sameCounters (handle (W := W) e)
  end.
Proof.
  destruct e as [now| |now test res|now test res|i|now]; [..|exact I| |];
    cbn [handle].
  - unfold onBegin, log. frame; field_leaf.
  - unfold onBeginResume, handleError, log. frame; field_leaf.
  - unfold onTestBegin, log. frame; field_leaf.
  - unfold flushSettled. frame;
      first [apply settleFlush_counters | field_leaf].
  - unfold onEnd, handleError, say.
    frame; first [ apply sendTestResults_counters
                 | unfold log; frame; field_leaf | field_leaf ].
Qed.

(** *** The requests the handlers issue *)

#[local] Abbreviation noSubmission := (callsGrowBy (W := W) (S := Reporter) notSubmit).

Lemma settleFlush_calls batch answer :
  keeps noSubmission (settleFlush batch answer).
Proof.
  unfold settleFlush, afterSubmit, onBatchFailure, uploadBatchAttachments,
    handleError, log.
  frame; try grow_leaf.
  all: unfold uploadOne, log; frame; grow_leaf.
Qed.

Lemma allSettled_calls ps : keeps noSubmission (allSettled ps).
Proof.
  induction ps as [|p ps IH]; simpl; frame; [|exact IH].
  unfold finish. frame. apply settleFlush_calls.
Qed.

Lemma handle_calls e :
  match e with
  | OnTestEnd _ _ _ | OnEnd _ => True
  | _ => keeps noSubmission (handle e)
  end.
Proof.
  destruct e as [now| |now test res|now test res|i|now]; try exact I;
    cbn [handle].
  - unfold onBegin, log. frame; grow_leaf.
  - unfold onBeginResume, handleError, log. frame; grow_leaf.
  - unfold onTestBegin, log. frame; grow_leaf.
  - unfold flushSettled. frame;
      first [apply settleFlush_calls | grow_leaf].
Qed.

Lemma onTestEnd_spec_b now test res r (w : World W) :
  ∃ w',
    onTestEnd now test res r w =
      ((),
       match tests (state r) !! getTestId test with
       | None => r
       | Some td =>
           if retry res =? retries test then
             if truthy (testRunId (state r)) then
               if batchSize (options r) <=? len (resultQueue r) + 1 then
                 setFlushPromises
                   (flushPromises r
                      ++ [InFlight (resultQueue (pushed now test res td r))
                            (submitTestResults_api
                               (batchRequest (pushed now test res td r))
                               (remote w)).1])
                   (pushed now test res td r)
               else pushed now test res td r
             else counted now test res td r
           else
             setState (λ s, setTests
               (<[getTestId test :=
                    {| td_test := td_test td; td_result := res;
                       td_startTime := td_startTime td;
                       td_endTime := Some now |}]> (tests s)) s) r
       end,
       w')
    ∧ calls w' =
        (calls w ++
           match tests (state r) !! getTestId test with
           | Some td =>
               if triggersFlush test res r
               then [CallSubmitTestResults
                       (batchRequest (pushed now test res td r))]
               else []
           | None => []
           end)%list.
Proof.
  unfold onTestEnd, triggersFlush. exec_pure.
  destruct (tests (state r) !! getTestId test) as [td|] eqn:Etd.
  2:{ pose proof (log_quiet_b ("Warning: Test data not found for "
                                 +:+ title test) [] r w) as (H1 & H2 & _).
      destruct (log _ [] r w) as [[[] r1] w1]. simpl in H1, H2. subst r1.
      exists w1. rewrite app_nil_r. done. }
  rewrite bool_decide_eq_true_2 by eauto. cbn [andb].
  exec_pure.
  destruct (retry res =? retries test); cbn [andb].
  2:{ unfold when at 1. exec_pure.
      match goal with
      | |- context [log ?m [] ?r1 w] =>
          pose proof (log_quiet_b m [] r1 w) as (H1 & H2 & _);
          destruct (log m [] r1 w) as [[[] r2] w1]
      end.
      simpl in H1, H2. subst r2. exists w1. rewrite app_nil_r. done. }
  unfold when at 1. exec_pure.
  change (testRunId (state (setCounters _ (setCounters _ (setState _ r)))))
    with (testRunId (state r)).
  destruct (truthy (testRunId (state r))) eqn:Hid; cbn [andb].
  2:{ unfold when at 1. exec_pure.
      match goal with
      | |- context [log ?m [] ?r1 w] =>
          pose proof (log_quiet_b m [] r1 w) as (H1 & H2 & _);
          destruct (log m [] r1 w) as [[[] r2] w1]
      end.
      simpl in H1, H2. subst r2. exists w1. rewrite app_nil_r. done. }
  unfold when at 1. exec_pure. cbv zeta. exec_print. exec_pure.
  cbn [options setCounters setState resultQueue].
  fold (counted now test res td r).
  fold (queued (options r) test res (td_startTime td)).
  fold (pushed now test res td r).
  match goal with
  | |- context [printAll ?l2 (printAll ?l1 w)] =>
      assert (Hprinted : calls (printAll l2 (printAll l1 w)) = calls w
                         ∧ remote (printAll l2 (printAll l1 w)) = remote w)
        by (split; reflexivity);
      generalize dependent (printAll l2 (printAll l1 w))
  end.
  intros w0 [Hcalls0 Hremote0]. rewrite <- Hcalls0, <- Hremote0.
  clear Hcalls0 Hremote0 w. rename w0 into w.
  destruct (batchSize (options r) <=? len (resultQueue r) + 1).
  - unfold when.
    pose proof (flushResults_spec (pushed now test res td r) w) as Hflush.
    assert (Hcan : canFlush (pushed now test res td r) = true).
    { unfold canFlush. simpl. rewrite Hid.
      unfold len. rewrite length_app. simpl.
      replace (Z.of_nat (length (resultQueue r) + 1) =? 0) with false;
        [reflexivity|]. symmetry. apply Z.eqb_neq. lia. }
    rewrite Hcan in Hflush. destruct Hflush as [Hr Hc].
    unfold bind at 1.
    destruct (flushResults (pushed now test res td r) w) as [[[] r1] w1].
    simpl in Hr, Hc. subst r1.
    match goal with
    | |- context [log ?m [] ?r1 w1] =>
        pose proof (log_quiet_b m [] r1 w1) as (H1 & H2 & _);
        destruct (log m [] r1 w1) as [[[] r2] w2]
    end.
    simpl in H1, H2. subst r2. exists w2. split; [reflexivity | congruence].
  - unfold when. exec_pure.
    match goal with
    | |- context [log ?m [] ?r1 w] =>
        pose proof (log_quiet_b m [] r1 w) as (H1 & H2 & _);
        destruct (log m [] r1 w) as [[[] r2] w1]
    end.
    simpl in H1, H2. subst r2. exists w1. rewrite app_nil_r. done.
Qed.

Lemma canFlush_when r :
  truthy (testRunId (state r)) = true →
  canFlush r = (0 <? len (resultQueue r)).
Proof.
  intros Hid. unfold canFlush, len. rewrite Hid, orb_false_r.
  destruct (resultQueue r); reflexivity.
Qed.

Lemma sendTestResults_calls_b r (w : World W) :
  ∃ rest,
    calls (sendTestResults r w).2 =
      (calls w
         ++ (if canFlush r then [CallSubmitTestResults (batchRequest r)]
             else [])
         ++ rest)%list
    ∧ Forall notSubmit rest.
Proof.
  unfold sendTestResults. exec_pure.
  destruct (truthy (testRunId (state r))) eqn:Hid; cbn [negb].
  - exec_pure. rewrite (canFlush_when r Hid).
    pose proof (flushResults_spec r w) as Hflush.
    rewrite (canFlush_when r Hid) in Hflush.
    unfold bind at 1.
    assert (Hfirst :
      calls (when (0 <? len (resultQueue r)) flushResults r w).2 =
        (calls w ++ if 0 <? len (resultQueue r)
                    then [CallSubmitTestResults (batchRequest r)]
                    else [])%list).
    { destruct (0 <? len (resultQueue r)); simpl.
      - apply Hflush.
      - rewrite app_nil_r. reflexivity. }
    destruct (when (0 <? len (resultQueue r)) flushResults r w)
      as [[[] r1] w1].
    simpl in Hfirst.
    match goal with
    | |- context [calls (?m r1 w1).2] =>
        assert (Htail : keeps noSubmission m)
          by (frame; first [ apply allSettled_calls
                           | unfold log; frame; grow_leaf | grow_leaf ]);
        destruct (Htail r1 w1) as (rest & Hrest & Hno)
    end.
    cbn [fst snd] in Hrest.
    exists rest. rewrite Hrest, Hfirst, <- app_assoc. done.
  - assert (Hcan : canFlush r = false)
      by (unfold canFlush; rewrite Hid, orb_true_r; reflexivity).
    rewrite Hcan.
    pose proof (log_quiet_b
                  "No test run ID available, skipping result submission"
                  [] r w) as (_ & H2 & _).
    destruct (log _ [] r w) as [[[] r1] w1]. simpl in H2 |- *.
    exists []. rewrite H2, !app_nil_r. split; [reflexivity | constructor].
Qed.

Lemma onEnd_calls_b now r (w : World W) :
  ∃ rest,
    calls (onEnd now r w).2 =
      (calls w
         ++ (if canFlush r then [CallSubmitTestResults (batchRequest r)]
             else [])
         ++ rest)%list
    ∧ Forall notSubmit rest.
Proof.
  unfold onEnd. exec_pure. cbv zeta.
  exec_quiet quiet_b. exec_pure. exec_quiet quiet_b. exec_quiet quiet_b.
  unfold bind at 1.
  set (r0 := setState (setEndTime (Some now)) r).
  destruct (sendTestResults_calls_b r0 w2) as (rest1 & Hrest1 & Hno1).
  change (canFlush r0) with (canFlush r) in Hrest1.
  change (batchRequest r0) with (batchRequest r) in Hrest1.
  destruct (sendTestResults r0 w2) as [[[] r1] w3]. simpl in Hrest1.
  match goal with
  | |- context [calls (?m r1 w3).2] =>
      assert (Htail : keeps noSubmission m)
        by (unfold handleError, say;
            frame; first [unfold log; frame; grow_leaf | grow_leaf]);
      destruct (Htail r1 w3) as (rest & Hrest & Hno)
  end.
  cbn [fst snd] in Hrest. exists (rest1 ++ rest)%list.
  rewrite Hrest, Hrest1, <- !app_assoc.
  split; [congruence | apply Forall_app; done].
Qed.

(** *** The counters over a run *)

Lemma step_balanced_b e r (w : World W) :
  balanced (counters r) → balanced (counters (step e (r, w)).1).
Proof.
  intros Hb. unfold step. cbn [fst snd].
  pose proof (handle_counters e) as Hkeep.
  destruct e as [now| |now test res|now test res|i|now];
    try (specialize (Hkeep r w); unfold sameField in Hkeep;
         destruct (handle _ r w) as [[u r1] w1]; simpl in *;
         rewrite Hkeep; exact Hb).
  cbn [handle].
  destruct (onTestEnd_spec_b now test res r w) as (w' & -> & _). simpl.
  destruct (tests (state r) !! getTestId test) as [td|]; [|exact Hb].
  destruct (retry res =? retries test); [|exact Hb].
  destruct (truthy (testRunId (state r)));
    [destruct (batchSize (options r) <=? len (resultQueue r) + 1)|];
    simpl; apply balanced_count, Hb.
Qed.

Lemma run_balanced_b es (m : Reporter * World W) :
  balanced (counters m.1) → balanced (counters (run es m).1).
Proof.
  revert m. induction es as [|e es IH]; intros [r w] Hb; [exact Hb|].
  simpl. apply IH, step_balanced_b, Hb.
Qed.

End BatchedFacts.

(** ** The streaming revision *)

Section StreamingFacts.
Import Streaming.
Context {W : Type} {client : ApiClient W}.

Lemma log_quiet_s message args : keeps quiet (log (W := W) message args).
Proof. unfold log. frame. apply keeps_logLine_quiet. Qed.

Lemma handleError_quiet_s message e :
  keeps quiet (handleError (W := W) message e).
Proof. unfold handleError. frame. apply keeps_handleErrorIn_quiet. Qed.

Ltac quiet_s :=
  frame; first [ apply log_quiet_s | apply handleError_quiet_s
               | apply keeps_print_quiet ].

Lemma sendTestResults_spec_s r (w : World W) :
  uploadFailures (sendTestResults r w).1.2 = uploadFailures r
  ∧ counters (sendTestResults r w).1.2 = counters r
  ∧ state (sendTestResults r w).1.2 = state r
  ∧ calls (sendTestResults r w).2 = calls w.
Proof.
  unfold sendTestResults. exec_pure.
  destruct (negb (truthy (testRunId (state r)))).
  - destruct (run_quiet _ r w (log_quiet_s
      "No test run ID available, skipping result submission" []))
      as (-> & -> & _). done.
  - exec_pure. destruct (0 <? len (flushPromises r)); unfold when.
    + exec_pure. exec_quiet quiet_s. exec_pure.
      match goal with
      | |- context [log ?m [] ?r1 ?w1] =>
          destruct (run_quiet _ r1 w1 (log_quiet_s m [])) as (-> & -> & _)
      end.
      repeat split; congruence.
    + exec_pure.
      destruct (run_quiet _ r w (log_quiet_s
        "All test results sent successfully" [])) as (-> & -> & _). done.
Qed.

(** [onEnd] leaves the counters and the collected failures as they are
    and sends at most one request, the completion of the run, with the
    counts of [actualUploaded]. *)
Lemma onEnd_spec_s now r (w : World W) :
  ∃ c r' w',
    onEnd now r w = (c, r', w')
    ∧ uploadFailures r' = uploadFailures r
    ∧ counters r' = counters r
    ∧ (calls w' = calls w
       ∨ calls w' =
           (calls w ++
              [CallCompleteTestRun
                 {| cmp_testRunId := showOpt (testRunId (state r));
                    summary :=
                      {| total := (actualUploaded r).1.1.1;
                         sum_passed := (actualUploaded r).1.1.2;
                         sum_failed := (actualUploaded r).1.2;
                         sum_skipped := (actualUploaded r).2;
                         sum_duration :=
                           now - default 0 (startTime (state r)) |} |}])%list).
Proof.
  unfold onEnd. exec_pure. cbv zeta.
  exec_quiet quiet_s. exec_pure. exec_quiet quiet_s. exec_quiet quiet_s.
  set (r0 := setState (setEndTime (Some now)) r).
  unfold bind at 1.
  destruct (sendTestResults_spec_s r0 w2) as (Hf & Hc & Hs & Hdrain).
  destruct (sendTestResults r0 w2) as [[[] r1] w3].
  simpl in Hf, Hc, Hs, Hdrain.
  exec_quiet ltac:(unfold reportUploadFailures, complain, when; quiet_s).
  unfold completeRun. exec_pure. rewrite Hs. subst r0.
  cbn [setState setEndTime state testRunId startTime].
  assert (Hactual : actualUploaded r1 = actualUploaded r)
    by (unfold actualUploaded; rewrite Hf, Hc; reflexivity).
  destruct (truthy (testRunId (state r))).
  2:{ exec_pure. unfold ret. eexists _, _, _. split; [reflexivity|].
      repeat split; try assumption. left. congruence. }
  exec_pure. rewrite Hactual.
  destruct (actualUploaded r) as [[[uploaded p] f] s] eqn:Eactual.
  cbn [fst snd]. rewrite bind_assoc. unfold bind at 1, ask, request.
  destruct (completeTestRun_api _ (remote w4)) as [[u|e] remote'].
  - exec_quiet quiet_s.
    match goal with
    | |- context [match ?x with Fulfilled _ => _ | Rejected _ => _ end] =>
        destruct x
    end; [|exec_quiet quiet_s]; unfold ret; simpl in *;
      eexists _, _, _; (split; [reflexivity|]);
      (repeat split; try assumption); right; congruence.
  - exec_pure. exec_quiet quiet_s. unfold ret. simpl in *.
    eexists _, _, _. split; [reflexivity|].
    repeat split; try assumption. right. congruence.
Qed.

(** The request [onEnd] sends: the completion of the run when there is a
    run id, and nothing otherwise. *)
Lemma onEnd_exact_s now r (w : World W) :
  calls (onEnd now r w).2 =
    (calls w ++
       if truthy (testRunId (state r)) then
         [CallCompleteTestRun
            {| cmp_testRunId := showOpt (testRunId (state r));
               summary :=
                 {| total := (actualUploaded r).1.1.1;
                    sum_passed := (actualUploaded r).1.1.2;
                    sum_failed := (actualUploaded r).1.2;
                    sum_skipped := (actualUploaded r).2;
                    sum_duration :=
                      now - default 0 (startTime (state r)) |} |}]
       else [])%list.
Proof.
  unfold onEnd. exec_pure. cbv zeta.
  exec_quiet quiet_s. exec_pure. exec_quiet quiet_s. exec_quiet quiet_s.
  set (r0 := setState (setEndTime (Some now)) r).
  unfold bind at 1.
  destruct (sendTestResults_spec_s r0 w2) as (Hf & Hc & Hs & Hdrain).
  destruct (sendTestResults r0 w2) as [[[] r1] w3].
  simpl in Hf, Hc, Hs, Hdrain.
  exec_quiet ltac:(unfold reportUploadFailures, complain, when; quiet_s).
  unfold completeRun. exec_pure. rewrite Hs. subst r0.
  cbn [setState setEndTime state testRunId startTime].
  assert (Hactual : actualUploaded r1 = actualUploaded r)
    by (unfold actualUploaded; rewrite Hf, Hc; reflexivity).
  destruct (truthy (testRunId (state r))).
  2:{ exec_pure. unfold ret. cbn [fst snd]. rewrite app_nil_r. congruence. }
  exec_pure. rewrite Hactual.
  destruct (actualUploaded r) as [[[uploaded p] f] s] eqn:Eactual.
  cbn [fst snd]. rewrite bind_assoc. unfold bind at 1, ask, request.
  destruct (completeTestRun_api _ (remote w4)) as [[u|e] remote'].
  - exec_quiet quiet_s.
    match goal with
    | |- context [match ?x with Fulfilled _ => _ | Rejected _ => _ end] =>
        destruct x
    end; [|exec_quiet quiet_s]; unfold ret; simpl in *; congruence.
  - exec_pure. exec_quiet quiet_s. unfold ret. simpl in *. congruence.
Qed.

End StreamingFacts.

(** ** What an upload task prints *)

#[local] Instance muted_pre {W} : PreOrder (@muted W).
Proof.
  split; [intros x; split; reflexivity|].
  intros x y z [H1 H2] [H3 H4]. split; [congruence|].
  intros Hv. rewrite H4, H2; [reflexivity | exact Hv | congruence].
Qed.

Section GatedConsole.
Import Gated.
Context {W : Type} {client : ApiClient W}.

Lemma log_muted message args : keeps muted (log (W := W) message args).
Proof.
  intros r w. unfold log, bind, gets, inWorld, logLine. split; [reflexivity|].
  cbn. intros ->. reflexivity.
Qed.

Lemma request_muted {A} call (f : W → Settled A * W) :
  keeps (S := Reporter) muted (ask (request call f)).
Proof.
  intros r w. unfold ask, request. destruct (f (remote w)).
  split; reflexivity.
Qed.

Lemma sendPromise_muted result atts :
  keeps muted (sendPromise (W := W) result atts).
Proof.
  unfold sendPromise, afterGate, sendTestResult, uploadAttachments.
  frame; try first [apply log_muted | apply request_muted].
  all: unfold uploadOne; frame; first [apply log_muted | apply request_muted].
Qed.

Lemma uploadOne_console id att r (w : World W) :
  console (uploadOne id att r w).2
  = (console w
       ++ if verbose (options r)
          then [uploadLine att
                  (uploadAttachment_api id (att_name att)
                     (att_contentType att) (att_data att) (att_type att)
                     (remote w)).1]
          else [])%list.
Proof.
  unfold uploadOne, bind, ask, request, uploadLine.
  destruct (uploadAttachment_api _ _ _ _ _ (remote w)) as [[u|e] remote'];
    unfold log, bind, gets, inWorld, logLine; cbn;
    destruct (verbose (options r)); cbn; rewrite ?app_nil_r; reflexivity.
Qed.

End GatedConsole.

(** ** Scripted clients *)

(** A script whose rejections all have a string form. *)
Lemma scripted_printable (s : Script) :
  (∀ e, creation s = Rejected e → hasStringForm e = true) →
  (∀ req e, submission s req = Rejected e → hasStringForm e = true) →
  (∀ e, completion s = Rejected e → hasStringForm e = true) →
  printable (scripted s).
Proof.
  intros Hc Hs Hd w e. cbn. split; [|split]; intros req Heq; eauto.
Qed.

Lemma confirm_fulfilled accepted req e : confirm accepted req ≠ Rejected e.
Proof. unfold confirm. discriminate. Qed.

Ltac script_printable :=
  apply scripted_printable; cbn;
  first [ discriminate
        | intros req e He; destruct (confirm_fulfilled _ _ _ He)
        | intros req e He; injection He as <-; reflexivity
        | intros e He; injection He as <-; reflexivity ].

Lemma happy_printable : printable (scripted happy).
Proof. script_printable. Qed.

Lemma quotaExceeded_printable : printable (scripted quotaExceeded).
Proof. script_printable. Qed.

Lemma offline_printable : printable (scripted offline).
Proof. script_printable. Qed.

Lemma refusesCompletion_printable : printable (scripted refusesCompletion).
Proof. script_printable. Qed.

(** ** Batches among the requests *)

Lemma submissions_none l : Forall notSubmit l → submissions l = [].
Proof.
  induction 1 as [|c l Hc _ IH]; [reflexivity|].
  destruct c; simpl in *; first [exact IH | contradiction].
Qed.

Lemma submissions_app l1 l2 :
  submissions (l1 ++ l2) = (submissions l1 ++ submissions l2)%list.
Proof. apply omap_app. Qed.

(** * The properties of the delivery pipeline *)

(** C10: [mapTestStatus] is total with the stated table: the five Playwright
    statuses map to passed, failed, timedout, skipped and skipped, every
    other string maps to failed; hence the wire status is always one of the
    four declared values, and the record converted from an interrupted
    result is reported as skipped. *)
Theorem mapTestStatus_table :
  mapTestStatus "passed" = "passed"
  ∧ mapTestStatus "failed" = "failed"
  ∧ mapTestStatus "timedOut" = "timedout"
  ∧ mapTestStatus "skipped" = "skipped"
  ∧ mapTestStatus "interrupted" = "skipped"
  ∧ (∀ s : string,
       (s ∉ ["passed"; "failed"; "timedOut"; "skipped"; "interrupted"]) →
       mapTestStatus s = "failed")
  ∧ (∀ s : string, mapTestStatus s ∈ wireStatuses)
  ∧ (∀ test result startTime,
       status result = interrupted →
       qa_status (convertTestResult test result startTime) = "skipped").
Proof.
  repeat split; try reflexivity.
  - intros s Hs. unfold mapTestStatus.
    repeat case_decide; subst; try reflexivity;
      exfalso; apply Hs; set_solver.
  - intros s. unfold mapTestStatus, wireStatuses.
    repeat case_decide; set_solver.
  - intros test result startTime Hst. simpl. rewrite Hst. reflexivity.
Qed.

Lemma mapTestStatus_table_witness :
  ("flaky" ∉ ["passed"; "failed"; "timedOut"; "skipped"; "interrupted"])
  ∧ mapTestStatus "flaky" = "failed"
  ∧ status (resultOf interrupted []) = interrupted
  ∧ qa_status (convertTestResult (testNamed "t") (resultOf interrupted []) 0)
    = "skipped".
Proof.
  assert (Hflaky :
    "flaky" ∉ ["passed"; "failed"; "timedOut"; "skipped"; "interrupted"]).
  { intros Hin. repeat (apply elem_of_cons in Hin as [Hin|Hin];
                        [discriminate Hin|]).
    inversion Hin. }
  split; [exact Hflaky|].
  split; [exact (proj1 (proj2 (proj2 (proj2 (proj2 (proj2
            mapTestStatus_table))))) "flaky" Hflaky)|].
  split; [reflexivity|].
  exact (proj2 (proj2 (proj2 (proj2 (proj2 (proj2 (proj2
           mapTestStatus_table))))))
           (testNamed "t") (resultOf interrupted []) 0 eq_refl).
Defined.

(** C8: the attempted counters always satisfy
    totalTests = passedTests + failedTests + skippedTests, in the gated and
    in the batched revision, after any sequence of events; [onTestEnd] for
    a test that has begun adds one to totalTests and to exactly one bucket
    when the result is the final retry (passed to passed, failed and
    timedOut to failed, skipped and interrupted to skipped) and leaves the
    counters alone otherwise. *)
Theorem attempted_counters_add_up :
  (∀ W (client : ApiClient W) o (w0 : W) es,
     balanced (Gated.counters
                 (Gated.run es (Gated.newReporter o, newWorld w0)).1))
  ∧ (∀ W (client : ApiClient W) o (w0 : W) es,
       balanced (Batched.counters
                   (Batched.run es (Batched.newReporter o, newWorld w0)).1))
  ∧ (∀ W (client : ApiClient W) now test res r (w : World W) td,
       tests (Gated.state r) !! getTestId test = Some td →
       Gated.counters (Gated.onTestEnd now test res r w).1.2 =
         if retry res =? retries test
         then countStatus (status res) (incTotal (Gated.counters r))
         else Gated.counters r)
  ∧ (∀ W (client : ApiClient W) now test res r (w : World W) td,
       tests (Batched.state r) !! getTestId test = Some td →
       Batched.counters (Batched.onTestEnd now test res r w).1.2 =
         if retry res =? retries test
         then countStatus (status res) (incTotal (Batched.counters r))
         else Batched.counters r)
  ∧ (∀ c,
       let bump p f s :=
         {| totalTests := totalTests c + 1; passedTests := passedTests c + p;
            failedTests := failedTests c + f;
            skippedTests := skippedTests c + s |} in
       countStatus passed (incTotal c) = bump 1 0 0
       ∧ countStatus failed (incTotal c) = bump 0 1 0
       ∧ countStatus timedOut (incTotal c) = bump 0 1 0
       ∧ countStatus skipped (incTotal c) = bump 0 0 1
       ∧ countStatus interrupted (incTotal c) = bump 0 0 1).
Proof.
  split; [|split; [|split; [|split]]].
  - intros W client o w0 es.
    apply (run_invariant es (Gated.newReporter o, newWorld w0)),
      newReporter_invariant.
  - intros W client o w0 es.
    apply (run_balanced_b es (Batched.newReporter o, newWorld w0)).
    reflexivity.
  - intros W client now test res r w td Htd.
    rewrite onTestEnd_reporter, Htd. cbv zeta.
    destruct (retry res =? retries test); reflexivity.
  - intros W client now test res r w td Htd.
    destruct (onTestEnd_spec_b now test res r w) as (w' & -> & _).
    cbn [fst snd]. rewrite Htd.
    destruct (retry res =? retries test); [|reflexivity].
    destruct (truthy (testRunId (Batched.state r)));
      [destruct (batchSize (Batched.options r) <=? _)|]; reflexivity.
  - intros c. cbv zeta. unfold countStatus, incTotal. simpl.
    rewrite !Z.add_0_r. repeat split; reflexivity.
Qed.

Lemma attempted_counters_add_up_witness :
  let m := Gated.run (client := scripted happy) oneBegun gatedStart in
  tests (Gated.state m.1) !! getTestId (testNamed "a") = Some dataOfA
  ∧ Gated.counters
      (Gated.onTestEnd 2 (testNamed "a") (resultOf passed []) m.1 m.2).1.2
    = (if retry (resultOf passed []) =? retries (testNamed "a")
       then countStatus (status (resultOf passed []))
              (incTotal (Gated.counters m.1))
       else Gated.counters m.1).
Proof.
  cbv zeta.
  assert (Hdata :
    tests (Gated.state
             (Gated.run (client := scripted happy) oneBegun gatedStart).1)
      !! getTestId (testNamed "a") = Some dataOfA)
    by (vm_compute; reflexivity).
  split; [exact Hdata|].
  exact (proj1 (proj2 (proj2 attempted_counters_add_up)) unit
           (scripted happy) 2 (testNamed "a") (resultOf passed [])
           (Gated.run (client := scripted happy) oneBegun gatedStart).1
           (Gated.run (client := scripted happy) oneBegun gatedStart).2
           dataOfA Hdata).
Defined.

(** C5: the chain tracked for a record ends as the submission does: a
    success when it is answered, a failure value with the text of the
    rejection when it is rejected, the failure of the gate when there is no
    run id.  With a client whose rejections all have a string form no
    promise tracked in any run is rejected, and once the request of
    [onBegin] has settled every tracked promise is fulfilled.  But the
    [catch] callback evaluates [String(error)]: when the submission is
    rejected with a value for which the conversion throws, the tracked
    promise is rejected with what the conversion throws.  With a service
    that rejects every submission with an object without string form, the
    three promises tracked for three tests are rejected; [onEnd] then
    fails in its drain, collects no failure, sends no completion request
    and, being silent, only prints the error of the conversion. *)
Theorem upload_task_rejects_without_string_form :
  (∀ W (client : ApiClient W) result atts r (w : World W),
     (Gated.sendPromise result atts r w).1.1
     = if truthy (testRunId (Gated.state r)) then
         match (submitTestResults_api (submitRequest r result)
                  (remote w)).1 with
         | Fulfilled _ => Fulfilled Gated.Success
         | Rejected e =>
             match errorText e with
             | Fulfilled message => Fulfilled (Gated.Failure message)
             | Rejected raised => Rejected raised
             end
         end
       else Fulfilled (Gated.Failure (gateFailure r)))
  ∧ (∀ W (client : ApiClient W) o (w0 : W) es,
       printable client →
       let r := (Gated.run es (Gated.newReporter o, newWorld w0)).1 in
       Forall neverRejected (Gated.flushPromises r)
       ∧ (Gated.testRunReadyPromise r = Gated.Resolved →
          Forall settledItem (Gated.flushPromises r)))
  ∧ (∀ W (client : ApiClient W) o (w0 : W) now es,
       printable client →
       let r :=
         (Gated.run (Gated.OnBegin now :: Gated.CreateTestRunSettled :: es)
            (Gated.newReporter o, newWorld w0)).1 in
       Gated.testRunReadyPromise r = Gated.Resolved
       ∧ Forall settledItem (Gated.flushPromises r))
  ∧ (let m := Gated.run (client := scripted rejectsOddly) threeTests
                gatedStart in
     let after := Gated.onEnd (client := scripted rejectsOddly) 100
                    m.1 m.2 in
     Gated.promise <$> Gated.flushPromises m.1
       = [Gated.Done (Rejected typeError); Gated.Done (Rejected typeError);
          Gated.Done (Rejected typeError)]
     ∧ after.1.1 = Completed (Fulfilled ())
     ∧ Gated.flushPromises after.1.2 = Gated.flushPromises m.1
     ∧ Gated.uploadFailures after.1.2 = []
     ∧ newCalls m.2 after.2 = []
     ∧ console after.2
       = [{| stream := ConsoleError;
             text := tag +:+ "Failed to send test results: "
                       +:+ "Cannot convert object to primitive value";
             extra := [] |}]).
Proof.
  split; [|split; [|split]].
  - intros W client result atts r w.
    pose proof (sendPromise_spec result atts r w) as Hspec.
    destruct (truthy (testRunId (Gated.state r))); [|exact (proj1 Hspec)].
    cbv zeta in Hspec.
    destruct (submitTestResults_api (submitRequest r result) (remote w)).1;
      exact (proj1 Hspec).
  - intros W client o w0 es Hprintable.
    exact (run_settledItem Hprintable es o w0).
  - intros W client o w0 now es Hprintable. cbv zeta.
    pose proof (run_settledItem Hprintable
                  (Gated.OnBegin now :: Gated.CreateTestRunSettled :: es)
                  o w0) as Hrun.
    cbv zeta in Hrun.
    assert (Hg :
      Gated.testRunReadyPromise
        (Gated.run (Gated.OnBegin now :: Gated.CreateTestRunSettled :: es)
           (Gated.newReporter o, newWorld w0)).1 = Gated.Resolved).
    { change (Gated.run
                (Gated.OnBegin now :: Gated.CreateTestRunSettled :: es)
                (Gated.newReporter o, newWorld w0))
        with (Gated.run es
                (Gated.run [Gated.OnBegin now; Gated.CreateTestRunSettled]
                   (Gated.newReporter o, newWorld w0))).
      pose proof (gate_resolves o w0 now) as Hg.
      destruct (Gated.run [Gated.OnBegin now; Gated.CreateTestRunSettled]
                  (Gated.newReporter o, newWorld w0)) as [r1 w1].
      exact (run_gate_stable es r1 w1 Hg). }
    split; [exact Hg | exact (proj2 Hrun Hg)].
  - cbv zeta. repeat split; vm_compute; reflexivity.
Qed.

Lemma upload_task_rejects_without_string_form_witness :
  let r := (Gated.run (client := scripted quotaExceeded) scenarioB
              (Gated.newReporter defaults, newWorld ())).1 in
  printable (scripted quotaExceeded)
  ∧ Gated.testRunReadyPromise r = Gated.Resolved
  ∧ Forall settledItem (Gated.flushPromises r).
Proof.
  cbv zeta. split; [exact quotaExceeded_printable|].
  assert (Hg :
    Gated.testRunReadyPromise
      (Gated.run (client := scripted quotaExceeded) scenarioB
         (Gated.newReporter defaults, newWorld ())).1 = Gated.Resolved)
    by (vm_compute; reflexivity).
  split; [exact Hg|].
  exact (proj2 (proj1 (proj2 upload_task_rejects_without_string_form) unit
                  (scripted quotaExceeded) defaults () scenarioB
                  quotaExceeded_printable) Hg).
Defined.

(** C6, as amended: when there is a run id and the primary submission is
    answered, the task is fulfilled with a success whatever becomes of the
    attachment uploads, which are requested only after that answer and only
    for the result identifier it carries; when the submission is rejected
    with a value that has a string form the task is fulfilled with a
    failure and no attachment is requested.  The drain collects a failure
    record only for a task fulfilled with a failure, so the record of a
    task whose attachments were lost counts as uploaded.  The rejection of
    an upload is caught and passed to [log], which prints it in verbose
    mode only: a task of a reporter that is not verbose prints nothing. *)
Theorem attachment_failure_keeps_success :
  (∀ W (client : ApiClient W) result atts r (w : World W) response,
     truthy (testRunId (Gated.state r)) = true →
     (submitTestResults_api (submitRequest r result) (remote w)).1
       = Fulfilled response →
     (Gated.sendPromise result atts r w).1.1 = Fulfilled Gated.Success
     ∧ newCalls w (Gated.sendPromise result atts r w).2
       = CallSubmitTestResults (submitRequest r result)
           :: uploadsFor response atts)
  ∧ (∀ W (client : ApiClient W) result atts r (w : World W) e message,
       truthy (testRunId (Gated.state r)) = true →
       (submitTestResults_api (submitRequest r result) (remote w)).1
         = Rejected e →
       errorText e = Fulfilled message →
       (Gated.sendPromise result atts r w).1.1
         = Fulfilled (Gated.Failure message)
       ∧ newCalls w (Gated.sendPromise result atts r w).2
         = [CallSubmitTestResults (submitRequest r result)])
  ∧ (∀ W (client : ApiClient W) r (w : World W),
       truthy (testRunId (Gated.state r)) = true →
       Forall settledItem (Gated.flushPromises r) →
       Gated.uploadFailures (Gated.sendTestResults r w).1.2
         = (Gated.uploadFailures r ++ failuresOf (Gated.flushPromises r))%list)
  ∧ (∀ item,
       Gated.promise item = Gated.Done (Fulfilled Gated.Success) →
       failuresOf [item] = [])
  ∧ (∀ W (client : ApiClient W) id att r (w : World W),
       console (Gated.uploadOne id att r w).2
       = (console w
            ++ if verbose (Gated.options r)
               then [uploadLine att
                       (uploadAttachment_api id (att_name att)
                          (att_contentType att) (att_data att)
                          (att_type att) (remote w)).1]
               else [])%list)
  ∧ (∀ W (client : ApiClient W) result atts r (w : World W),
       verbose (Gated.options r) = false →
       console (Gated.sendPromise result atts r w).2 = console w).
Proof.
  split; [|split; [|split; [|split; [|split]]]].
  - intros W client result atts r w response Hid Hanswer.
    pose proof (sendPromise_spec result atts r w) as Hspec.
    rewrite Hid in Hspec. cbv zeta in Hspec. rewrite Hanswer in Hspec.
    destruct Hspec as [Ho Hc]. split; [exact Ho|].
    apply newCalls_app, Hc.
  - intros W client result atts r w e message Hid Hanswer Htext.
    pose proof (sendPromise_spec result atts r w) as Hspec.
    rewrite Hid in Hspec. cbv zeta in Hspec.
    rewrite Hanswer, Htext in Hspec.
    destruct Hspec as [Ho Hc]. split; [exact Ho|].
    apply newCalls_app, Hc.
  - intros W client r w Hid Hall.
    destruct (drain_collects r w Hid Hall) as [_ ->]. reflexivity.
  - intros item Hitem. unfold failuresOf. simpl. rewrite Hitem. reflexivity.
  - intros W client id att r w. apply uploadOne_console.
  - intros W client result atts r w Hquiet.
    exact (proj2 (sendPromise_muted result atts r w) Hquiet).
Qed.

Lemma attachment_failure_keeps_success_witness :
  let m := Gated.run (client := scripted lostAttachments) oneBegun
             gatedStart in
  truthy (testRunId (Gated.state m.1)) = true
  ∧ (submitTestResults_api (ApiClient := scripted lostAttachments)
       (submitRequest m.1 loginRecord) (remote m.2)).1
    = Fulfilled loginAnswer
  ∧ (Gated.sendPromise (client := scripted lostAttachments) loginRecord
       [shot] m.1 m.2).1.1 = Fulfilled Gated.Success
  ∧ newCalls m.2
      (Gated.sendPromise (client := scripted lostAttachments) loginRecord
         [shot] m.1 m.2).2
    = CallSubmitTestResults (submitRequest m.1 loginRecord)
        :: uploadsFor loginAnswer [shot].
Proof.
  cbv zeta.
  set (m := Gated.run (client := scripted lostAttachments) oneBegun
              gatedStart).
  assert (Hid : truthy (testRunId (Gated.state m.1)) = true)
    by (vm_compute; reflexivity).
  assert (Hanswer :
    (submitTestResults_api (ApiClient := scripted lostAttachments)
       (submitRequest m.1 loginRecord) (remote m.2)).1
    = Fulfilled loginAnswer) by (vm_compute; reflexivity).
  split; [exact Hid|]. split; [exact Hanswer|].
  exact (proj1 attachment_failure_keeps_success unit
           (scripted lostAttachments) loginRecord [shot] m.1 m.2
           loginAnswer Hid Hanswer).
Defined.

(** C6, as stated, fails at scenario D with the default options: the
    record is submitted, the upload of its screenshot is requested and
    rejected, the task is fulfilled with a success and the run is completed
    with one uploaded test, and the console holds the two lines of [onEnd]
    and no line about the attachment. *)
Lemma attachment_failure_is_not_logged_by_default :
  let m := Gated.run (client := scripted lostAttachments) scenarioD
             gatedStart in
  upload lostAttachments = Rejected (ErrorObject "upload refused")
  ∧ verbose (Gated.options m.1) = false
  ∧ calls m.2
    = [CallCreateTestRun
         {| ctr_projectId := "abc123"; ctr_name := "Playwright Test Run";
            ctr_description := None; ctr_environment := "default";
            ctr_milestoneId := None |};
       CallSubmitTestResults
         {| str_testRunId := "run-1"; str_results := [loginRecord] |};
       uploadCall "id:login" shot;
       CallCompleteTestRun (completion100 1 0 1 0)]
  ∧ console m.2
    = [{| stream := ConsoleLog;
          text := nl +:+ tag +:+ "View test run: "
                    +:+ "https://qastudio.dev/projects/abc123/runs/run-1";
          extra := [] |};
       {| stream := ConsoleLog;
          text := tag +:+ "All 1 tests uploaded successfully" +:+ nl;
          extra := [] |}].
Proof. cbv zeta. repeat split; vm_compute; reflexivity. Qed.

(** C7, as amended: in the gated revision the passed, failed and skipped
    counts of the completion request are the execution counters, not
    reduced by upload failures, so in any run they add up to the reported
    total plus the number of collected failures; in the streaming revision
    each of them is reduced by the failed uploads of that status. *)
Theorem status_buckets_by_revision :
  (∀ W (client : ApiClient W) now r (w : World W) req,
     CallCompleteTestRun req ∈ newCalls w (Gated.onEnd now r w).2 →
     sum_passed (summary req) = passedTests (Gated.counters r)
     ∧ sum_failed (summary req) = failedTests (Gated.counters r)
     ∧ sum_skipped (summary req) = skippedTests (Gated.counters r))
  ∧ (∀ W (client : ApiClient W) o (w0 : W) es now req,
       let m := Gated.run es (Gated.newReporter o, newWorld w0) in
       CallCompleteTestRun req ∈ newCalls m.2 (Gated.onEnd now m.1 m.2).2 →
       sum_passed (summary req) + sum_failed (summary req)
         + sum_skipped (summary req)
       = total (summary req)
         + len (Gated.uploadFailures (Gated.onEnd now m.1 m.2).1.2))
  ∧ (∀ W (client : ApiClient W) now r (w : World W) req,
       CallCompleteTestRun req ∈ newCalls w (Streaming.onEnd now r w).2 →
       let lost := Streaming.failuresByStatus (Streaming.uploadFailures r) in
       sum_passed (summary req)
         = passedTests (Streaming.counters r) - lost.1.1
       ∧ sum_failed (summary req)
         = failedTests (Streaming.counters r) - lost.1.2
       ∧ sum_skipped (summary req)
         = skippedTests (Streaming.counters r) - lost.2).
Proof.
  split; [|split].
  - intros W client now r w req Hin.
    rewrite (onEnd_completion now r w req Hin). simpl.
    destruct (onEnd_spec now r w) as (_ & _ & -> & _). done.
  - intros W client o w0 es now req. cbv zeta. intros Hin.
    rewrite (onEnd_completion now _ _ req Hin). simpl.
    destruct (onEnd_spec now
                (Gated.run es (Gated.newReporter o, newWorld w0)).1
                (Gated.run es (Gated.newReporter o, newWorld w0)).2)
      as (_ & _ & -> & _).
    destruct (run_invariant es (Gated.newReporter o, newWorld w0)
                (newReporter_invariant o)) as (Hb & _).
    unfold balanced in Hb. lia.
  - intros W client now r w req Hin. cbv zeta.
    destruct (onEnd_spec_s now r w)
      as (c & r' & w' & E & Hf & Hc & Hcalls).
    rewrite E in Hin. cbn [fst snd] in Hin.
    destruct Hcalls as [Hsame | Hsent].
    + rewrite (newCalls_same _ _ Hsame) in Hin. inversion Hin.
    + rewrite (newCalls_app _ _ _ Hsent) in Hin.
      apply list_elem_of_singleton in Hin. injection Hin as ->. simpl.
      unfold Streaming.actualUploaded.
      destruct (Streaming.failuresByStatus (Streaming.uploadFailures r))
        as [[p f] s]. done.
Qed.

Lemma status_buckets_by_revision_witness :
  let m := Gated.run (client := scripted offline) threeTests gatedStart in
  let after := Gated.onEnd (client := scripted offline) 100 m.1 m.2 in
  CallCompleteTestRun (completion100 0 1 1 1) ∈ newCalls m.2 after.2
  ∧ sum_passed (summary (completion100 0 1 1 1))
    = passedTests (Gated.counters m.1)
  ∧ sum_failed (summary (completion100 0 1 1 1))
    = failedTests (Gated.counters m.1)
  ∧ sum_skipped (summary (completion100 0 1 1 1))
    = skippedTests (Gated.counters m.1).
Proof.
  cbv zeta.
  set (m := Gated.run (client := scripted offline) threeTests gatedStart).
  assert (Hin :
    CallCompleteTestRun (completion100 0 1 1 1)
    ∈ newCalls m.2 (Gated.onEnd (client := scripted offline) 100 m.1 m.2).2)
    by (vm_compute; constructor).
  split; [exact Hin|].
  exact (proj1 status_buckets_by_revision unit (scripted offline) 100
           m.1 m.2 (completion100 0 1 1 1) Hin).
Defined.

(** C7, as stated, fails in the streaming revision: three tests ran, one
    passed, one timed out and one was interrupted; every upload failed, and
    the completion request reports no passed, failed or skipped test. *)
Lemma streaming_buckets_are_reduced :
  let m := Streaming.run (client := scripted offline) threeStreamed
             streamingStart in
  let after := Streaming.onEnd (client := scripted offline) 100 m.1 m.2 in
  Streaming.counters after.1.2
    = {| totalTests := 3; passedTests := 1; failedTests := 1;
         skippedTests := 1 |}
  ∧ newCalls m.2 after.2 = [CallCompleteTestRun (completion100 0 0 0 0)]
  ∧ sum_passed (summary (completion100 0 0 0 0))
    ≠ passedTests (Streaming.counters after.1.2).
Proof.
  cbv zeta. split; [vm_compute; reflexivity|].
  split; [vm_compute; reflexivity|].
  vm_compute. discriminate.
Qed.

(** C4: resolving the gate a second time changes nothing; in a run that
    starts with its only [onBegin], once the gate is resolved the run id and
    the creation error that its waiters read stay the same through every
    later event, every tracked task has settled after reading them (with
    the same failure message for all when there is no run id, and
    fulfilled in every case when the rejections of the client have a string
    form), and every submission sent carries that run id; while the gate is
    unresolved no task has gone past it. *)
Theorem readiness_gate_observed_once :
  (∀ r,
     Gated.testRunReadyResolve (Gated.testRunReadyResolve r)
       = Gated.testRunReadyResolve r
     ∧ (Gated.testRunReadyPromise r = Gated.Resolved →
        Gated.testRunReadyResolve r = r))
  ∧ (∀ W (client : ApiClient W) o (w0 : W) now es1 es2,
       noBegin es1 → noBegin es2 →
       let m1 :=
         Gated.run (Gated.OnBegin now :: es1)
           (Gated.newReporter o, newWorld w0) in
       let m2 := Gated.run es2 m1 in
       Gated.testRunReadyPromise m1.1 = Gated.Resolved →
       Gated.gateObservation m1.1
         = Some (testRunId (Gated.state m1.1),
                 Gated.testRunCreationError m1.1)
       ∧ Gated.gateObservation m2.1 = Gated.gateObservation m1.1
       ∧ Forall (settledFor m2.1) (Gated.flushPromises m2.1)
       ∧ Forall (submitFor m2.1) (calls m2.2)
       ∧ (printable client →
          Forall settledItem (Gated.flushPromises m2.1)))
  ∧ (∀ W (client : ApiClient W) o (w0 : W) now es,
       noBegin es →
       let m :=
         Gated.run (Gated.OnBegin now :: es)
           (Gated.newReporter o, newWorld w0) in
       Gated.testRunReadyPromise m.1 = Gated.Unresolved →
       Gated.gateObservation m.1 = None
       ∧ Forall awaiting (Gated.flushPromises m.1)
       ∧ Forall notSubmit (calls m.2)).
Proof.
  split; [|split].
  - intros r. unfold Gated.testRunReadyResolve.
    destruct (Gated.testRunReadyPromise r) eqn:Eg; simpl; rewrite ?Eg;
      split; done.
  - intros W client o w0 now es1 es2 Hes1 Hes2. cbv zeta. intros Hg.
    assert (Hfull :
      printable client →
      Gated.testRunReadyPromise
        (Gated.run es2
           (Gated.run (Gated.OnBegin now :: es1)
              (Gated.newReporter o, newWorld w0))).1 = Gated.Resolved →
      Forall settledItem
        (Gated.flushPromises
           (Gated.run es2
              (Gated.run (Gated.OnBegin now :: es1)
                 (Gated.newReporter o, newWorld w0))).1)).
    { intros Hp.
      pose proof (run_settledItem Hp ((Gated.OnBegin now :: es1) ++ es2)
                    o w0) as H.
      cbv zeta in H. destruct H as [_ H].
      unfold Gated.run in H |- *. rewrite foldl_app in H. exact H. }
    pose proof (begin_lifecycle o w0 now) as Hbegin. cbv zeta in Hbegin.
    change (Gated.run (Gated.OnBegin now :: es1)
              (Gated.newReporter o, newWorld w0))
      with (Gated.run es1
              (Gated.step (Gated.OnBegin now)
                 (Gated.newReporter o, newWorld w0))) in *.
    pose proof (run_lifecycle es1 _ Hes1 Hbegin) as Hinv1.
    destruct (Gated.run es1
                (Gated.step (Gated.OnBegin now)
                   (Gated.newReporter o, newWorld w0))) as [r1 w1].
    simpl in Hg, Hinv1 |- *.
    pose proof (run_observation es2 r1 w1 Hes2 Hinv1 Hg) as Hobs.
    pose proof (run_lifecycle es2 (r1, w1) Hes2 Hinv1) as Hinv2.
    pose proof (run_gate_stable es2 r1 w1 Hg) as Hg2.
    destruct (Gated.run es2 (r1, w1)) as [r2 w2]. simpl in *.
    unfold lifecycleInvariant in Hinv2. rewrite Hg2 in Hinv2.
    destruct Hinv2 as (_ & _ & _ & Hitems & Hsub).
    split; [unfold Gated.gateObservation; rewrite Hg; reflexivity|].
    split; [exact Hobs|]. split; [assumption|]. split; [assumption|].
    intros Hp. exact (Hfull Hp Hg2).
  - intros W client o w0 now es Hes. cbv zeta. intros Hg.
    pose proof (begin_lifecycle o w0 now) as Hbegin. cbv zeta in Hbegin.
    change (Gated.run (Gated.OnBegin now :: es)
              (Gated.newReporter o, newWorld w0))
      with (Gated.run es
              (Gated.step (Gated.OnBegin now)
                 (Gated.newReporter o, newWorld w0))) in *.
    pose proof (run_lifecycle es _ Hes Hbegin) as Hinv.
    destruct (Gated.run es
                (Gated.step (Gated.OnBegin now)
                   (Gated.newReporter o, newWorld w0))) as [r1 w1].
    simpl in Hg, Hinv |- *.
    unfold lifecycleInvariant in Hinv. rewrite Hg in Hinv.
    destruct Hinv as (_ & _ & _ & Hitems & Hsub & _).
    split; [unfold Gated.gateObservation; rewrite Hg; reflexivity|].
    split; assumption.
Qed.

Lemma readiness_gate_observed_once_witness :
  let es1 := take 6 (drop 1 scenarioB) in
  let es2 := drop 7 scenarioB in
  let m1 :=
    Gated.run (client := scripted quotaExceeded) (Gated.OnBegin 0 :: es1)
      (Gated.newReporter defaults, newWorld ()) in
  let m2 := Gated.run (client := scripted quotaExceeded) es2 m1 in
  noBegin es1 ∧ noBegin es2
  ∧ Gated.testRunReadyPromise m1.1 = Gated.Resolved
  ∧ Gated.gateObservation m1.1
    = Some (testRunId (Gated.state m1.1), Gated.testRunCreationError m1.1)
  ∧ Gated.gateObservation m2.1 = Gated.gateObservation m1.1
  ∧ Forall (settledFor m2.1) (Gated.flushPromises m2.1)
  ∧ Forall (submitFor m2.1) (calls m2.2)
  ∧ (printable (scripted quotaExceeded) →
     Forall settledItem (Gated.flushPromises m2.1)).
Proof.
  cbv zeta.
  assert (H1 : noBegin (take 6 (drop 1 scenarioB)))
    by (repeat constructor).
  assert (H2 : noBegin (drop 7 scenarioB)) by (repeat constructor).
  assert (Hg :
    Gated.testRunReadyPromise
      (Gated.run (client := scripted quotaExceeded)
         (Gated.OnBegin 0 :: take 6 (drop 1 scenarioB))
         (Gated.newReporter defaults, newWorld ())).1 = Gated.Resolved)
    by (vm_compute; reflexivity).
  split; [exact H1|]. split; [exact H2|]. split; [exact Hg|].
  exact (proj1 (proj2 readiness_gate_observed_once) unit
           (scripted quotaExceeded) defaults () 0
           (take 6 (drop 1 scenarioB)) (drop 7 scenarioB) H1 H2 Hg).
Defined.

(** C1: when every tracked task has settled, the drain of [onEnd]
    ([sendTestResults]) with a run id appends to [uploadFailures] one
    record for each task fulfilled with a failure, in the order of the
    tasks, and empties the tracked list; without a run id it returns at
    once and changes nothing.  At scenario B, where session creation
    fails, five records are submitted and each tracked task is fulfilled
    with the failure that names the cause; after [onEnd] the five outcomes
    are still where they were and no failure has been collected. *)
Theorem drain_observes_unless_session_missing :
  (∀ W (client : ApiClient W) (r : Gated.Reporter) (w : World W),
     Forall settledItem (Gated.flushPromises r) →
     let r' := (Gated.sendTestResults r w).1.2 in
     if truthy (testRunId (Gated.state r)) then
       Gated.uploadFailures r'
         = (Gated.uploadFailures r
              ++ failuresOf (Gated.flushPromises r))%list
       ∧ Gated.flushPromises r' = []
     else r' = r)
  ∧ (let m := Gated.run (client := scripted quotaExceeded) scenarioB
                gatedStart in
     totalTests (Gated.counters m.1) = 5
     ∧ ((λ item, (Gated.testTitle item, Gated.promise item))
          <$> Gated.flushPromises m.1)
       = ((λ name,
             (name,
              Gated.Done
                (Fulfilled
                   (Gated.Failure
                      "Test run creation failed: quota exceeded"))))
            <$> fiveNames)
     ∧ Gated.uploadFailures m.1 = []).
Proof.
  split; [|cbv zeta; repeat split; vm_compute; reflexivity].
  intros W client r w Hall. cbv zeta.
  destruct (truthy (testRunId (Gated.state r))) eqn:Hid.
  - destruct (drain_collects r w Hid Hall) as [_ ->]. split; reflexivity.
  - exact (proj2 (drain_skipped r w Hid)).
Qed.

Lemma drain_observes_unless_session_missing_witness :
  let m := Gated.run (client := scripted offline) threeTests gatedStart in
  let r' := (Gated.sendTestResults m.1 m.2).1.2 in
  Forall settledItem (Gated.flushPromises m.1)
  ∧ (if truthy (testRunId (Gated.state m.1)) then
       Gated.uploadFailures r'
         = (Gated.uploadFailures m.1
              ++ failuresOf (Gated.flushPromises m.1))%list
       ∧ Gated.flushPromises r' = []
     else r' = m.1).
Proof.
  cbv zeta.
  assert (H :
    Forall settledItem
      (Gated.flushPromises
         (Gated.run (client := scripted offline) threeTests gatedStart).1)).
  { vm_compute. repeat constructor; eexists; reflexivity. }
  split; [exact H|].
  exact (proj1 drain_observes_unless_session_missing unit (scripted offline)
           (Gated.run (client := scripted offline) threeTests gatedStart).1
           (Gated.run (client := scripted offline) threeTests gatedStart).2
           H).
Defined.

(** C3: in a run that starts with its only [onBegin], once session
    creation has failed there is no run id, so no upload failure is ever
    collected, no completion request is sent, and the uploaded total
    [calculateUploadedCounts] would report is the attempted total; at
    scenario B the console holds the error line of [onBegin] and nothing
    else. *)
Theorem creation_failure_is_never_collected :
  (∀ W (client : ApiClient W) o (w0 : W) now es,
     noBegin es →
     let m :=
       Gated.run (Gated.OnBegin now :: es)
         (Gated.newReporter o, newWorld w0) in
     is_Some (Gated.testRunCreationError m.1) →
     truthy (testRunId (Gated.state m.1)) = false
     ∧ Gated.uploadFailures m.1 = []
     ∧ Forall notCompletion (calls m.2)
     ∧ (Gated.calculateUploadedCounts m.1).1.1.1
       = totalTests (Gated.counters m.1))
  ∧ (let m := Gated.run (client := scripted quotaExceeded) scenarioB
                gatedStart in
     Gated.testRunCreationError m.1 = Some "quota exceeded"
     ∧ console m.2
       = [{| stream := ConsoleError;
             text := "[QAStudio.dev Reporter] Failed to create test run: "
                       +:+ "quota exceeded";
             extra := [] |}]
     ∧ (Gated.calculateUploadedCounts m.1).1.1.1 = 5).
Proof.
  split.
  - intros W client o w0 now es Hes. cbv zeta. intros Herr.
    pose proof (begin_lifecycle o w0 now) as Hbegin. cbv zeta in Hbegin.
    change (Gated.run (Gated.OnBegin now :: es)
              (Gated.newReporter o, newWorld w0))
      with (Gated.run es
              (Gated.step (Gated.OnBegin now)
                 (Gated.newReporter o, newWorld w0))) in *.
    pose proof (run_lifecycle es _ Hes Hbegin) as Hinv.
    destruct (Gated.run es
                (Gated.step (Gated.OnBegin now)
                   (Gated.newReporter o, newWorld w0))) as [r1 w1].
    simpl in Herr, Hinv |- *. unfold lifecycleInvariant in Hinv.
    destruct (Gated.testRunReadyPromise r1).
    + destruct Hinv as (_ & Hnone & _). rewrite Hnone in Herr.
      destruct Herr as [? ?]. discriminate.
    + destruct Hinv as (_ & Hid & Hfalsy & _).
      assert (Hno : truthy (testRunId (Gated.state r1)) = false)
        by (rewrite (Hid Herr); reflexivity).
      destruct (Hfalsy Hno) as (Hf & _ & Hcomp).
      repeat split; try assumption.
      rewrite Hf. unfold len. simpl. lia.
  - cbv zeta. repeat split; vm_compute; reflexivity.
Qed.

Lemma creation_failure_is_never_collected_witness :
  let m :=
    Gated.run (client := scripted quotaExceeded)
      (Gated.OnBegin 0 :: drop 1 scenarioB)
      (Gated.newReporter defaults, newWorld ()) in
  noBegin (drop 1 scenarioB)
  ∧ is_Some (Gated.testRunCreationError m.1)
  ∧ truthy (testRunId (Gated.state m.1)) = false
  ∧ Gated.uploadFailures m.1 = []
  ∧ Forall notCompletion (calls m.2)
  ∧ (Gated.calculateUploadedCounts m.1).1.1.1
    = totalTests (Gated.counters m.1).
Proof.
  cbv zeta.
  assert (H1 : noBegin (drop 1 scenarioB)) by (repeat constructor).
  assert (H2 :
    is_Some (Gated.testRunCreationError
               (Gated.run (client := scripted quotaExceeded)
                  (Gated.OnBegin 0 :: drop 1 scenarioB)
                  (Gated.newReporter defaults, newWorld ())).1))
    by (exists "quota exceeded"; vm_compute; reflexivity).
  split; [exact H1|]. split; [exact H2|].
  exact (proj1 creation_failure_is_never_collected unit
           (scripted quotaExceeded) defaults () 0 (drop 1 scenarioB) H1 H2).
Defined.

(** C9: in the batched revision a flush sends every queued record in one
    request and leaves the queue as it is; when the request is answered,
    the records that stay queued are those whose title the answer does not
    list; when the request fails the reporter, and so the queue, is
    unchanged; and an event sends a batch exactly when it is an [onTestEnd]
    that brings the queue to the batch size or beyond, or an [onEnd] with a
    non-empty queue and a run id.  In scenario C two batches are sent, of
    two records and then of one; when every request fails, the three
    records are still queued after the drain, which sent them all.

    So a record is removed for its title, confirmed or not: when a test
    runs in two projects and the service processes the first of the two
    records and reports an error for the second, both leave the queue, the
    second is not sent again and the run is completed with a total of two.
    And the records of a batch stay queued until its answer has come: in
    scenario C without an answer before the drain, the first two records
    are sent three times. *)
Theorem batched_flush_prunes_by_title :
  (∀ W (client : ApiClient W) (r : Batched.Reporter) (w : World W),
     (let m := Batched.flushResults r w in
      Batched.resultQueue m.1.2 = Batched.resultQueue r
      ∧ newCalls w m.2
        = if canFlush r then [CallSubmitTestResults (batchRequest r)]
          else [])
     ∧ (∀ batch response item,
          let r' :=
            (Batched.settleFlush batch (Fulfilled response) r w).1.2 in
          item ∈ Batched.resultQueue r'
          ↔ item ∈ Batched.resultQueue r
            ∧ qa_title (Batched.result item)
              ∉ (rid_title <$> default [] (resp_results response)))
     ∧ (∀ batch e,
          (Batched.settleFlush batch (Rejected e) r w).1.2 = r)
     ∧ (∀ e,
          submissions (newCalls w (Batched.step e (r, w)).2)
          = match e with
            | Batched.OnTestEnd now test res =>
                match tests (Batched.state r) !! getTestId test with
                | Some td =>
                    if triggersFlush test res r
                    then [batchRequest (pushed now test res td r)]
                    else []
                | None => []
                end
            | Batched.OnEnd _ =>
                if canFlush r then [batchRequest r] else []
            | _ => []
            end))
  ∧ (let m := Batched.run (client := scripted happy) scenarioC
                batchedStart in
     batchesSent m.2 = [["a"; "b"]; ["c"]]
     ∧ Batched.resultQueue m.1 = [])
  ∧ (let m := Batched.run (client := scripted offline) scenarioC
                batchedStart in
     batchesSent m.2 = [["a"; "b"]; ["a"; "b"; "c"]; ["a"; "b"; "c"]]
     ∧ (qa_title ∘ Batched.result <$> Batched.resultQueue m.1)
       = ["a"; "b"; "c"])
  ∧ (let before := Batched.run (client := scripted firstOnly)
                     (take 6 twoProjects) batchedStart in
     let m := Batched.run (client := scripted firstOnly) twoProjects
                batchedStart in
     ((λ item, (qa_title (Batched.result item),
                qa_status (Batched.result item)))
        <$> Batched.resultQueue before.1)
     = [("a", "passed"); ("a", "failed")]
     ∧ batchesSent m.2 = [["a"; "a"]]
     ∧ (submission firstOnly <$> submissions (calls m.2))
       = [Fulfilled
            {| processedCount := 1;
               resp_results :=
                 Some [{| testResultId := "id:a"; testCaseId := None;
                          rid_title := "a" |}];
               resp_errors :=
                 Some [{| se_testTitle := "a";
                          se_error := "database unavailable" |}] |}]
     ∧ Batched.resultQueue m.1 = []
     ∧ last (calls m.2)
       = Some (CallCompleteTestRun (completion100 2 1 1 0)))
  ∧ (let m := Batched.run (client := scripted happy) slowAnswers
                batchedStart in
     batchesSent m.2 = [["a"; "b"]; ["a"; "b"; "c"]; ["a"; "b"; "c"]]
     ∧ Batched.resultQueue m.1 = []).
Proof.
  split; [|split; [|split; [|split]]; cbv zeta; repeat split;
           vm_compute; reflexivity].
  intros W client r w. split; [|split; [|split]].
  - cbv zeta. pose proof (flushResults_spec r w) as Hflush.
    destruct (canFlush r).
    + destruct Hflush as [Hr Hc]. rewrite Hr. split; [reflexivity|].
      apply newCalls_app, Hc.
    + rewrite Hflush. split; [reflexivity|]. apply newCalls_same. reflexivity.
  - intros batch response item. cbv zeta.
    pose proof (settleFlush_spec batch (Fulfilled response) r w) as Hs.
    cbv zeta in Hs. destruct Hs as [Hr _]. rewrite Hr.
    destruct (default [] (resp_results response)) as [|first rest] eqn:Eres.
    + simpl. split; [intros Hin; split; [exact Hin | apply not_elem_of_nil]
                    | intros [Hin _]; exact Hin].
    + replace (0 <? len (first :: rest)) with true
        by (symmetry; apply Z.ltb_lt; unfold len; simpl; lia).
      cbn [Batched.resultQueue Batched.setResultQueue].
      apply pruneQueue_spec.
  - intros batch e.
    exact (proj1 (settleFlush_spec batch (Rejected e) r w)).
  - intros e.
    assert (Hother :
      keeps (callsGrowBy (W := W) (S := Batched.Reporter) notSubmit)
        (Batched.handle e) →
      submissions (newCalls w (Batched.step e (r, w)).2) = []).
    { intros Hkeep. destruct (Hkeep r w) as (l & Hl & Hnot).
      unfold Batched.step. cbn [fst snd].
      destruct (Batched.handle e r w) as [[u r1] w1]. simpl in *.
      rewrite (newCalls_app _ _ _ Hl). apply submissions_none, Hnot. }
    pose proof (handle_calls (client := client) e) as Hcalls.
    destruct e as [now| |now test res|now test res|i|now];
      try (apply Hother, Hcalls).
    + unfold Batched.step. cbn [fst snd Batched.handle].
      destruct (onTestEnd_spec_b now test res r w) as (w' & -> & Hc).
      cbn [snd]. rewrite (newCalls_app _ _ _ Hc).
      destruct (tests (Batched.state r) !! getTestId test);
        [destruct (triggersFlush test res r)|]; reflexivity.
    + unfold Batched.step. cbn [fst snd Batched.handle].
      destruct (onEnd_calls_b now r w) as (rest & Hc & Hnot).
      unfold bind, ret.
      destruct (Batched.onEnd now r w) as [[u r1] w1]. simpl in *.
      rewrite (newCalls_app _ _ _ Hc), submissions_app,
        (submissions_none _ Hnot), app_nil_r.
      destruct (canFlush r); reflexivity.
Qed.

(** * Further properties: the helpers of utils.ts *)

(** ** Arrays *)

Lemma slice_within {A} (l : list A) i size :
  0 ≤ i → i < len l → 0 < size →
  slice i (i + size) l = take (Z.to_nat size) (drop (Z.to_nat i) l)
  ∧ 0 < len (slice i (i + size) l) ≤ size
  ∧ (i + size ≤ len l → len (slice i (i + size) l) = size).
Proof.
  intros Hi Hlt Hsize. unfold slice, clampIndex.
  replace (i <? 0) with false by (symmetry; apply Z.ltb_ge; lia).
  replace (i + size <? 0) with false by (symmetry; apply Z.ltb_ge; lia).
  rewrite (Z.min_l i) by lia.
  assert (Hlen : len (drop (Z.to_nat i) l) = len l - i).
  { unfold len in *. rewrite length_drop. lia. }
  destruct (Z.le_gt_cases (i + size) (len l)) as [Hfit | Hover].
  - rewrite Z.min_l by lia. replace (i + size - i) with size by lia.
    assert (Htake : len (take (Z.to_nat size) (drop (Z.to_nat i) l)) = size).
    { unfold len in *. rewrite length_take, length_drop. lia. }
    split; [reflexivity|]. split; [lia|]. intros _; exact Htake.
  - rewrite Z.min_r by lia.
    assert (Hall : take (Z.to_nat (len l - i)) (drop (Z.to_nat i) l)
                   = drop (Z.to_nat i) l).
    { apply take_ge. unfold len in *. rewrite length_drop. lia. }
    rewrite Hall. split.
    + symmetry. apply take_ge. unfold len in *. rewrite length_drop. lia.
    + split; lia.
Qed.

Lemma batchLoop_spec {A} (array : list A) size :
  0 < size →
  ∀ fuel i batches,
    0 ≤ i →
    (Z.to_nat (len array - i) < fuel)%nat →
    ∃ rest,
      batchLoop fuel array size i batches = Some (batches ++ rest)%list
      ∧ concat rest = drop (Z.to_nat i) array
      ∧ Forall (λ batch, 0 < len batch ≤ size) rest
      ∧ fullButLast size rest
      ∧ len rest = (Z.max (len array - i) 0 + size - 1) / size.
Proof.
  intros Hsize. induction fuel as [|fuel IH]; intros i batches Hi Hfuel;
    [lia|].
  simpl. destruct (i <? len array) eqn:Hlt.
  - apply Z.ltb_lt in Hlt.
    destruct (slice_within array i size Hi Hlt Hsize)
      as (Hslice & Hbound & Hfull).
    destruct (IH (i + size) (batches ++ [slice i (i + size) array])%list)
      as (rest & Hrun & Hcat & Hall & Hbut & Hcount); [lia | lia |].
    exists (slice i (i + size) array :: rest).
    split; [rewrite Hrun, <- app_assoc; reflexivity|].
    split.
    { simpl. rewrite Hcat, Hslice.
      replace (Z.to_nat (i + size)) with (Z.to_nat i + Z.to_nat size)%nat
        by lia.
      rewrite <- drop_drop. apply take_drop. }
    split; [constructor; assumption|].
    split.
    { intros k batch Hk Hnext. destruct k as [|k]; simpl in *.
      - injection Hk as <-. apply Hfull.
        destruct rest as [|b rest']; [simpl in Hnext; lia|].
        destruct (Z.le_gt_cases (i + size) (len array)) as [?|Hover];
          [assumption|].
        exfalso. assert (Hnil : concat (b :: rest') = []).
        { rewrite Hcat. apply drop_ge. unfold len in *. lia. }
        apply Forall_cons in Hall as [Hb _]. simpl in Hnil.
        apply app_eq_nil in Hnil as [-> _]. unfold len in Hb. simpl in Hb.
        lia.
      - apply (Hbut k batch Hk). lia. }
    assert (Hcons : len (slice i (i + size) array :: rest) = 1 + len rest)
      by (unfold len; simpl length; lia).
    rewrite Hcons, Hcount.
    rewrite (Z.max_l (len array - i)) by lia.
    destruct (Z.le_gt_cases (len array) (i + size)) as [Hle|Hgt].
    + rewrite Z.max_r by lia. rewrite Z.div_small by lia.
      assert (H1 : (len array - i + size - 1) / size = 1).
      { symmetry. apply Z.div_unique with (r := len array - i - 1); lia. }
      lia.
    + rewrite Z.max_l by lia.
      replace (len array - i + size - 1)
        with ((len array - (i + size) + size - 1) + 1 * size) by lia.
      rewrite Z.div_add by lia. lia.
  - apply Z.ltb_ge in Hlt. exists []. rewrite app_nil_r.
    split; [reflexivity|]. split.
    { simpl. symmetry. apply drop_ge. unfold len in *. lia. }
    split; [constructor|]. split; [intros k b Hk; inversion Hk|].
    rewrite Z.max_r by lia. unfold len. simpl. symmetry.
    apply Z.div_small. lia.
Qed.

Lemma batchLoop_diverges {A} (array : list A) size :
  size ≤ 0 → array ≠ [] →
  ∀ fuel i batches, i ≤ 0 → batchLoop fuel array size i batches = None.
Proof.
  intros Hsize Hne. induction fuel as [|fuel IH]; intros i batches Hi;
    [reflexivity|].
  simpl. replace (i <? len array) with true.
  - apply IH. lia.
  - symmetry. apply Z.ltb_lt. destruct array; [contradiction|].
    unfold len. simpl. lia.
Qed.

(** X1: for a positive [size], [batchArray] returns (more iterations than
    the array has elements are never needed) batches whose concatenation is
    the array: no element is lost, repeated or moved; no batch is empty or
    longer than [size], every batch but the last has exactly [size]
    elements, and there are ceil(length / size) batches. *)
Theorem batchArray_partitions {A} (array : list A) (size : Z) (fuel : nat) :
  0 < size →
  (length array < fuel)%nat →
  ∃ batches,
    batchArray fuel array size = Some batches
    ∧ concat batches = array
    ∧ Forall (λ batch, 0 < len batch ≤ size) batches
    ∧ fullButLast size batches
    ∧ len batches = (len array + size - 1) / size.
Proof.
  intros Hsize Hfuel.
  destruct (batchLoop_spec array size Hsize fuel 0 [])
    as (rest & Hrun & Hcat & Hall & Hbut & Hcount).
  { lia. } { unfold len. lia. }
  exists rest. split; [exact Hrun|]. split; [exact Hcat|].
  split; [exact Hall|]. split; [exact Hbut|].
  rewrite Hcount. rewrite Z.sub_0_r, Z.max_l by (unfold len; lia).
  reflexivity.
Qed.

Lemma batchArray_partitions_witness :
  0 < 2 ∧ (length ["a"; "b"; "c"; "d"; "e"] < 6)%nat
  ∧ ∃ batches,
      batchArray 6 ["a"; "b"; "c"; "d"; "e"] 2 = Some batches
      ∧ concat batches = ["a"; "b"; "c"; "d"; "e"]
      ∧ Forall (λ batch, 0 < len batch ≤ 2) batches
      ∧ fullButLast 2 batches
      ∧ len batches = (len ["a"; "b"; "c"; "d"; "e"] + 2 - 1) / 2.
Proof.
  assert (H1 : 0 < 2) by lia.
  assert (H2 : (length ["a"; "b"; "c"; "d"; "e"] < 6)%nat) by (simpl; lia).
  split; [exact H1|]. split; [exact H2|].
  exact (batchArray_partitions ["a"; "b"; "c"; "d"; "e"] 2 6 H1 H2).
Defined.

(** X2: [batchArray] returns the empty list of batches for an empty array
    whatever [size] is; for a non-empty array and a [size] of zero or less
    its loop never ends: no number of iterations gives a result. *)
Theorem batchArray_needs_positive_size {A} (array : list A) (size : Z) :
  (∀ fuel, batchArray (S fuel) ([] : list A) size = Some [])
  ∧ (size ≤ 0 → array ≠ [] → ∀ fuel, batchArray fuel array size = None).
Proof.
  split; [reflexivity|].
  intros Hsize Hne fuel. apply batchLoop_diverges; [assumption..|lia].
Qed.

Lemma batchArray_needs_positive_size_witness :
  0 ≤ 0 ∧ ["a"] ≠ [] ∧ ∀ fuel, batchArray fuel ["a"] 0 = None.
Proof.
  assert (H1 : 0 ≤ 0) by lia.
  assert (H2 : ["a"] ≠ ([] : list string)) by discriminate.
  split; [exact H1|]. split; [exact H2|].
  exact (proj2 (batchArray_needs_positive_size ["a"] 0) H1 H2).
Defined.

(** ** Durations *)

(** X3: [formatDuration] prints a duration under one second in
    milliseconds (a negative one too); from one second on it prints whole
    seconds split into hours, minutes and seconds that add up to
    floor(ms / 1000), with minutes and seconds below 60, the hours not
    capped, and the leading parts left out when they are zero. *)
Theorem formatDuration_parts (ms : Z) :
  (ms < 1000 → formatDuration ms = pretty ms +:+ "ms")
  ∧ (1000 ≤ ms →
     ∃ h m s,
       0 ≤ h ∧ 0 ≤ m < 60 ∧ 0 ≤ s < 60
       ∧ h * 3600 + m * 60 + s = ms / 1000
       ∧ formatDuration ms =
           if 0 <? h then
             pretty h +:+ "h " +:+ pretty m +:+ "m " +:+ pretty s +:+ "s"
           else if 0 <? m then pretty m +:+ "m " +:+ pretty s +:+ "s"
           else pretty s +:+ "s").
Proof.
  unfold formatDuration. split.
  - intros Hlt. replace (ms <? 1000) with true; [reflexivity|].
    symmetry. apply Z.ltb_lt, Hlt.
  - intros Hge. replace (ms <? 1000) with false
      by (symmetry; apply Z.ltb_ge, Hge).
    cbv zeta. set (seconds := ms / 1000).
    assert (Hs : 0 ≤ seconds) by (apply Z.div_pos; lia).
    assert (Hm : 0 ≤ seconds / 60) by (apply Z.div_pos; lia).
    assert (Hh : 0 ≤ seconds / 60 / 60) by (apply Z.div_pos; lia).
    pose proof (Z.mod_pos_bound seconds 60 ltac:(lia)) as Hsb.
    pose proof (Z.mod_pos_bound (seconds / 60) 60 ltac:(lia)) as Hmb.
    pose proof (Z.div_mod seconds 60 ltac:(lia)) as Hse.
    pose proof (Z.div_mod (seconds / 60) 60 ltac:(lia)) as Hme.
    exists (seconds / 60 / 60), ((seconds / 60) mod 60), (seconds mod 60).
    split; [exact Hh|]. split; [exact Hmb|]. split; [exact Hsb|].
    split; [lia|].
    destruct (0 <? seconds / 60 / 60) eqn:Hhours; [reflexivity|].
    apply Z.ltb_ge in Hhours.
    assert (Hsmall : (seconds / 60) mod 60 = seconds / 60) by lia.
    rewrite Hsmall.
    destruct (0 <? seconds / 60) eqn:Hminutes; [reflexivity|].
    apply Z.ltb_ge in Hminutes.
    replace (seconds mod 60) with seconds by lia. reflexivity.
Qed.

Lemma formatDuration_parts_witness :
  1000 ≤ 90061500
  ∧ ∃ h m s,
      0 ≤ h ∧ 0 ≤ m < 60 ∧ 0 ≤ s < 60
      ∧ h * 3600 + m * 60 + s = 90061500 / 1000
      ∧ formatDuration 90061500 =
          if 0 <? h then
            pretty h +:+ "h " +:+ pretty m +:+ "m " +:+ pretty s +:+ "s"
          else if 0 <? m then pretty m +:+ "m " +:+ pretty s +:+ "s"
          else pretty s +:+ "s".
Proof.
  assert (H : 1000 ≤ 90061500) by lia.
  split; [exact H|]. exact (proj2 (formatDuration_parts 90061500) H).
Defined.

(** ** Strings *)

Lemma length_append (s t : string) :
  String.length (s +:+ t) = (String.length s + String.length t)%nat.
Proof.
  induction s as [|c s IH]; simpl; [reflexivity | rewrite IH; reflexivity].
Qed.

Lemma append_assoc (a b c : string) : (a +:+ b) +:+ c = a +:+ (b +:+ c).
Proof.
  induction a as [|x a IH]; [reflexivity|].
  change (String x ((a +:+ b) +:+ c) = String x (a +:+ (b +:+ c))).
  rewrite IH. reflexivity.
Qed.

Lemma append_empty (s : string) : s +:+ "" = s.
Proof.
  induction s as [|c s IH]; [reflexivity|].
  change (String c (s +:+ "") = String c s). rewrite IH. reflexivity.
Qed.

Lemma substring_all (t : string) :
  String.substring 0 (String.length t) t = t.
Proof.
  induction t as [|c t IH]; simpl; [reflexivity | rewrite IH; reflexivity].
Qed.

Lemma substring_prefix (s t : string) :
  String.substring 0 (String.length s) (s +:+ t) = s.
Proof.
  induction s as [|c s IH]; simpl; [destruct t|rewrite IH]; reflexivity.
Qed.

Lemma substring_suffix (s t : string) :
  String.substring (String.length s) (String.length t) (s +:+ t) = t.
Proof.
  induction s as [|c s IH]; simpl; [apply substring_all | exact IH].
Qed.

Lemma substring_rest (n : nat) (s : string) :
  (n ≤ String.length s)%nat →
  String.substring 0 n s
    +:+ String.substring n (String.length s - n) s = s.
Proof.
  revert s. induction n as [|n IH]; intros s Hn.
  - simpl. rewrite Nat.sub_0_r.
    replace (String.substring 0 0 s) with "" by (destruct s; reflexivity).
    simpl. apply substring_all.
  - destruct s as [|c s]; simpl in *; [lia|].
    change (String c (String.substring 0 n s
                        +:+ String.substring n (String.length s - n) s)
            = String c s).
    rewrite IH by lia. reflexivity.
Qed.

Lemma endsWith_append (base suffix : string) :
  endsWith suffix (base +:+ suffix) = true.
Proof.
  unfold endsWith. rewrite length_append.
  replace (String.length base + String.length suffix
           - String.length suffix)%nat with (String.length base) by lia.
  rewrite substring_suffix, String.eqb_refl, andb_true_r.
  apply Nat.leb_le. lia.
Qed.

Lemma endsWith_split (suffix s : string) :
  endsWith suffix s = true →
  s = dropLast (String.length suffix) s +:+ suffix.
Proof.
  unfold endsWith, dropLast. intros H.
  apply andb_true_iff in H as [Hle Heq].
  apply Nat.leb_le in Hle. apply String.eqb_eq in Heq.
  pose proof (substring_rest (String.length s - String.length suffix) s
                ltac:(lia)) as Hrest.
  replace (String.length s - (String.length s - String.length suffix))%nat
    with (String.length suffix) in Hrest by lia.
  rewrite Heq in Hrest. symmetry. exact Hrest.
Qed.

Lemma dropLast_append (base suffix : string) :
  dropLast (String.length suffix) (base +:+ suffix) = base.
Proof.
  unfold dropLast. rewrite length_append.
  replace (String.length base + String.length suffix
           - String.length suffix)%nat with (String.length base) by lia.
  apply substring_prefix.
Qed.

Lemma get_last (s : string) (c : ascii) :
  get (String.length (s +:+ String c "") - 1) (s +:+ String c "") = Some c.
Proof.
  rewrite length_append. simpl String.length.
  replace (String.length s + 1 - 1)%nat with (0 + String.length s)%nat
    by lia.
  rewrite <- append_correct2. reflexivity.
Qed.

(** X4: the replacement [apiUrl.replace(/\/api\/?$/, '')] that builds the
    link printed by [onEnd] undoes the appending of [/api] or of [/api/] to
    any base address; in general it removes at most one such suffix, once:
    the address is the result followed by [/api/], by [/api], or by nothing
    when it ends with neither. *)
Theorem stripApiSuffix_removes_one_suffix (base url : string) :
  stripApiSuffix (base +:+ "/api") = base
  ∧ stripApiSuffix (base +:+ "/api/") = base
  ∧ ∃ suffix, suffix ∈ ["/api/"; "/api"; ""]
              ∧ url = stripApiSuffix url +:+ suffix
              ∧ (suffix = "" → endsWith "/api/" url = false
                               ∧ endsWith "/api" url = false).
Proof.
  split; [|split].
  - unfold stripApiSuffix.
    assert (H5 : endsWith "/api/" (base +:+ "/api") = false).
    { destruct (endsWith "/api/" (base +:+ "/api")) eqn:E; [|reflexivity].
      pose proof (endsWith_split _ _ E) as Hs.
      pose proof (get_last (base +:+ "/ap") "i") as Hi.
      rewrite (append_assoc base "/ap" "i") in Hi.
      change ("/ap" +:+ "i") with "/api" in Hi.
      pose proof (get_last
                    (dropLast 5 (base +:+ "/api") +:+ "/api") "/") as Hslash.
      rewrite (append_assoc _ "/api" "/") in Hslash.
      change ("/api" +:+ "/") with "/api/" in Hslash.
      change (String.length "/api/") with 5%nat in Hs.
      rewrite <- Hs in Hslash. congruence. }
    rewrite H5, (endsWith_append base "/api").
    apply (dropLast_append base "/api").
  - unfold stripApiSuffix. rewrite (endsWith_append base "/api/").
    apply (dropLast_append base "/api/").
  - unfold stripApiSuffix.
    destruct (endsWith "/api/" url) eqn:E5.
    + exists "/api/". split; [set_solver|].
      split; [apply (endsWith_split "/api/" url E5) | discriminate].
    + destruct (endsWith "/api" url) eqn:E4.
      * exists "/api". split; [set_solver|].
        split; [apply (endsWith_split "/api" url E4) | discriminate].
      * exists "". split; [set_solver|].
        split; [|intros _; split; reflexivity].
        symmetry. apply append_empty.
Qed.

Lemma span_all p s rest :
  allOf p s = true →
  (match rest with String c _ => p c = false | EmptyString => True end) →
  span p (s +:+ rest) = (s, rest).
Proof.
  intros Hall Hstop. induction s as [|c s IH].
  - destruct rest as [|c rest]; [reflexivity|]. simpl in *. rewrite Hstop.
    reflexivity.
  - unfold allOf in Hall. simpl in Hall.
    apply andb_true_iff in Hall as [Hc Hs].
    change (span p (String c (s +:+ rest)) = (String c s, rest)).
    simpl. rewrite Hc, (IH Hs). reflexivity.
Qed.

Lemma span_split p s :
  s = (span p s).1 +:+ (span p s).2 ∧ allOf p (span p s).1 = true.
Proof.
  induction s as [|c s [IH1 IH2]]; [split; reflexivity|].
  simpl. destruct (p c) eqn:Hc; [|split; reflexivity].
  destruct (span p s) as [taken after]. simpl in *. split.
  - change (String c s = String c (taken +:+ after)). rewrite <- IH1.
    reflexivity.
  - unfold allOf in *. simpl. rewrite Hc, IH2. reflexivity.
Qed.

Lemma matchIdInTitle_complete letters digits rest :
  letters ≠ "" → digits ≠ "" →
  allOf isUpper letters = true → allOf isDigit digits = true →
  matchIdInTitle ("[" +:+ letters +:+ "-" +:+ digits +:+ "]" +:+ rest)
    = Some (letters +:+ "-" +:+ digits).
Proof.
  intros Hl Hd Hup Hdig.
  change ("[" +:+ letters +:+ "-" +:+ digits +:+ "]" +:+ rest)
    with (String "[" (letters +:+ String "-" (digits +:+ String "]" rest))).
  cbn [matchIdInTitle].
  rewrite (span_all isUpper letters _ Hup) by reflexivity.
  destruct letters as [|l letters]; [contradiction|].
  rewrite (span_all isDigit digits _ Hdig) by reflexivity.
  destruct digits as [|d digits]; [contradiction|]. reflexivity.
Qed.

Lemma matchIdInTitle_sound title id :
  matchIdInTitle title = Some id →
  ∃ letters digits rest,
    id = letters +:+ "-" +:+ digits
    ∧ title = "[" +:+ id +:+ "]" +:+ rest
    ∧ letters ≠ "" ∧ digits ≠ ""
    ∧ allOf isUpper letters = true
    ∧ allOf isDigit digits = true.
Proof.
  intros Hid. destruct title as [|c title]; [discriminate|].
  cbn [matchIdInTitle] in Hid.
  destruct (Ascii.ascii_dec c "[") as [->|Hne].
  2:{ destruct c as [[] [] [] [] [] [] [] []]; try discriminate.
      contradiction. }
  destruct (span_split isUpper title) as [Ht Hup].
  destruct (span isUpper title) as [letters rest1]. simpl in Ht, Hup.
  destruct letters as [|l letters]; [discriminate|].
  destruct rest1 as [|c1 rest1]; [discriminate|].
  destruct (Ascii.ascii_dec c1 "-") as [->|Hne].
  2:{ destruct c1 as [[] [] [] [] [] [] [] []]; try discriminate.
      contradiction. }
  destruct (span_split isDigit rest1) as [Hr Hdig].
  destruct (span isDigit rest1) as [digits rest2]. simpl in Hr, Hdig.
  destruct digits as [|d digits]; [discriminate|].
  destruct rest2 as [|c2 rest2]; [discriminate|].
  destruct (Ascii.ascii_dec c2 "]") as [->|Hne].
  2:{ destruct c2 as [[] [] [] [] [] [] [] []]; try discriminate.
      contradiction. }
  injection Hid as <-.
  exists (String l letters), (String d digits), rest2.
  split; [reflexivity|]. split.
  { rewrite Ht, Hr.
    change ("[" +:+ (String l letters +:+ "-" +:+ String d digits)
              +:+ "]" +:+ rest2)
      with (String "[" ((String l letters +:+ "-" +:+ String d digits)
                          +:+ "]" +:+ rest2)).
    f_equal. rewrite !append_assoc. reflexivity. }
  repeat split; try discriminate; assumption.
Qed.

(** X7: [extractTestCaseId] returns the description of the first
    [testCaseId] annotation when that description is not empty, whatever
    the title is; otherwise it reads the id off the title: a title that
    starts with an opening bracket, capital letters, a hyphen, digits and a
    closing bracket gives the text between the brackets, and no other title
    gives an id. *)
Theorem extractTestCaseId_reads_bracketed_id
    (annotations : list Annotation) (title : string) :
  let annotated :=
    List.find (λ a, String.eqb (ann_type a) "testCaseId") annotations
      ≫= ann_description in
  (truthy annotated = true → extractTestCaseId annotations title = annotated)
  ∧ (∀ letters digits rest,
       truthy annotated = false →
       letters ≠ "" → digits ≠ "" →
       allOf isUpper letters = true → allOf isDigit digits = true →
       extractTestCaseId annotations
         ("[" +:+ letters +:+ "-" +:+ digits +:+ "]" +:+ rest)
       = Some (letters +:+ "-" +:+ digits))
  ∧ (∀ id,
       truthy annotated = false →
       extractTestCaseId annotations title = Some id →
       ∃ letters digits rest,
         id = letters +:+ "-" +:+ digits
         ∧ title = "[" +:+ id +:+ "]" +:+ rest
         ∧ letters ≠ "" ∧ digits ≠ ""
         ∧ allOf isUpper letters = true
         ∧ allOf isDigit digits = true).
Proof.
  cbv zeta. unfold extractTestCaseId. split; [|split].
  - intros ->. reflexivity.
  - intros letters digits rest ->. apply matchIdInTitle_complete.
  - intros id ->. apply matchIdInTitle_sound.
Qed.

Lemma extractTestCaseId_reads_bracketed_id_witness :
  let annotations :=
    [{| ann_type := "tag"; ann_description := Some "smoke" |};
     {| ann_type := "testCaseId"; ann_description := Some "" |}] in
  truthy (List.find (λ a, String.eqb (ann_type a) "testCaseId") annotations
            ≫= ann_description) = false
  ∧ "QA" ≠ "" ∧ "123" ≠ ""
  ∧ allOf isUpper "QA" = true ∧ allOf isDigit "123" = true
  ∧ extractTestCaseId annotations
      ("[" +:+ "QA" +:+ "-" +:+ "123" +:+ "]" +:+ " Login works")
    = Some ("QA" +:+ "-" +:+ "123").
Proof.
  cbv zeta.
  assert (H1 : "QA" ≠ "") by discriminate.
  assert (H2 : "123" ≠ "") by discriminate.
  repeat (split; [first [reflexivity | assumption]|]).
  exact (proj1 (proj2 (extractTestCaseId_reads_bracketed_id
                         [{| ann_type := "tag";
                             ann_description := Some "smoke" |};
                          {| ann_type := "testCaseId";
                             ann_description := Some "" |}] ""))
           "QA" "123" " Login works" eq_refl H1 H2 eq_refl eq_refl).
Defined.

(** ** Test steps *)

(** Induction on a step with the hypothesis for all nested steps. *)
Lemma TestStep_nested_ind (P : TestStep → Prop) :
  (∀ step, Forall P (ts_steps step) → P step) → ∀ step, P step.
Proof.
  intros Hstep. fix IH 1. intros [t c s d e l nested]. apply Hstep. simpl.
  induction nested as [|child nested IHn]; constructor; [apply IH | exact IHn].
Qed.

Lemma convertTestStep_unfold f step :
  convertTestStep f step =
  if f && bool_decide (ts_category step = "fixture") then None
  else
    Some
      {| qs_title := ts_title step;
         qs_category := ts_category step;
         qs_startTime := ts_startTime step;
         qs_duration := ts_duration step;
         qs_status :=
           match ts_error step with
           | Some _ => "failed"
           | None => if ts_duration step =? -1 then "skipped" else "passed"
           end;
         qs_error := ts_error step ≫= err_message;
         qs_stackTrace := ts_error step ≫= err_stack;
         qs_location := ts_location step;
         qs_steps :=
           match ts_steps step with
           | [] => None
           | nested => Some (mapNotNull (convertTestStep f) nested)
           end |}.
Proof. destruct step; reflexivity. Qed.

Lemma convertedSteps_convert f step q :
  convertTestStep f step = Some q →
  convertedSteps q
  = q :: flat_map convertedSteps
           (mapNotNull (convertTestStep f) (ts_steps step)).
Proof.
  rewrite convertTestStep_unfold.
  destruct (f && bool_decide (ts_category step = "fixture")); [discriminate|].
  intros [= <-]. cbn [convertedSteps qs_steps].
  destruct (ts_steps step); reflexivity.
Qed.

Lemma convertTestStep_key f step q :
  convertTestStep f step = Some q →
  convertedKey q = stepKey step
  ∧ qs_status q ∈ ["passed"; "failed"; "skipped"].
Proof.
  rewrite convertTestStep_unfold.
  destruct (f && bool_decide (ts_category step = "fixture")); [discriminate|].
  intros [= <-]. split; [reflexivity|]. cbn [qs_status].
  destruct (ts_error step) as [e|]; [set_solver|].
  destruct (ts_duration step =? -1); set_solver.
Qed.

Lemma flat_map_mapNotNull_all nested :
  Forall (λ step, ∃ q, convertTestStep false step = Some q
                       ∧ convertedKey <$> convertedSteps q
                         = stepKey <$> stepsOf step
                       ∧ Forall (λ c, qs_status c
                                      ∈ ["passed"; "failed"; "skipped"])
                           (convertedSteps q)) nested →
  convertedKey <$> flat_map convertedSteps
                     (mapNotNull (convertTestStep false) nested)
  = stepKey <$> flat_map stepsOf nested
  ∧ Forall (λ c, qs_status c ∈ ["passed"; "failed"; "skipped"])
      (flat_map convertedSteps (mapNotNull (convertTestStep false) nested)).
Proof.
  induction 1 as [|step nested (q & Eq & Hkeys & Hst) _ [IHk IHs]];
    [split; [reflexivity | constructor]|].
  cbn [mapNotNull flat_map]. rewrite Eq. cbn [flat_map].
  rewrite !fmap_app, Hkeys, IHk. split; [reflexivity|].
  apply Forall_app. split; assumption.
Qed.

Lemma flat_map_mapNotNull_filtered nested :
  Forall (λ step, ∀ q, convertTestStep true step = Some q →
                       (convertedKey <$> convertedSteps q)
                         `sublist_of` (stepKey <$> stepsOf step)
                       ∧ Forall (λ c, qs_category c ≠ "fixture")
                           (convertedSteps q)) nested →
  (convertedKey <$> flat_map convertedSteps
                      (mapNotNull (convertTestStep true) nested))
    `sublist_of` (stepKey <$> flat_map stepsOf nested)
  ∧ Forall (λ c, qs_category c ≠ "fixture")
      (flat_map convertedSteps (mapNotNull (convertTestStep true) nested)).
Proof.
  induction 1 as [|step nested Hstep _ [IHk IHs]];
    [split; [reflexivity | constructor]|].
  cbn [mapNotNull flat_map]. rewrite fmap_app.
  destruct (convertTestStep true step) as [q|] eqn:Eq.
  - destruct (Hstep q eq_refl) as [Hk Hs]. cbn [flat_map].
    rewrite fmap_app. split.
    + apply sublist_app; assumption.
    + apply Forall_app. split; assumption.
  - split; [|exact IHs]. apply sublist_inserts_l. exact IHk.
Qed.

(** X5: without the filter, [convertTestStep] converts every step: it never
    returns null, and the converted tree holds the steps of the given tree,
    nested ones included, in the same order, each with its title, category,
    start time and duration; the status of a converted step is passed,
    failed or skipped, never timedout. *)
Theorem convertTestStep_keeps_every_step (step : TestStep) :
  ∃ q, convertTestStep false step = Some q
       ∧ convertedKey <$> convertedSteps q = stepKey <$> stepsOf step
       ∧ Forall (λ c, qs_status c ∈ ["passed"; "failed"; "skipped"])
           (convertedSteps q).
Proof.
  induction step as [step IH] using TestStep_nested_ind.
  destruct (convertTestStep false step) as [q|] eqn:Eq.
  2:{ rewrite convertTestStep_unfold in Eq. discriminate. }
  exists q. split; [reflexivity|].
  destruct (convertTestStep_key _ _ _ Eq) as (Hkey & Hstatus).
  destruct (flat_map_mapNotNull_all _ IH) as [Hk Hs].
  rewrite (convertedSteps_convert _ _ _ Eq).
  destruct step as [t c s d e l nested]. cbn [stepsOf ts_steps] in *.
  rewrite !fmap_cons, Hk, Hkey. split; [reflexivity|].
  constructor; assumption.
Qed.

(** X6: with the filter, [convertTestStep] returns null exactly for a step
    of category fixture; otherwise no step of the converted tree, at any
    depth, has that category, and the converted steps are steps of the
    given tree in their original order (the steps nested in a fixture step
    go with it). *)
Theorem convertTestStep_drops_fixtures (step : TestStep) :
  (convertTestStep true step = None ↔ ts_category step = "fixture")
  ∧ ∀ q, convertTestStep true step = Some q →
         (convertedKey <$> convertedSteps q)
           `sublist_of` (stepKey <$> stepsOf step)
         ∧ Forall (λ c, qs_category c ≠ "fixture") (convertedSteps q).
Proof.
  split.
  { rewrite convertTestStep_unfold. cbn [andb]. case_bool_decide as Hc.
    - split; [intros _; exact Hc | reflexivity].
    - split; [discriminate | intros Hf; contradiction]. }
  induction step as [step IH] using TestStep_nested_ind.
  intros q Eq.
  destruct (convertTestStep_key _ _ _ Eq) as (Hkey & _).
  destruct (flat_map_mapNotNull_filtered _ IH) as [Hk Hs].
  rewrite (convertedSteps_convert _ _ _ Eq).
  assert (Hnot : qs_category q ≠ "fixture").
  { rewrite convertTestStep_unfold in Eq. cbn [andb] in Eq.
    case_bool_decide as Hc; [discriminate|].
    injection Eq as <-. exact Hc. }
  destruct step as [t c s d e l nested]. cbn [stepsOf ts_steps] in *.
  rewrite !fmap_cons, Hkey. split.
  - apply sublist_skip, Hk.
  - constructor; assumption.
Qed.

Lemma convertTestStep_drops_fixtures_witness :
  ∃ q, convertTestStep true stepTree = Some q
       ∧ (qs_title <$> convertedSteps q) = ["log in"; "expect.toBeVisible"]
       ∧ (convertedKey <$> convertedSteps q)
           `sublist_of` (stepKey <$> stepsOf stepTree)
       ∧ Forall (λ c, qs_category c ≠ "fixture") (convertedSteps q).
Proof.
  destruct (convertTestStep true stepTree) as [q|] eqn:Eq;
    [|vm_compute in Eq; discriminate].
  exists q. split; [reflexivity|]. split.
  - vm_compute in Eq. injection Eq as <-. reflexivity.
  - exact (proj2 (convertTestStep_drops_fixtures stepTree) q Eq).
Defined.

(** * Further properties: the readiness-gate revision *)

(** X8: [onBegin] asks for a test run only when [createTestRun] is set and
    no [testRunId] is configured, and then waits; otherwise it takes the
    configured id, sends nothing and opens the gate at once.  When the
    request is answered it stores the id; when the request fails with a
    value that has a string form it stores the message, prints it in silent
    mode and throws [Failed to create test run: ...] otherwise; when the
    value has no string form the [catch] block itself throws what the
    conversion throws, silent or not, and nothing is stored or printed.
    In every case, throwing included, the gate is opened: in any run it is
    open once the request of [onBegin] has settled. *)
Theorem onBegin_opens_the_gate :
  ∀ W (client : ApiClient W) (r : Gated.Reporter) (w : World W),
    (∀ now,
       let o := Gated.options r in
       let out := Gated.onBegin now r w in
       if createTestRun o && negb (truthy (opt_testRunId o)) then
         out.1.1 = Awaiting
         ∧ Gated.testRunReadyPromise out.1.2 = Gated.testRunReadyPromise r
         ∧ newCalls w out.2
           = [CallCreateTestRun
                {| ctr_projectId := projectId o; ctr_name := testRunName o;
                   ctr_description := testRunDescription o;
                   ctr_environment := environment o;
                   ctr_milestoneId := milestoneId o |}]
       else
         out.1.1 = Completed (Fulfilled ())
         ∧ Gated.testRunReadyPromise out.1.2 = Gated.Resolved
         ∧ testRunId (Gated.state out.1.2) = opt_testRunId o
         ∧ calls out.2 = calls w)
    ∧ (∀ response,
         Gated.pendingCreate r = Some (Fulfilled response) →
         let out := Gated.onBeginResume r w in
         out.1.1 = Completed (Fulfilled ())
         ∧ Gated.testRunReadyPromise out.1.2 = Gated.Resolved
         ∧ testRunId (Gated.state out.1.2) = Some (resp_id response)
         ∧ Gated.testRunCreationError out.1.2 = Gated.testRunCreationError r
         ∧ calls out.2 = calls w)
    ∧ (∀ e,
         Gated.pendingCreate r = Some (Rejected e) →
         let o := Gated.options r in
         let out := Gated.onBeginResume r w in
         Gated.testRunReadyPromise out.1.2 = Gated.Resolved
         ∧ testRunId (Gated.state out.1.2) = testRunId (Gated.state r)
         ∧ calls out.2 = calls w
         ∧ match errorText e with
           | Fulfilled message =>
               out.1.1
                 = Completed
                     (if silent o then Fulfilled ()
                      else Rejected
                             (ErrorObject ("Failed to create test run: "
                                             +:+ message)))
               ∧ Gated.testRunCreationError out.1.2 = Some message
               ∧ (verbose o = false →
                  console out.2
                  = (console w
                       ++ if silent o then
                            [{| stream := ConsoleError;
                                text := tag +:+ "Failed to create test run: "
                                          +:+ message;
                                extra := [] |}]
                          else [])%list)
           | Rejected raised =>
               out.1.1 = Completed (Rejected raised)
               ∧ Gated.testRunCreationError out.1.2
                 = Gated.testRunCreationError r
               ∧ (verbose o = false → console out.2 = console w)
           end)
    ∧ (∀ o (w0 : W) now es,
         Gated.testRunReadyPromise
           (Gated.run
              (Gated.OnBegin now :: Gated.CreateTestRunSettled :: es)
              (Gated.newReporter o, newWorld w0)).1 = Gated.Resolved).
Proof.
  intros W client r w. split; [|split; [|split]].
  - intros now. cbv zeta.
    unfold Gated.onBegin, Gated.onBeginFinally, Gated.log, bind, gets, modify,
      inWorld, ask, request, ret, newCalls, Gated.testRunReadyResolve. cbn.
    destruct (createTestRun (Gated.options r)
              && negb (truthy (opt_testRunId (Gated.options r)))); cbn.
    + unfold logLine. destruct (verbose (Gated.options r)); cbn;
        destruct (createTestRun_api _ _); cbn;
        rewrite drop_app_length; repeat split; reflexivity.
    + unfold logLine.
      destruct (Gated.testRunReadyPromise r) eqn:Eg; cbn; rewrite ?Eg;
        destruct (verbose (Gated.options r)); repeat split; reflexivity.
  - intros response Hp. cbv zeta.
    unfold Gated.onBeginResume, Gated.onBeginFinally, Gated.log, bind, gets,
      modify, inWorld, ret, Gated.testRunReadyResolve. rewrite Hp. cbn.
    unfold logLine.
    destruct (Gated.testRunReadyPromise r) eqn:Eg; cbn; rewrite ?Eg;
      destruct (verbose (Gated.options r)); repeat split; reflexivity.
  - intros e Hp. cbv zeta.
    unfold Gated.onBeginResume, Gated.onBeginFinally, Gated.handleError,
      Gated.log, bind, gets, modify, inWorld, ask, handleErrorIn, ret,
      Gated.testRunReadyResolve. rewrite Hp. cbn.
    unfold logLine.
    destruct (errorText e) as [message|raised]; cbn;
      [destruct (silent (Gated.options r)); cbn|];
      destruct (Gated.testRunReadyPromise r) eqn:Eg; cbn; rewrite ?Eg;
      destruct (verbose (Gated.options r)); cbn;
      repeat split; try reflexivity; try discriminate;
      intros _; rewrite ?app_nil_r; reflexivity.
  - intros o w0 now es.
    change (Gated.run
              (Gated.OnBegin now :: Gated.CreateTestRunSettled :: es)
              (Gated.newReporter o, newWorld w0))
      with (Gated.run es
              (Gated.run [Gated.OnBegin now; Gated.CreateTestRunSettled]
                 (Gated.newReporter o, newWorld w0))).
    pose proof (gate_resolves o w0 now) as Hg.
    destruct (Gated.run [Gated.OnBegin now; Gated.CreateTestRunSettled]
                (Gated.newReporter o, newWorld w0)) as [r1 w1].
    exact (run_gate_stable es r1 w1 Hg).
Qed.

Lemma onBegin_opens_the_gate_witness :
  let m := Gated.step (client := scripted quotaExceeded) (Gated.OnBegin 0)
             gatedStart in
  let out := Gated.onBeginResume m.1 m.2 in
  Gated.pendingCreate m.1 = Some (Rejected (ErrorObject "quota exceeded"))
  ∧ out.1.1 = Completed (Fulfilled ())
  ∧ Gated.testRunReadyPromise out.1.2 = Gated.Resolved
  ∧ Gated.testRunCreationError out.1.2 = Some "quota exceeded".
Proof.
  cbv zeta.
  set (m := Gated.step (client := scripted quotaExceeded) (Gated.OnBegin 0)
              gatedStart).
  assert (Hp : Gated.pendingCreate m.1
               = Some (Rejected (ErrorObject "quota exceeded")))
    by (vm_compute; reflexivity).
  split; [exact Hp|].
  destruct (proj1 (proj2 (proj2 (onBegin_opens_the_gate unit
                                   (scripted quotaExceeded) m.1 m.2)))
              (ErrorObject "quota exceeded") Hp)
    as (Hgate & _ & _ & Hout & Herr & _).
  split; [exact Hout|]. split; [exact Hgate | exact Herr].
Defined.

Section GatedRuns.
Import Gated.
Context {W : Type} {client : ApiClient W}.

Lemma testRunReadyResolve_resolved r :
  testRunReadyPromise (testRunReadyResolve r) = Resolved
  ∧ state (testRunReadyResolve r) = state r
  ∧ options (testRunReadyResolve r) = options r
  ∧ counters (testRunReadyResolve r) = counters r
  ∧ flushPromises (testRunReadyResolve r) = flushPromises r
  ∧ uploadFailures (testRunReadyResolve r) = uploadFailures r
  ∧ pendingCreate (testRunReadyResolve r) = pendingCreate r
  ∧ testRunCreationError (testRunReadyResolve r) = testRunCreationError r.
Proof.
  unfold testRunReadyResolve.
  destruct (testRunReadyPromise r) eqn:Eg; simpl; rewrite ?Eg;
    repeat split; reflexivity.
Qed.

Lemma runCallbacks_core r (w : World W) :
  let r' := (runCallbacks r w).1.2 in
  options r' = options r ∧ state r' = state r ∧ counters r' = counters r
  ∧ testRunReadyPromise r' = testRunReadyPromise r
  ∧ uploadFailures r' = uploadFailures r
  ∧ pendingCreate r' = pendingCreate r
  ∧ testRunCreationError r' = testRunCreationError r.
Proof.
  cbv zeta. rewrite runCallbacks_reporter.
  destruct (testRunReadyPromise r) eqn:Eg; simpl; rewrite ?Eg;
    repeat split; reflexivity.
Qed.

Lemma step_options e r (w : World W) :
  options (step e (r, w)).1 = options r.
Proof.
  rewrite step_unfold. cbn [fst].
  destruct e as [now| |now test res|now test res|now]; cbn [handle].
  - rewrite (proj1 (then_callbacks (onBegin now) r w)).
    rewrite (proj1 (runCallbacks_core _ _)), onBegin_reporter. cbv zeta.
    destruct (createTestRun (options r) && _); [reflexivity|].
    rewrite (proj1 (proj2 (proj2 (testRunReadyResolve_resolved _)))).
    reflexivity.
  - rewrite (proj1 (then_callbacks onBeginResume r w)).
    rewrite (proj1 (runCallbacks_core _ _)), onBeginResume_reporter.
    destruct (pendingCreate r) as [[response|e]|];
      [|destruct (errorText e)|reflexivity];
      rewrite (proj1 (proj2 (proj2 (testRunReadyResolve_resolved _))));
      reflexivity.
  - rewrite onTestBegin_reporter. reflexivity.
  - rewrite (proj1 (then_callbacks (onTestEnd now test res) r w)).
    rewrite (proj1 (runCallbacks_core _ _)), onTestEnd_reporter.
    destruct (tests (state r) !! getTestId test); [|reflexivity].
    cbv zeta. destruct (retry res =? retries test); reflexivity.
  - unfold bind, ret.
    pose proof (onEnd_spec now r w) as (Ho & _).
    destruct (onEnd now r w) as [[c r'] w']. exact Ho.
Qed.

Lemma run_options es (m : Reporter * World W) :
  options (run es m).1 = options m.1.
Proof.
  revert m. induction es as [|e es IH]; intros [r w]; [reflexivity|].
  simpl. rewrite IH. apply step_options.
Qed.

Lemma step_ready e r (w : World W) :
  resolvedWhenReady r → resolvedWhenReady (step e (r, w)).1.
Proof.
  intros Hr. rewrite step_unfold. cbn [fst]. unfold resolvedWhenReady in *.
  destruct e as [now| |now test res|now test res|now]; cbn [handle].
  - rewrite (proj1 (then_callbacks (onBegin now) r w)).
    destruct (runCallbacks_core (onBegin now r w).1.2 (onBegin now r w).2)
      as (_ & -> & _ & -> & _).
    rewrite onBegin_reporter. cbv zeta.
    destruct (createTestRun (options r) && _); [exact Hr|].
    intros _. apply testRunReadyResolve_resolved.
  - rewrite (proj1 (then_callbacks onBeginResume r w)).
    destruct (runCallbacks_core (onBeginResume r w).1.2 (onBeginResume r w).2)
      as (_ & -> & _ & -> & _).
    rewrite onBeginResume_reporter.
    destruct (pendingCreate r) as [[response|e]|];
      [|destruct (errorText e)|exact Hr];
      intros _; apply testRunReadyResolve_resolved.
  - rewrite onTestBegin_reporter. exact Hr.
  - rewrite (proj1 (then_callbacks (onTestEnd now test res) r w)).
    destruct (runCallbacks_core (onTestEnd now test res r w).1.2
                (onTestEnd now test res r w).2) as (_ & -> & _ & -> & _).
    rewrite onTestEnd_reporter.
    destruct (tests (state r) !! getTestId test); [|exact Hr].
    cbv zeta. destruct (retry res =? retries test); exact Hr.
  - unfold bind, ret.
    pose proof (onEnd_spec now r w) as (_ & Hid & _ & Hg & _).
    destruct (onEnd now r w) as [[c r'] w']. simpl in *.
    rewrite Hid, Hg. exact Hr.
Qed.

Lemma run_ready es (m : Reporter * World W) :
  resolvedWhenReady m.1 → resolvedWhenReady (run es m).1.
Proof.
  revert m. induction es as [|e es IH]; intros [r w] Hr; [exact Hr|].
  simpl. apply IH, step_ready, Hr.
Qed.

Lemma completeRun_result duration r (w : World W) :
  (completeRun duration r w).1.1 =
  if truthy (testRunId (state r)) then
    match (completeTestRun_api (completionOf duration r) (remote w)).1 with
    | Fulfilled _ => Fulfilled ()
    | Rejected e => Rejected e
    end
  else Fulfilled ().
Proof.
  unfold completeRun, bind, gets. simpl.
  destruct (truthy (testRunId (state r))); [|reflexivity].
  unfold ask, request, completionOf. simpl.
  destruct (completeTestRun_api _ (remote w)) as [[u|e] remote']; simpl;
    [|reflexivity].
  unfold log, say, bind, gets, inWorld, logLine, ret. simpl.
  destruct (verbose (options r)), (0 <? len (uploadFailures r)); reflexivity.
Qed.

(** The request [onBegin] waits for was answered by the client. *)
Lemma step_pending e r (w : World W) :
  printable client →
  (∀ e, pendingCreate r = Some (Rejected e) → hasStringForm e = true) →
  ∀ e', pendingCreate (step e (r, w)).1 = Some (Rejected e') →
        hasStringForm e' = true.
Proof.
  intros Hprintable Hr e'. rewrite step_unfold. cbn [fst].
  destruct e as [now| |now test res|now test res|now]; cbn [handle].
  - rewrite (proj1 (then_callbacks (onBegin now) r w)).
    destruct (runCallbacks_core (onBegin now r w).1.2 (onBegin now r w).2)
      as (_ & _ & _ & _ & _ & -> & _).
    rewrite onBegin_reporter. cbv zeta.
    destruct (createTestRun (options r) && _).
    + cbn [pendingCreate setPendingCreate]. intros Heq.
      injection Heq as Heq.
      exact (proj1 (Hprintable (remote w) e') _ Heq).
    + rewrite (proj1 (proj2 (proj2 (proj2 (proj2 (proj2 (proj2
                (testRunReadyResolve_resolved _)))))))).
      apply Hr.
  - rewrite (proj1 (then_callbacks onBeginResume r w)).
    destruct (runCallbacks_core (onBeginResume r w).1.2 (onBeginResume r w).2)
      as (_ & _ & _ & _ & _ & -> & _).
    rewrite onBeginResume_reporter.
    destruct (pendingCreate r) as [[response|e]|] eqn:Ep;
      [|destruct (errorText e)|rewrite Ep; discriminate];
      rewrite (proj1 (proj2 (proj2 (proj2 (proj2 (proj2 (proj2
                 (testRunReadyResolve_resolved _))))))));
      discriminate.
  - rewrite onTestBegin_reporter. apply Hr.
  - rewrite (proj1 (then_callbacks (onTestEnd now test res) r w)).
    destruct (runCallbacks_core (onTestEnd now test res r w).1.2
                (onTestEnd now test res r w).2)
      as (_ & _ & _ & _ & _ & -> & _).
    rewrite onTestEnd_reporter.
    destruct (tests (state r) !! getTestId test); [|apply Hr].
    cbv zeta. destruct (retry res =? retries test); apply Hr.
  - unfold bind, ret.
    pose proof (onEnd_spec now r w) as (_ & _ & _ & _ & _ & Hp & _).
    destruct (onEnd now r w) as [[c r'] w']. simpl in *.
    rewrite Hp. apply Hr.
Qed.

Lemma run_pending es o (w0 : W) :
  printable client →
  ∀ e, pendingCreate (run es (newReporter o, newWorld w0)).1
       = Some (Rejected e) →
       hasStringForm e = true.
Proof.
  intros Hprintable.
  assert (Hgen : ∀ (m : Reporter * World W),
    (∀ e, pendingCreate m.1 = Some (Rejected e) → hasStringForm e = true) →
    ∀ e, pendingCreate (run es m).1 = Some (Rejected e) →
         hasStringForm e = true).
  { induction es as [|ev es IH]; intros [r w] Hr; [exact Hr|].
    simpl. apply IH.
    pose proof (step_pending ev r w Hprintable Hr) as Hstep.
    destruct (step ev (r, w)) as [r1 w1]. exact Hstep. }
  apply Hgen. cbn. discriminate.
Qed.

End GatedRuns.

Section GatedOutcome.
Import Gated.
Context {W : Type} {client : ApiClient W}.

Lemma handleError_result message e r (w : World W) :
  (handleError message e r w).1.1 = handled (options r) message e.
Proof.
  unfold handleError, bind, gets, ask, handleErrorIn, handled. simpl.
  destruct (errorText e); [|reflexivity].
  destruct (silent (options r)); reflexivity.
Qed.

Lemma onEnd_outcome now r (w : World W) :
  (testRunReadyPromise r = Resolved →
   Forall settledItem (flushPromises r)) →
  resolvedWhenReady r →
  let duration := now - default 0 (startTime (state r)) in
  (onEnd now r w).1.1 =
  Completed
    (if truthy (testRunId (state r)) then
       afterCompletion (options r)
         (completeTestRun_api (completionOf duration (onEnd now r w).1.2)
            (remote w)).1
     else Fulfilled ()).
Proof.
  intros Hsettled Hready.
  cbv beta iota zeta delta [onEnd bind gets modify log inWorld].
  set (r0 := setState (setEndTime (Some now)) r).
  assert (Hstart : startTime (state r0) = startTime (state r)) by reflexivity.
  rewrite Hstart.
  set (duration := now - default 0 (startTime (state r))).
  match goal with
  | |- context [sendTestResults r0 ?w0] =>
      assert (Hw0 : remote w0 = remote w)
        by (unfold logLine; simpl;
            destruct (verbose (options r)); reflexivity);
      pose proof (sendTestResults_drained r0 w0) as Hd;
      pose proof (drain_skipped r0 w0) as Hskip;
      pose proof (drain_collects r0 w0) as Hcollect;
      destruct (sendTestResults r0 w0) as [[c r1] w1]
  end.
  destruct Hd as (Ho & Hs & _ & _ & _ & _ & _ & _ & Hrem).
  simpl in Ho, Hs, Hrem, Hskip, Hcollect, Hw0.
  assert (Hid : testRunId (state r1) = testRunId (state r))
    by (rewrite Hs; reflexivity).
  assert (Hc : c = Completed (Fulfilled ())).
  { destruct (truthy (testRunId (state r))) eqn:Htruthy.
    - exact (proj1 (Hcollect eq_refl (Hsettled (Hready Htruthy)))).
    - exact (proj1 (Hskip eq_refl)). }
  subst c.
  pose proof (reportUploadFailures_quiet r1 w1) as Hq.
  destruct (reportUploadFailures r1 w1) as [[u r2] w2].
  destruct Hq as (Hr2 & _ & Hrem2). simpl in Hr2, Hrem2. subst r2.
  pose proof (completeRun_result duration r1 w2) as Hres.
  pose proof (completeRun_spec duration r1 w2) as [Hr3 _].
  rewrite Hid in Hres.
  assert (Hremote : remote w2 = remote w) by congruence.
  rewrite Hremote in Hres.
  destruct (completeRun duration r1 w2) as [[[u3|e3] r3] w3];
    simpl in Hr3, Hres; subst r3.
  - cbn [fst snd]. destruct (truthy (testRunId (state r))); [|reflexivity].
    destruct (completeTestRun_api _ (remote w)).1; [reflexivity|discriminate].
  - pose proof (handleError_result "Failed to send test results" e3 r1 w3)
      as Hh.
    pose proof (handleError_reporter "Failed to send test results" e3 r1 w3)
      as Hsame.
    destruct (handleError "Failed to send test results" e3 r1 w3)
      as [[t r4] w4].
    unfold sameReporter in Hsame. simpl in Hh, Hsame. subst r4 t.
    cbn [fst snd]. rewrite Ho.
    destruct (truthy (testRunId (state r))); [|discriminate].
    destruct (completeTestRun_api _ (remote w)).1 as [?|e];
      [discriminate|].
    injection Hres as ->. reflexivity.
Qed.

(** The request [onEnd] sends when every tracked chain is fulfilled: the
    completion of the run when there is a run id, and nothing otherwise;
    and the failures it has collected by then. *)
Lemma onEnd_exact now r (w : World W) :
  (testRunReadyPromise r = Resolved →
   Forall settledItem (flushPromises r)) →
  resolvedWhenReady r →
  let duration := now - default 0 (startTime (state r)) in
  let r' := (onEnd now r w).1.2 in
  calls (onEnd now r w).2
  = (calls w ++ if truthy (testRunId (state r))
                then [CallCompleteTestRun (completionOf duration r')]
                else [])%list
  ∧ uploadFailures r'
    = (uploadFailures r
         ++ if truthy (testRunId (state r))
            then failuresOf (flushPromises r) else [])%list
  ∧ counters r' = counters r.
Proof.
  intros Hsettled Hready.
  cbv beta iota zeta delta [onEnd bind gets modify log inWorld].
  set (r0 := setState (setEndTime (Some now)) r).
  assert (Hstart : startTime (state r0) = startTime (state r)) by reflexivity.
  rewrite Hstart.
  set (duration := now - default 0 (startTime (state r))).
  match goal with
  | |- context [sendTestResults r0 ?w0] =>
      assert (Hw0 : calls w0 = calls w)
        by (unfold logLine; simpl;
            destruct (verbose (options r)); reflexivity);
      pose proof (sendTestResults_drained r0 w0) as Hd;
      pose proof (drain_skipped r0 w0) as Hskip;
      pose proof (drain_collects r0 w0) as Hcollect;
      destruct (sendTestResults r0 w0) as [[c r1] w1]
  end.
  destruct Hd as (_ & Hs & Hcount & _ & _ & _ & _ & Hcalls1 & _).
  simpl in Hs, Hcount, Hcalls1, Hskip, Hcollect, Hw0.
  assert (Hid : testRunId (state r1) = testRunId (state r))
    by (rewrite Hs; reflexivity).
  assert (Hc : c = Completed (Fulfilled ())
               ∧ uploadFailures r1
                 = (uploadFailures r
                      ++ if truthy (testRunId (state r))
                         then failuresOf (flushPromises r) else [])%list).
  { destruct (truthy (testRunId (state r))) eqn:Htruthy.
    - destruct (Hcollect eq_refl (Hsettled (Hready Htruthy))) as [-> ->].
      split; reflexivity.
    - destruct (Hskip eq_refl) as [-> ->]. rewrite app_nil_r.
      split; reflexivity. }
  destruct Hc as [-> Hfailures].
  pose proof (reportUploadFailures_quiet r1 w1) as Hq.
  destruct (reportUploadFailures r1 w1) as [[u r2] w2].
  destruct Hq as (Hr2 & Hcalls2 & _). simpl in Hr2, Hcalls2. subst r2.
  pose proof (completeRun_spec duration r1 w2) as [Hr3 Hcalls3].
  rewrite Hid in Hcalls3.
  destruct (completeRun duration r1 w2) as [[[u3|e3] r3] w3];
    simpl in Hr3, Hcalls3; subst r3.
  - unfold ret. cbn [fst snd]. split; [|split; assumption].
    destruct (truthy (testRunId (state r)));
      [|rewrite app_nil_r]; congruence.
  - pose proof (handleError_quiet "Failed to send test results" e3 r1 w3)
      as Hq.
    destruct (handleError "Failed to send test results" e3 r1 w3)
      as [[t r4] w4].
    destruct Hq as (Hr4 & Hcalls4 & _). simpl in Hr4, Hcalls4. subst r4.
    unfold ret. cbn [fst snd]. split; [|split; assumption].
    destruct (truthy (testRunId (state r)));
      [|rewrite app_nil_r]; congruence.
Qed.

End GatedOutcome.

(** C2: the total of every completion request [onEnd] sends is the
    attempted total minus the number of collected upload failures, in the
    gated revision ([calculateUploadedCounts]) and in the streaming
    revision alike, and [onEnd] does not change the attempted total.  The
    request is sent: in the streaming revision [onEnd] sends exactly the
    completion request with that total when there is a run id, and no
    request otherwise; in the gated revision it does so at the end of
    every run with a client whose rejections have a string form, after
    adding the failures of the tracked tasks to the collected ones. *)
Theorem uploaded_total_is_attempted_minus_failures :
  (∀ W (client : ApiClient W) now r (w : World W) req,
     CallCompleteTestRun req ∈ newCalls w (Gated.onEnd now r w).2 →
     let r' := (Gated.onEnd now r w).1.2 in
     total (summary req)
       = totalTests (Gated.counters r') - len (Gated.uploadFailures r')
     ∧ totalTests (Gated.counters r') = totalTests (Gated.counters r))
  ∧ (∀ W (client : ApiClient W) now r (w : World W) req,
       CallCompleteTestRun req ∈ newCalls w (Streaming.onEnd now r w).2 →
       let r' := (Streaming.onEnd now r w).1.2 in
       total (summary req)
         = totalTests (Streaming.counters r')
           - len (Streaming.uploadFailures r')
       ∧ totalTests (Streaming.counters r')
         = totalTests (Streaming.counters r))
  ∧ (∀ W (client : ApiClient W) o (w0 : W) es now,
       printable client →
       let m := Gated.run es (Gated.newReporter o, newWorld w0) in
       let out := Gated.onEnd now m.1 m.2 in
       let r' := out.1.2 in
       let hasRun := truthy (testRunId (Gated.state m.1)) in
       newCalls m.2 out.2
       = (if hasRun then
            [CallCompleteTestRun
               {| cmp_testRunId := showOpt (testRunId (Gated.state m.1));
                  summary :=
                    {| total :=
                         totalTests (Gated.counters m.1)
                         - len (Gated.uploadFailures r');
                       sum_passed := passedTests (Gated.counters m.1);
                       sum_failed := failedTests (Gated.counters m.1);
                       sum_skipped := skippedTests (Gated.counters m.1);
                       sum_duration :=
                         now - default 0 (startTime (Gated.state m.1))
                    |} |}]
          else [])
       ∧ Gated.counters r' = Gated.counters m.1
       ∧ Gated.uploadFailures r'
         = (Gated.uploadFailures m.1
              ++ if hasRun then failuresOf (Gated.flushPromises m.1)
                 else [])%list)
  ∧ (∀ W (client : ApiClient W) now r (w : World W),
       let out := Streaming.onEnd now r w in
       let r' := out.1.2 in
       newCalls w out.2
       = (if truthy (testRunId (Streaming.state r)) then
            [CallCompleteTestRun
               {| cmp_testRunId := showOpt (testRunId (Streaming.state r));
                  summary :=
                    {| total :=
                         totalTests (Streaming.counters r)
                         - len (Streaming.uploadFailures r);
                       sum_passed := (Streaming.actualUploaded r).1.1.2;
                       sum_failed := (Streaming.actualUploaded r).1.2;
                       sum_skipped := (Streaming.actualUploaded r).2;
                       sum_duration :=
                         now - default 0 (startTime (Streaming.state r))
                    |} |}]
          else [])
       ∧ Streaming.counters r' = Streaming.counters r
       ∧ Streaming.uploadFailures r' = Streaming.uploadFailures r).
Proof.
  split; [|split; [|split]].
  - intros W client now r w req Hin. cbv zeta.
    rewrite (onEnd_completion now r w req Hin). simpl.
    destruct (onEnd_spec now r w) as (_ & _ & Hc & _).
    split; [reflexivity | rewrite Hc; reflexivity].
  - intros W client now r w req Hin. cbv zeta.
    destruct (onEnd_spec_s now r w)
      as (c & r' & w' & E & Hf & Hc & Hcalls).
    rewrite E in Hin |- *. cbn [fst snd] in Hin |- *.
    destruct Hcalls as [Hsame | Hsent].
    + rewrite (newCalls_same _ _ Hsame) in Hin. inversion Hin.
    + rewrite (newCalls_app _ _ _ Hsent) in Hin.
      apply list_elem_of_singleton in Hin. injection Hin as ->. simpl.
      unfold Streaming.actualUploaded.
      destruct (Streaming.failuresByStatus (Streaming.uploadFailures r))
        as [[p f] s].
      simpl. rewrite Hf, Hc. done.
  - intros W client o w0 es now Hprintable. cbv zeta.
    pose proof (run_settledItem Hprintable es o w0) as Hinv.
    cbv zeta in Hinv. destruct Hinv as [_ Hinv].
    assert (Hready :
      resolvedWhenReady
        (Gated.run es (Gated.newReporter o, newWorld w0)).1).
    { apply run_ready. intros H. discriminate H. }
    destruct (Gated.run es (Gated.newReporter o, newWorld w0)) as [r w].
    cbn [fst snd] in *.
    pose proof (onEnd_exact now r w Hinv Hready) as Hexact.
    cbv zeta in Hexact. destruct Hexact as (Hcalls & Hfailures & Hcounters).
    pose proof (onEnd_spec now r w) as Hend. cbv zeta in Hend.
    destruct Hend as (_ & Hid & _).
    split; [|split; assumption].
    rewrite (newCalls_app _ _ _ Hcalls).
    destruct (truthy (testRunId (Gated.state r))); [|reflexivity].
    unfold completionOf. rewrite Hid, Hcounters. reflexivity.
  - intros W client now r w. cbv zeta.
    destruct (onEnd_spec_s now r w)
      as (c & r' & w' & E & Hf & Hc & _).
    pose proof (onEnd_exact_s now r w) as Hcalls.
    rewrite E in Hcalls |- *. cbn [fst snd] in Hcalls |- *.
    split; [|split; assumption].
    rewrite (newCalls_app _ _ _ Hcalls).
    destruct (truthy (testRunId (Streaming.state r))); [|reflexivity].
    unfold Streaming.actualUploaded.
    destruct (Streaming.failuresByStatus (Streaming.uploadFailures r))
      as [[p f] s].
    reflexivity.
Qed.

(** With a service that rejects every submission, the three tests of the
    run are attempted and none is uploaded, in both revisions: the
    completion request has total 0. *)
Lemma uploaded_total_is_attempted_minus_failures_witness :
  let m := Gated.run (client := scripted offline) threeTests gatedStart in
  let after := Gated.onEnd (client := scripted offline) 100 m.1 m.2 in
  let s := Streaming.run (client := scripted offline) threeStreamed
             streamingStart in
  let ended := Streaming.onEnd (client := scripted offline) 100 s.1 s.2 in
  printable (scripted offline)
  ∧ newCalls m.2 after.2 = [CallCompleteTestRun (completion100 0 1 1 1)]
  ∧ totalTests (Gated.counters after.1.2) = 3
  ∧ len (Gated.uploadFailures after.1.2) = 3
  ∧ newCalls s.2 ended.2 = [CallCompleteTestRun (completion100 0 0 0 0)]
  ∧ totalTests (Streaming.counters ended.1.2) = 3
  ∧ len (Streaming.uploadFailures ended.1.2) = 3.
Proof.
  cbv zeta.
  pose proof (proj1 (proj2 (proj2
    uploaded_total_is_attempted_minus_failures)) unit (scripted offline)
    defaults tt threeTests 100 offline_printable) as Hgated.
  pose proof (proj2 (proj2 (proj2
    uploaded_total_is_attempted_minus_failures)) unit (scripted offline)
    100
    (Streaming.run (client := scripted offline) threeStreamed
       streamingStart).1
    (Streaming.run (client := scripted offline) threeStreamed
       streamingStart).2) as Hstreaming.
  cbv zeta in Hgated, Hstreaming.
  destruct Hgated as (Hcalls & _ & _).
  destruct Hstreaming as (Hcalls_s & _ & _).
  split; [exact offline_printable|].
  split; [etransitivity; [exact Hcalls | vm_compute; reflexivity]|].
  split; [vm_compute; reflexivity|].
  split; [vm_compute; reflexivity|].
  split; [etransitivity; [exact Hcalls_s | vm_compute; reflexivity]|].
  split; vm_compute; reflexivity.
Defined.

(** X9: with a client that answers every request and whose rejections
    all have a string form, in every run [onEnd] completes: its drain
    never waits for a task that is still behind the gate, and no task makes
    it fail.  It is fulfilled when there is no run id or the completion
    request succeeds; when that request fails it is fulfilled in silent
    mode and rejected with [Failed to send test results: ...] otherwise.
    So with [silent: true] neither [onBegin] nor [onEnd] rejects. *)
Theorem onEnd_completes_in_every_run :
  ∀ W (client : ApiClient W) o (w0 : W) es now,
    printable client →
    let m := Gated.run es (Gated.newReporter o, newWorld w0) in
    let out := Gated.onEnd now m.1 m.2 in
    let duration := now - default 0 (startTime (Gated.state m.1)) in
    out.1.1
    = Completed
        (if truthy (testRunId (Gated.state m.1)) then
           afterCompletion o
             (completeTestRun_api (completionOf duration out.1.2)
                (remote m.2)).1
         else Fulfilled ())
    ∧ (silent o = true →
       out.1.1 = Completed (Fulfilled ())
       ∧ ∀ e, (Gated.onBegin now m.1 m.2).1.1 ≠ Completed (Rejected e)
              ∧ (Gated.onBeginResume m.1 m.2).1.1 ≠ Completed (Rejected e)).
Proof.
  intros W client o w0 es now Hprintable. cbv zeta.
  pose proof (run_settledItem Hprintable es o w0) as Hinv.
  cbv zeta in Hinv. destruct Hinv as [_ Hinv].
  pose proof (run_pending es o w0 Hprintable) as Hpending.
  assert (Hready :
    resolvedWhenReady (Gated.run es (Gated.newReporter o, newWorld w0)).1).
  { apply run_ready. intros H. discriminate H. }
  pose proof (run_options es (Gated.newReporter o, newWorld w0)) as Hopt.
  cbn [fst Gated.newReporter Gated.options] in Hopt.
  destruct (Gated.run es (Gated.newReporter o, newWorld w0)) as [r w].
  cbn [fst snd] in *.
  pose proof (onEnd_outcome now r w Hinv Hready) as Hout. cbv zeta in Hout.
  rewrite Hopt in Hout. split; [exact Hout|].
  intros Hsilent. split; [|intros e; split].
  - rewrite Hout. destruct (truthy (testRunId (Gated.state r)));
      [|reflexivity].
    unfold afterCompletion, handled.
    destruct (completeTestRun_api _ _).1 as [u|e] eqn:Eanswer;
      [reflexivity|].
    destruct (hasStringForm_text e) as [message ->];
      [|rewrite Hsilent; reflexivity].
    exact (proj2 (proj2 (Hprintable (remote w) e)) _ Eanswer).
  - unfold Gated.onBegin, Gated.onBeginFinally, Gated.log, bind, gets, modify,
      inWorld, ask, request, ret. cbn.
    destruct (createTestRun (Gated.options r) && _); cbn.
    + destruct (createTestRun_api _ _). cbn. discriminate.
    + discriminate.
  - unfold Gated.onBeginResume, Gated.onBeginFinally, Gated.handleError,
      Gated.log, bind, gets, modify, inWorld, ask, handleErrorIn, ret. cbn.
    destruct (Gated.pendingCreate r) as [[response|e']|] eqn:Ep; cbn;
      [discriminate| |discriminate].
    destruct (hasStringForm_text e' (Hpending e' eq_refl)) as [message ->].
    cbn. rewrite Hopt, Hsilent. cbn. discriminate.
Qed.

Lemma onEnd_completes_in_every_run_witness :
  let m := Gated.run (client := scripted refusesCompletion) threeTests
             gatedStart in
  printable (scripted refusesCompletion)
  ∧ silent defaults = true
  ∧ (completeTestRun_api (ApiClient := scripted refusesCompletion)
       (completion100 3 1 1 1) (remote m.2)).1
    = Rejected (ErrorObject "gateway timeout")
  ∧ (Gated.onEnd (client := scripted refusesCompletion) 100 m.1 m.2).1.1
    = Completed (Fulfilled ()).
Proof.
  cbv zeta.
  assert (H : silent defaults = true) by reflexivity.
  split; [exact refusesCompletion_printable|].
  split; [exact H|]. split; [reflexivity|].
  exact (proj1 (proj2 (onEnd_completes_in_every_run unit
                         (scripted refusesCompletion) defaults () threeTests
                         100 refusesCompletion_printable) H)).
Defined.

Section GatedTasks.
Import Gated.
Context {W : Type} {client : ApiClient W}.

Lemma submissions_uploadsFor response atts :
  submissions (uploadsFor response atts) = [].
Proof.
  unfold uploadsFor. destruct (default [] (resp_results response));
    [reflexivity|].
  induction atts as [|att atts IH]; [reflexivity | exact IH].
Qed.

Lemma uploadsFor_taskCall response atts :
  Forall (taskCall atts) (uploadsFor response atts).
Proof.
  unfold uploadsFor. destruct (default [] (resp_results response));
    [constructor|].
  apply Forall_fmap, Forall_forall. intros [n ct d t] Hin.
  simpl. exists {| att_name := n; att_contentType := ct; att_data := d;
                   att_type := t |}. split; [reflexivity | exact Hin].
Qed.

(** The requests of one task. *)
Lemma settle_calls item r (w : World W) :
  ∃ new,
    calls (settle item r w).2 = (calls w ++ new)%list
    ∧ submissions new
      = (if truthy (testRunId (state r))
         then submitRequest r <$> waitingRecords [item] else [])
    ∧ Forall (taskCall (waitingAttachments [item])) new.
Proof.
  unfold settle, waitingRecords, waitingAttachments. simpl.
  destruct (promise item) as [result atts|s] eqn:Hitem.
  - unfold bind, ret.
    pose proof (sendPromise_spec result atts r w) as Hspec.
    destruct (sendPromise result atts r w) as [[s r1] w1]. simpl.
    rewrite app_nil_r.
    destruct (truthy (testRunId (state r))) eqn:Hid.
    + cbv zeta in Hspec.
      destruct (submitTestResults_api (submitRequest r result) (remote w)).1
        as [response|e]; destruct Hspec as [_ Hcalls]; simpl in Hcalls;
        eexists; (split; [exact Hcalls|]).
      * split; [simpl; rewrite submissions_uploadsFor; reflexivity|].
        constructor; [exact I | apply uploadsFor_taskCall].
      * split; [reflexivity | repeat constructor].
    + destruct Hspec as [_ Hw]. simpl in Hw. subst w1.
      exists []. rewrite app_nil_r. repeat split; constructor.
  - unfold ret. simpl. exists []. rewrite app_nil_r.
    destruct (truthy (testRunId (state r))); repeat split; constructor.
Qed.

Lemma taskCall_mono atts atts' c :
  (∀ att, att ∈ atts → att ∈ atts') → taskCall atts c → taskCall atts' c.
Proof.
  intros Hsub. destruct c; simpl; try exact id.
  intros (att & Hu & Hin). exists att. split; [exact Hu | apply Hsub, Hin].
Qed.

Lemma waitingRecords_cons item items :
  waitingRecords (item :: items)
  = (waitingRecords [item] ++ waitingRecords items)%list.
Proof.
  unfold waitingRecords. simpl. destruct (promise item); reflexivity.
Qed.

Lemma waitingAttachments_cons item items :
  waitingAttachments (item :: items)
  = (waitingAttachments [item] ++ waitingAttachments items)%list.
Proof.
  unfold waitingAttachments. simpl. rewrite app_nil_r. reflexivity.
Qed.

Lemma settleAll_calls items r (w : World W) :
  ∃ new,
    calls (settleAll items r w).2 = (calls w ++ new)%list
    ∧ submissions new
      = (if truthy (testRunId (state r))
         then submitRequest r <$> waitingRecords items else [])
    ∧ Forall (taskCall (waitingAttachments items)) new.
Proof.
  revert w. induction items as [|item items IH]; intros w; cbn [settleAll].
  - exists []. unfold ret. simpl. rewrite app_nil_r.
    destruct (truthy (testRunId (state r))); repeat split; constructor.
  - unfold bind, ret.
    destruct (settle_calls item r w) as (new1 & Hc1 & Hs1 & Ht1).
    pose proof (settle_reporter item r w) as Hr1.
    destruct (settle item r w) as [[item' r1] w1].
    simpl in Hc1, Hr1. unfold sameReporter in Hr1. simpl in Hr1. subst r1.
    destruct (IH w1) as (new2 & Hc2 & Hs2 & Ht2).
    destruct (settleAll items r w1) as [[items' r2] w2].
    cbn [fst snd] in Hc2 |- *.
    exists (new1 ++ new2)%list. rewrite Hc2, Hc1, <- app_assoc.
    split; [reflexivity|]. split.
    + rewrite submissions_app, Hs1, Hs2.
      rewrite (waitingRecords_cons item items).
      destruct (truthy (testRunId (state r))); [|reflexivity].
      symmetry. apply fmap_app.
    + rewrite (waitingAttachments_cons item items).
      apply Forall_app. split.
      * eapply Forall_impl; [exact Ht1|]. intros c.
        apply taskCall_mono. intros att Hin. apply elem_of_app. left.
        exact Hin.
      * eapply Forall_impl; [exact Ht2|]. intros c.
        apply taskCall_mono. intros att Hin. apply elem_of_app. right.
        exact Hin.
Qed.

Lemma runCallbacks_calls r (w : World W) :
  ∃ new,
    calls (runCallbacks r w).2 = (calls w ++ new)%list
    ∧ submissions new
      = match testRunReadyPromise r with
        | Resolved =>
            if truthy (testRunId (state r))
            then submitRequest r <$> waitingRecords (flushPromises r)
            else []
        | Unresolved => []
        end
    ∧ Forall (taskCall (waitingAttachments (flushPromises r))) new.
Proof.
  rewrite runCallbacks_world.
  destruct (testRunReadyPromise r).
  - exists []. rewrite app_nil_r. repeat split; constructor.
  - apply settleAll_calls.
Qed.

Lemma settled_not_waiting items :
  Forall settled items →
  waitingRecords items = [] ∧ waitingAttachments items = [].
Proof.
  induction 1 as [|item items [o Ho] _ [IH1 IH2]]; [split; reflexivity|].
  unfold waitingRecords, waitingAttachments in *. simpl. rewrite Ho.
  split; assumption.
Qed.

End GatedTasks.

Section GatedSteps.
Import Gated.
Context {W : Type} {client : ApiClient W}.

Lemma settleAll_none_waiting items r (w : World W) :
  waitingRecords (settleAll items r w).1.1 = []
  ∧ waitingAttachments (settleAll items r w).1.1 = [].
Proof.
  revert w. induction items as [|item items IH]; intros w;
    [split; reflexivity|].
  cbn [settleAll]. unfold bind, ret.
  assert (Hitem : ∃ s, promise (settle item r w).1.1 = Done s).
  { unfold settle. destruct (promise item) as [result atts|s] eqn:Hp.
    - unfold bind, ret.
      destruct (sendPromise result atts r w) as [[s r1] w1]. eauto.
    - unfold ret. simpl. eauto. }
  pose proof (settle_reporter item r w) as Hr1.
  destruct (settle item r w) as [[item' r1] w1].
  unfold sameReporter in Hr1. simpl in Hitem, Hr1. subst r1.
  destruct (IH w1) as [IH1 IH2].
  destruct (settleAll items r w1) as [[items' r2] w2]. cbn [fst snd] in *.
  destruct Hitem as [s Hs].
  rewrite waitingRecords_cons, waitingAttachments_cons, IH1, IH2.
  unfold waitingRecords, waitingAttachments. simpl. rewrite Hs.
  split; reflexivity.
Qed.

(** After the callbacks, a tracked promise waits only if the gate is still
    closed. *)
Lemma runCallbacks_waiting r (w : World W) :
  let r' := (runCallbacks r w).1.2 in
  match testRunReadyPromise r with
  | Unresolved => flushPromises r' = flushPromises r
  | Resolved =>
      waitingRecords (flushPromises r') = []
      ∧ waitingAttachments (flushPromises r') = []
  end.
Proof.
  cbv zeta. rewrite runCallbacks_reporter.
  destruct (testRunReadyPromise r); [reflexivity|]. simpl.
  apply settleAll_none_waiting.
Qed.

Lemma onBegin_calls now r (w : World W) :
  ∃ pre, calls (onBegin now r w).2 = (calls w ++ pre)%list
         ∧ submissions pre = []
         ∧ ∀ o, Forall (allowedCall o) pre.
Proof.
  unfold onBegin, onBeginFinally, log, bind, gets, modify, inWorld, ask,
    request, ret, testRunReadyResolve. cbn.
  destruct (createTestRun (options r) && _); cbn.
  - destruct (createTestRun_api _ _) as [answer remote'] eqn:Ec. cbn.
    eexists [_]. split.
    + unfold logLine. destruct (verbose (options r)); reflexivity.
    + split; [reflexivity|]. intros o. repeat constructor.
  - exists []. rewrite app_nil_r. split.
    + unfold logLine.
      destruct (testRunReadyPromise r) eqn:Eg; cbn; rewrite ?Eg;
        destruct (verbose (options r)); reflexivity.
    + split; [reflexivity | constructor].
Qed.

(** An event handler followed by the callbacks of the gate. *)
Lemma then_callbacks_calls {A} (m : M W Reporter A) r (w : World W) pre :
  calls (m r w).2 = (calls w ++ pre)%list →
  let r1 := (m r w).1.2 in
  let out := (m ;; runCallbacks) r w in
  ∃ new,
    newCalls w out.2 = (pre ++ new)%list
    ∧ submissions new
      = match testRunReadyPromise r1 with
        | Resolved =>
            if truthy (testRunId (state r1))
            then submitRequest r1 <$> waitingRecords (flushPromises r1)
            else []
        | Unresolved => []
        end
    ∧ Forall (taskCall (waitingAttachments (flushPromises r1))) new
    ∧ options out.1.2 = options r1
    ∧ state out.1.2 = state r1
    ∧ testRunReadyPromise out.1.2 = testRunReadyPromise r1
    ∧ match testRunReadyPromise r1 with
      | Unresolved => flushPromises out.1.2 = flushPromises r1
      | Resolved =>
          waitingRecords (flushPromises out.1.2) = []
          ∧ waitingAttachments (flushPromises out.1.2) = []
      end.
Proof.
  intros Hpre. cbv zeta.
  destruct (then_callbacks m r w) as [-> ->].
  destruct (runCallbacks_calls (m r w).1.2 (m r w).2)
    as (new & Hc & Hs & Ht).
  destruct (runCallbacks_core (m r w).1.2 (m r w).2)
    as (Ho & Hst & _ & Hg & _).
  exists new. split.
  { apply newCalls_app. rewrite Hc, Hpre, <- app_assoc. reflexivity. }
  split; [exact Hs|]. split; [exact Ht|].
  split; [exact Ho|]. split; [exact Hst|]. split; [exact Hg|].
  apply runCallbacks_waiting.
Qed.

Lemma waitingRecords_snoc items result atts title :
  waitingRecords
    (items ++ [{| promise := AwaitingGate result atts; testTitle := title |}])
  = (waitingRecords items ++ [result])%list
  ∧ waitingAttachments
      (items ++ [{| promise := AwaitingGate result atts;
                    testTitle := title |}])
    = (waitingAttachments items ++ atts)%list.
Proof.
  unfold waitingRecords, waitingAttachments.
  rewrite omap_app, flat_map_app. simpl. rewrite app_nil_r.
  split; reflexivity.
Qed.

Lemma submitRequest_state r r' result :
  state r' = state r → submitRequest r' result = submitRequest r result.
Proof. unfold submitRequest. intros ->. reflexivity. Qed.

End GatedSteps.

Section GatedSubmissions.
Import Gated.
Context {W : Type} {client : ApiClient W}.

Lemma resolve_gate r : testRunReadyPromise (testRunReadyResolve r) = Resolved.
Proof. apply testRunReadyResolve_resolved. Qed.

Lemma resolve_flushPromises r :
  flushPromises (testRunReadyResolve r) = flushPromises r.
Proof. apply testRunReadyResolve_resolved. Qed.

Lemma resolve_options r : options (testRunReadyResolve r) = options r.
Proof. apply testRunReadyResolve_resolved. Qed.

Lemma handler_then_callbacks {A} (m : M W Reporter A) r (w : World W)
    pre extra :
  calls (m r w).2 = (calls w ++ pre)%list →
  submissions pre = [] →
  flushPromises (m r w).1.2 = (flushPromises r ++ extra)%list →
  (testRunReadyPromise r = Resolved → waitingRecords (flushPromises r) = []) →
  (testRunReadyPromise r = Resolved →
   testRunReadyPromise (m r w).1.2 = Resolved) →
  let out := (m ;; runCallbacks) r w in
  submissions (newCalls w out.2)
  = match testRunReadyPromise out.1.2 with
    | Resolved =>
        if truthy (testRunId (state out.1.2)) then
          submitRequest out.1.2
            <$> (match testRunReadyPromise r with
                 | Resolved => []
                 | Unresolved => waitingRecords (flushPromises r)
                 end ++ waitingRecords extra)%list
        else []
    | Unresolved => []
    end.
Proof.
  intros Hpre Hnone Htracked Hsettled Hstays. cbv zeta.
  destruct (then_callbacks_calls m r w pre Hpre)
    as (new & Hnew & Hs & _ & _ & Hst & Hg & _).
  rewrite Hnew, submissions_app, Hnone, Hs, Hg. cbn [app].
  destruct (testRunReadyPromise (m r w).1.2) eqn:Eg1; [reflexivity|].
  rewrite Hst. destruct (truthy (testRunId (state (m r w).1.2)));
    [|reflexivity].
  rewrite Htracked. unfold waitingRecords at 1. rewrite omap_app.
  fold (waitingRecords (flushPromises r)). fold (waitingRecords extra).
  unfold submitRequest. rewrite Hst.
  destruct (testRunReadyPromise r) eqn:Eg; [reflexivity|].
  rewrite (Hsettled eq_refl). reflexivity.
Qed.

Lemma step_submissions e r (w : World W) :
  gatedInvariant r →
  let r' := (step e (r, w)).1 in
  submissions (newCalls w (step e (r, w)).2)
  = match testRunReadyPromise r' with
    | Resolved =>
        if truthy (testRunId (state r')) then
          submitRequest r'
            <$> (match testRunReadyPromise r with
                 | Resolved => []
                 | Unresolved => waitingRecords (flushPromises r)
                 end ++ trackedRecord e r)%list
        else []
    | Unresolved => []
    end.
Proof.
  intros (_ & Hsettled). cbv zeta.
  assert (Hnone : testRunReadyPromise r = Resolved →
                  waitingRecords (flushPromises r) = []).
  { intros Hg. apply settled_not_waiting, Hsettled, Hg. }
  rewrite step_unfold. cbn [fst snd].
  destruct e as [now| |now test res|now test res|now];
    cbn [handle trackedRecord].
  - destruct (onBegin_calls now r w) as (pre & Hpre & Hsub & _).
    apply (handler_then_callbacks (onBegin now) r w pre [] Hpre Hsub);
      [|exact Hnone|].
    + rewrite app_nil_r, onBegin_reporter. cbv zeta.
      destruct (createTestRun (options r) && _); [reflexivity|].
      rewrite resolve_flushPromises. reflexivity.
    + intros Hg. rewrite onBegin_reporter. cbv zeta.
      destruct (createTestRun (options r) && _); [exact Hg|].
      apply resolve_gate.
  - apply (handler_then_callbacks onBeginResume r w [] []);
      [rewrite app_nil_r; apply onBeginResume_calls | reflexivity | |
       exact Hnone |].
    + rewrite app_nil_r, onBeginResume_reporter.
      destruct (pendingCreate r) as [[response|e]|];
        [|destruct (errorText e)|reflexivity];
        rewrite resolve_flushPromises; reflexivity.
    + intros Hg. rewrite onBeginResume_reporter.
      destruct (pendingCreate r) as [[response|e]|];
        [|destruct (errorText e)|exact Hg];
        apply resolve_gate.
  - rewrite (newCalls_same _ _ (onTestBegin_calls now test res r w)).
    rewrite onTestBegin_reporter. cbn.
    destruct (testRunReadyPromise r) eqn:Eg; [reflexivity|].
    destruct (truthy (testRunId (state r))); reflexivity.
  - pose proof (onTestEnd_reporter now test res r w) as Hr1.
    destruct (tests (state r) !! getTestId test) as [td|] eqn:Etd.
    + cbv zeta in Hr1. destruct (retry res =? retries test).
      * apply (handler_then_callbacks (onTestEnd now test res) r w []
                 [{| promise :=
                       AwaitingGate
                         (deleteAttachments
                            (convertTestResult test res (td_startTime td)))
                         (List.filter (keepAttachment (options r))
                            (extractAttachmentsAsBuffers res).2);
                     testTitle := title test |}]);
          [rewrite app_nil_r; apply onTestEnd_calls | reflexivity | |
           exact Hnone |]; rewrite Hr1; [reflexivity | exact id].
      * apply (handler_then_callbacks (onTestEnd now test res) r w [] []);
          [rewrite app_nil_r; apply onTestEnd_calls | reflexivity | |
           exact Hnone |]; rewrite Hr1;
          [rewrite app_nil_r; reflexivity | exact id].
    + apply (handler_then_callbacks (onTestEnd now test res) r w [] []);
        [rewrite app_nil_r; apply onTestEnd_calls | reflexivity | |
         exact Hnone |]; rewrite Hr1;
        [rewrite app_nil_r; reflexivity | exact id].
  - unfold bind, ret.
    pose proof (onEnd_spec now r w) as Hspec. cbv zeta in Hspec.
    destruct (onEnd now r w) as [[c r'] w']. cbn [fst snd] in *.
    destruct Hspec as (_ & Hid & _ & Hg & _ & _ & _ & _ & Hcalls).
    assert (Hsub : submissions (newCalls w w') = []).
    { destruct Hcalls as [Hsame | [_ Hsent]].
      - rewrite (newCalls_same _ _ Hsame). reflexivity.
      - rewrite (newCalls_app _ _ _ Hsent). reflexivity. }
    rewrite Hsub, Hg, Hid, app_nil_r.
    destruct (testRunReadyPromise r) eqn:Eg; [reflexivity|].
    destruct (truthy (testRunId (state r))); reflexivity.
Qed.

Lemma step_grows e r (w : World W) :
  ∃ new, calls (step e (r, w)).2 = (calls w ++ new)%list.
Proof.
  rewrite step_unfold. cbn [snd].
  destruct e as [now| |now test res|now test res|now]; cbn [handle].
  - destruct (onBegin_calls now r w) as (pre & Hpre & _).
    destruct (then_callbacks (onBegin now) r w) as [_ ->].
    destruct (runCallbacks_calls (onBegin now r w).1.2 (onBegin now r w).2)
      as (new & -> & _).
    exists (pre ++ new)%list. rewrite Hpre, app_assoc. reflexivity.
  - destruct (then_callbacks onBeginResume r w) as [_ ->].
    destruct (runCallbacks_calls (onBeginResume r w).1.2
                (onBeginResume r w).2) as (new & -> & _).
    exists new. rewrite onBeginResume_calls. reflexivity.
  - exists []. rewrite app_nil_r. apply onTestBegin_calls.
  - destruct (then_callbacks (onTestEnd now test res) r w) as [_ ->].
    destruct (runCallbacks_calls (onTestEnd now test res r w).1.2
                (onTestEnd now test res r w).2) as (new & -> & _).
    exists new. rewrite onTestEnd_calls. reflexivity.
  - unfold bind, ret.
    pose proof (onEnd_spec now r w) as Hspec. cbv zeta in Hspec.
    destruct (onEnd now r w) as [[c r'] w']. cbn [fst snd] in *.
    destruct Hspec as (_ & _ & _ & _ & _ & _ & _ & _ & [Hsame | [_ Hsent]]).
    + exists []. rewrite app_nil_r. exact Hsame.
    + eexists. exact Hsent.
Qed.

Lemma run_closed es (m : Reporter * World W) :
  gatedInvariant m.1 →
  (testRunReadyPromise m.1 = Unresolved → submissions (calls m.2) = []) →
  testRunReadyPromise (run es m).1 = Unresolved →
  submissions (calls (run es m).2) = [].
Proof.
  revert m. induction es as [|e es IH]; intros [r w] Hinv Hnone Hg;
    [exact (Hnone Hg)|].
  cbn [run foldl] in Hg |- *. fold (run es (step e (r, w))) in Hg |- *.
  cbn [fst snd] in Hinv, Hnone.
  assert (Hg' : testRunReadyPromise (step e (r, w)).1 = Unresolved).
  { destruct (step e (r, w)) as [r1 w1]. cbn [fst] in *.
    destruct (testRunReadyPromise r1) eqn:Eg; [reflexivity|].
    pose proof (run_gate_stable es r1 w1 Eg) as Hstable. congruence. }
  apply IH; [apply step_invariant, Hinv | | exact Hg].
  intros _.
  assert (Hbefore : testRunReadyPromise r = Unresolved).
  { destruct (testRunReadyPromise r) eqn:Eg; [reflexivity|].
    pose proof (step_gate_stable e r w Eg). congruence. }
  destruct (step_grows e r w) as (new & Hnew).
  pose proof (step_submissions e r w Hinv) as Hsub. cbv zeta in Hsub.
  rewrite Hg', (newCalls_app _ _ _ Hnew) in Hsub.
  rewrite Hnew, submissions_app, Hsub, (Hnone Hbefore). reflexivity.
Qed.

End GatedSubmissions.

(** X11: each record is submitted exactly once, alone in its request, in
    the order the tests ended.  At any point of any run, an event makes
    the reporter submit nothing while the gate is closed or there is no run
    id; the event that opens the gate with a run id submits the records
    tracked so far, one request each, in the order they were tracked,
    followed by the record the event itself tracks; and once the gate is
    open no tracked record is waiting, so an event submits exactly the
    record it tracks (the final result of a test that had begun) and
    nothing else. *)
Theorem records_are_submitted_once :
  ∀ W (client : ApiClient W) o (w0 : W) es e,
    let m := Gated.run es (Gated.newReporter o, newWorld w0) in
    let m' := Gated.step e m in
    submissions (newCalls m.2 m'.2)
    = match Gated.testRunReadyPromise m'.1 with
      | Gated.Resolved =>
          if truthy (testRunId (Gated.state m'.1)) then
            submitRequest m'.1
              <$> (match Gated.testRunReadyPromise m.1 with
                   | Gated.Resolved => []
                   | Gated.Unresolved =>
                       waitingRecords (Gated.flushPromises m.1)
                   end ++ trackedRecord e m.1)%list
          else []
      | Gated.Unresolved => []
      end
    ∧ match Gated.testRunReadyPromise m.1 with
      | Gated.Resolved => waitingRecords (Gated.flushPromises m.1) = []
      | Gated.Unresolved => submissions (calls m.2) = []
      end.
Proof.
  intros W client o w0 es e. cbv zeta.
  pose proof (run_invariant es (Gated.newReporter o, newWorld w0)
                (newReporter_invariant o)) as Hinv.
  split.
  - destruct (Gated.run es (Gated.newReporter o, newWorld w0)) as [r w].
    apply (step_submissions e r w Hinv).
  - destruct (Gated.testRunReadyPromise
                (Gated.run es (Gated.newReporter o, newWorld w0)).1) eqn:Eg.
    + apply (run_closed es (Gated.newReporter o, newWorld w0));
        [apply newReporter_invariant | reflexivity | exact Eg].
    + apply settled_not_waiting. apply Hinv, Eg.
Qed.

Section GatedFilter.
Import Gated.
Context {W : Type} {client : ApiClient W}.

Lemma taskCall_allowed o atts c :
  Forall (λ att, keepAttachment o att = true) atts →
  taskCall atts c → allowedCall o c.
Proof.
  intros Hkept. unfold allowedCall. destruct c; simpl; try (intros _; exact I).
  intros (att & [= <-] & Hin). rewrite Forall_forall in Hkept.
  apply Hkept, Hin.
Qed.

Lemma filter_kept o (atts : list AttachmentBuffer) :
  Forall (λ att, keepAttachment o att = true)
    (List.filter (keepAttachment o) atts).
Proof.
  apply Forall_forall. intros att Hin. apply list_elem_of_In in Hin.
  apply filter_In in Hin. apply Hin.
Qed.

Lemma handler_kept {A} (m : M W Reporter A) r (w : World W) o pre extra :
  calls (m r w).2 = (calls w ++ pre)%list →
  Forall (allowedCall o) pre →
  flushPromises (m r w).1.2 = (flushPromises r ++ extra)%list →
  options (m r w).1.2 = options r →
  Forall (λ att, keepAttachment o att = true) (waitingAttachments extra) →
  filterRespected o r w →
  filterRespected o ((m ;; runCallbacks) r w).1.2 ((m ;; runCallbacks) r w).2.
Proof.
  intros Hpre Hallowed Htracked Hopt Hextra (Ho & Hwait & Hcalls).
  assert (Hwait1 : Forall (λ att, keepAttachment o att = true)
                     (waitingAttachments (flushPromises (m r w).1.2))).
  { rewrite Htracked. unfold waitingAttachments. rewrite flat_map_app.
    apply Forall_app. split; assumption. }
  destruct (then_callbacks m r w) as [-> ->].
  destruct (runCallbacks_calls (m r w).1.2 (m r w).2)
    as (new & Hc & _ & Ht).
  destruct (runCallbacks_core (m r w).1.2 (m r w).2) as (Ho' & _).
  pose proof (runCallbacks_waiting (m r w).1.2 (m r w).2) as Hafter.
  cbv zeta in Hafter.
  split; [congruence|]. split.
  - destruct (testRunReadyPromise (m r w).1.2).
    + rewrite Hafter. exact Hwait1.
    + destruct Hafter as [_ ->]. constructor.
  - rewrite Hc, Hpre. apply Forall_app. split; [apply Forall_app; split|].
    + exact Hcalls.
    + exact Hallowed.
    + eapply Forall_impl; [exact Ht|]. intros c.
      apply taskCall_allowed, Hwait1.
Qed.

Lemma step_kept o e r (w : World W) :
  filterRespected o r w →
  filterRespected o (step e (r, w)).1 (step e (r, w)).2.
Proof.
  intros Hkept. rewrite step_unfold. cbn [fst snd].
  destruct e as [now| |now test res|now test res|now]; cbn [handle].
  - destruct (onBegin_calls now r w) as (pre & Hpre & _ & Hallowed).
    apply (handler_kept (onBegin now) r w o pre []);
      [exact Hpre | apply Hallowed | | | constructor | exact Hkept];
      rewrite onBegin_reporter; cbv zeta;
      destruct (createTestRun (options r) && _);
      rewrite ?app_nil_r, ?resolve_flushPromises, ?resolve_options;
      reflexivity.
  - apply (handler_kept onBeginResume r w o [] []);
      [rewrite app_nil_r; apply onBeginResume_calls | constructor | | |
       constructor | exact Hkept];
      rewrite onBeginResume_reporter;
      (destruct (pendingCreate r) as [[response|e]|];
       [|destruct (errorText e)|]);
      rewrite ?app_nil_r, ?resolve_flushPromises, ?resolve_options;
      reflexivity.
  - destruct Hkept as (Ho & Hwait & Hcalls). unfold filterRespected.
    rewrite onTestBegin_reporter, onTestBegin_calls.
    split; [exact Ho|]. split; assumption.
  - pose proof (onTestEnd_reporter now test res r w) as Hr1.
    destruct (tests (state r) !! getTestId test) as [td|] eqn:Etd.
    + cbv zeta in Hr1. destruct (retry res =? retries test).
      * apply (handler_kept (onTestEnd now test res) r w o []
                 [{| promise :=
                       AwaitingGate
                         (deleteAttachments
                            (convertTestResult test res (td_startTime td)))
                         (List.filter (keepAttachment (options r))
                            (extractAttachmentsAsBuffers res).2);
                     testTitle := title test |}]);
          [rewrite app_nil_r; apply onTestEnd_calls | constructor | | | |
           exact Hkept]; rewrite ?Hr1; try reflexivity.
        unfold waitingAttachments. simpl. rewrite app_nil_r.
        destruct Hkept as (<- & _). apply filter_kept.
      * apply (handler_kept (onTestEnd now test res) r w o [] []);
          [rewrite app_nil_r; apply onTestEnd_calls | constructor | | |
           constructor | exact Hkept]; rewrite Hr1, ?app_nil_r; reflexivity.
    + apply (handler_kept (onTestEnd now test res) r w o [] []);
        [rewrite app_nil_r; apply onTestEnd_calls | constructor | | |
         constructor | exact Hkept]; rewrite Hr1, ?app_nil_r; reflexivity.
  - unfold bind, ret.
    pose proof (onEnd_spec now r w) as Hspec. cbv zeta in Hspec.
    destruct (onEnd now r w) as [[c r'] w']. cbn [fst snd] in *.
    destruct Hspec as (Ho' & _ & _ & _ & _ & _ & Hfp & _ & Hcalls').
    destruct Hkept as (Ho & Hwait & Hcalls).
    split; [congruence|]. split.
    + destruct Hfp as [-> | ->]; [exact Hwait | constructor].
    + destruct Hcalls' as [-> | [_ ->]]; [exact Hcalls|].
      apply Forall_app. split; [exact Hcalls | repeat constructor].
Qed.

Lemma run_kept o es (m : Reporter * World W) :
  filterRespected o m.1 m.2 →
  filterRespected o (run es m).1 (run es m).2.
Proof.
  revert m. induction es as [|e es IH]; intros [r w] Hkept; [exact Hkept|].
  simpl. apply IH, step_kept, Hkept.
Qed.

End GatedFilter.

(** X10: the reporter never uploads an attachment that the options
    exclude, in any run and whatever the service answers: with
    [uploadScreenshots: false] no request uploads an attachment of type
    screenshot, with [uploadVideos: false] none uploads a video; traces
    and other attachments are not subject to any option. *)
Theorem excluded_attachments_are_never_uploaded :
  ∀ W (client : ApiClient W) o (w0 : W) es,
    let m := Gated.run es (Gated.newReporter o, newWorld w0) in
    (∀ c att, c ∈ calls m.2 → uploaded c = Some att →
              keepAttachment o att = true)
    ∧ (uploadScreenshots o = false →
       ∀ c att, c ∈ calls m.2 → uploaded c = Some att →
                att_type att ≠ screenshot)
    ∧ (uploadVideos o = false →
       ∀ c att, c ∈ calls m.2 → uploaded c = Some att →
                att_type att ≠ video)
    ∧ (∀ att, att_type att = trace ∨ att_type att = other →
              keepAttachment o att = true).
Proof.
  intros W client o w0 es. cbv zeta.
  assert (Hall : ∀ c att,
    c ∈ calls (Gated.run es (Gated.newReporter o, newWorld w0)).2 →
    uploaded c = Some att → keepAttachment o att = true).
  { destruct (run_kept o es (Gated.newReporter o, newWorld w0))
      as (_ & _ & Hcalls).
    { split; [reflexivity|]. split; constructor. }
    intros c att Hin Hup. rewrite Forall_forall in Hcalls.
    specialize (Hcalls c Hin). unfold allowedCall in Hcalls.
    rewrite Hup in Hcalls. exact Hcalls. }
  split; [exact Hall|]. split; [|split].
  - intros Hoff c att Hin Hup Htype. specialize (Hall c att Hin Hup).
    unfold keepAttachment in Hall. rewrite Htype, Hoff in Hall.
    rewrite bool_decide_eq_true_2 in Hall by reflexivity. discriminate.
  - intros Hoff c att Hin Hup Htype. specialize (Hall c att Hin Hup).
    unfold keepAttachment in Hall. rewrite Htype, Hoff in Hall.
    rewrite bool_decide_eq_false_2 in Hall by discriminate.
    rewrite bool_decide_eq_true_2 in Hall by reflexivity. discriminate.
  - intros att [Ht | Ht]; unfold keepAttachment; rewrite Ht;
      rewrite !bool_decide_eq_false_2 by discriminate; reflexivity.
Qed.

Lemma excluded_attachments_are_never_uploaded_witness :
  let m := Gated.run (client := scripted happy) scenarioD
             (Gated.newReporter (withoutScreenshots defaults), newWorld ()) in
  uploadScreenshots (withoutScreenshots defaults) = false
  ∧ (calls m.2 ≫= (λ c, option_list (uploaded c))) = []
  ∧ ∀ c att, c ∈ calls m.2 → uploaded c = Some att →
             att_type att ≠ screenshot.
Proof.
  cbv zeta.
  assert (H : uploadScreenshots (withoutScreenshots defaults) = false)
    by reflexivity.
  split; [exact H|]. split; [vm_compute; reflexivity|].
  exact (proj1 (proj2 (excluded_attachments_are_never_uploaded unit
                         (scripted happy) (withoutScreenshots defaults) ()
                         scenarioD)) H).
Defined.

(** ** What reading the attachments prints *)





(** The two functions print the same lines. *)
Lemma extract_same_warnings atts :
  (extractBuffersOf atts).1 = (extractAttachmentsOf atts).1.
Proof.
  induction atts as [|a atts IH]; [reflexivity|].
  cbn [extractBuffersOf extractAttachmentsOf].
  destruct (extractBuffersOf atts) as [lines found].
  destruct (extractAttachmentsOf atts) as [lines' found'].
  cbn [fst] in IH. subst lines'.
  destruct (a_body a); [reflexivity|].
  destruct (truthy (a_path a)); [|reflexivity].
  destruct (a_file a); reflexivity.
Qed.

Section GatedInert.
Import Gated.
Context {W : Type} {client : ApiClient W}.








End GatedInert.



(** * Further properties: the batched revision *)

Section BatchedEnd.
Import Batched.
Context {W : Type} {client : ApiClient W}.

#[local] Abbreviation noCompletion :=
  (callsGrowBy (W := W) (S := Reporter) notCompletion).

Ltac quiet_batched :=
  unfold say;
  frame; first [ apply log_quiet_b | apply handleError_quiet_b
               | apply keeps_print_quiet ].

Lemma settleFlush_state batch answer :
  keeps (sameField state) (settleFlush (W := W) batch answer).
Proof.
  unfold settleFlush, afterSubmit, onBatchFailure, uploadBatchAttachments,
    handleError, log.
  frame; try field_leaf.
  all: unfold uploadOne, log; frame; field_leaf.
Qed.

Lemma allSettled_state ps : keeps (sameField state) (allSettled (W := W) ps).
Proof.
  induction ps as [|p ps IH]; simpl; frame; [|exact IH].
  unfold finish. frame. apply settleFlush_state.
Qed.

Lemma sendTestResults_state :
  keeps (sameField state) (sendTestResults (W := W)).
Proof.
  unfold sendTestResults, flushResults.
  frame; first [ apply allSettled_state
               | unfold log; frame; field_leaf | field_leaf ].
Qed.

Lemma settleFlush_noCompletion batch answer :
  keeps noCompletion (settleFlush batch answer).
Proof.
  unfold settleFlush, afterSubmit, onBatchFailure, uploadBatchAttachments,
    handleError, log.
  frame; try grow_leaf.
  all: unfold uploadOne, log; frame; grow_leaf.
Qed.

Lemma allSettled_noCompletion ps : keeps noCompletion (allSettled ps).
Proof.
  induction ps as [|p ps IH]; simpl; frame; [|exact IH].
  unfold finish. frame. apply settleFlush_noCompletion.
Qed.

Lemma sendTestResults_noCompletion : keeps noCompletion sendTestResults.
Proof.
  unfold sendTestResults, flushResults.
  frame; first [ apply allSettled_noCompletion
               | unfold log; frame; grow_leaf | grow_leaf ].
Qed.

Lemma onEnd_completion_b now r (w : World W) :
  ∃ sent,
    calls (onEnd now r w).2
    = (calls w ++ sent
         ++ if truthy (testRunId (state r))
            then [CallCompleteTestRun
                    (attemptedSummary
                       (now - default 0 (startTime (state r))) r)]
            else [])%list
    ∧ Forall notCompletion sent.
Proof.
  unfold onEnd. exec_pure. cbv zeta.
  exec_quiet quiet_batched. exec_pure. exec_quiet quiet_batched.
  exec_quiet quiet_batched.
  unfold bind at 1.
  set (r0 := setState (setEndTime (Some now)) r).
  destruct (sendTestResults_noCompletion r0 w2) as (sent & Hsent & Hno).
  pose proof (sendTestResults_state r0 w2) as Hstate.
  pose proof (sendTestResults_counters r0 w2) as Hcounters.
  destruct (sendTestResults r0 w2) as [[[] r1] w3].
  unfold sameField in Hstate, Hcounters.
  cbn [fst snd] in Hsent, Hstate, Hcounters.
  exec_pure. rewrite Hstate. subst r0.
  cbn [state setState testRunId setEndTime counters startTime] in *.
  exists sent.
  destruct (truthy (testRunId (state r))) eqn:Hid.
  - unfold bind at 1. unfold ask, request.
    destruct (completeTestRun_api _ (remote w3)) as [answer remote'].
    assert (Htail : ∀ (m : M W Reporter Completion) w4,
              keeps quiet m → calls (m r1 w4).2 = calls w4).
    { intros m w4 Hq. apply (run_quiet m r1 w4 Hq). }
    destruct answer as [u|e].
    + rewrite Htail by quiet_batched.
      cbn [calls]. rewrite Hsent, <- app_assoc, Hcalls1, Hcalls0, Hcalls.
      split; [reflexivity | exact Hno].
    + rewrite Htail by quiet_batched.
      cbn [calls]. rewrite Hsent, <- app_assoc, Hcalls1, Hcalls0, Hcalls.
      split; [reflexivity | exact Hno].
  - unfold ret. cbn [fst snd]. rewrite Hsent, app_nil_r.
    split; [congruence | exact Hno].
Qed.

End BatchedEnd.

(** X13: the completion request of the batched revision carries the
    attempted counters as they are, and the duration since [onBegin]:
    nothing is subtracted for records that were not delivered, so the
    summary says three tests when three records are still queued. *)
Theorem batched_summary_is_the_attempted_counters :
  (∀ W (client : ApiClient W) now r (w : World W) req,
     CallCompleteTestRun req ∈ newCalls w (Batched.onEnd now r w).2 →
     req = attemptedSummary
             (now - default 0 (startTime (Batched.state r))) r
     ∧ truthy (testRunId (Batched.state r)) = true)
  ∧ (let m := Batched.run (client := scripted offline) scenarioC
                batchedStart in
     len (Batched.resultQueue m.1) = 3
     ∧ CallCompleteTestRun (completion100 3 1 1 1) ∈ calls m.2).
Proof.
  split.
  - intros W client now r w req Hin.
    destruct (onEnd_completion_b now r w) as (sent & Hcalls & Hno).
    rewrite (newCalls_app _ _ _ Hcalls) in Hin.
    apply elem_of_app in Hin as [Hin | Hin].
    + rewrite Forall_forall in Hno. destruct (Hno _ Hin).
    + destruct (truthy (testRunId (Batched.state r)));
        [|inversion Hin].
      apply list_elem_of_singleton in Hin. injection Hin as ->.
      split; reflexivity.
  - cbv zeta. split; [vm_compute; reflexivity|].
    vm_compute. repeat constructor.
Qed.

Lemma batched_summary_is_the_attempted_counters_witness :
  let m := Batched.run (client := scripted offline) (take 9 scenarioC)
             batchedStart in
  let out := Batched.onEnd (client := scripted offline) 100 m.1 m.2 in
  CallCompleteTestRun (completion100 3 1 1 1) ∈ newCalls m.2 out.2
  ∧ completion100 3 1 1 1
    = attemptedSummary (100 - default 0 (startTime (Batched.state m.1))) m.1
  ∧ truthy (testRunId (Batched.state m.1)) = true.
Proof.
  cbv zeta.
  set (m := Batched.run (client := scripted offline) (take 9 scenarioC)
              batchedStart).
  assert (Hin :
    CallCompleteTestRun (completion100 3 1 1 1)
    ∈ newCalls m.2 (Batched.onEnd (client := scripted offline) 100
                      m.1 m.2).2).
  { vm_compute. repeat constructor. }
  split; [exact Hin|].
  exact (proj1 batched_summary_is_the_attempted_counters unit
           (scripted offline) 100 m.1 m.2 (completion100 3 1 1 1) Hin).
Defined.

Section BatchedDrain.
Import Batched.
Context {W : Type} {client : ApiClient W}.

Ltac quiet_batched :=
  unfold say;
  frame; first [ apply log_quiet_b | apply handleError_quiet_b
               | apply keeps_print_quiet ].

Lemma filter_sublist {A} (f : A → bool) (l : list A) :
  List.filter f l `sublist_of` l.
Proof.
  induction l as [|x l IH]; simpl; [constructor|].
  destruct (f x); [apply sublist_skip | apply sublist_cons]; exact IH.
Qed.

Lemma pruned_refl r : pruned r r.
Proof. repeat split; reflexivity. Qed.

Lemma pruned_trans r1 r2 r3 : pruned r1 r2 → pruned r2 r3 → pruned r1 r3.
Proof.
  intros (Ho & Hs & Hc & Hq) (Ho' & Hs' & Hc' & Hq').
  repeat split; [congruence..|]. etransitivity; eassumption.
Qed.

Lemma unconfirmed_sublist response queue queue' :
  queue' `sublist_of` queue → unconfirmed response queue →
  unconfirmed response queue'.
Proof.
  unfold unconfirmed. intros Hsub Hall. rewrite Forall_forall in *.
  intros item Hin. apply Hall. eapply elem_of_sublist; eassumption.
Qed.

Lemma settleFlush_pruned batch answer r (w : World W) :
  let r' := (settleFlush batch answer r w).1.2 in
  pruned r r'
  ∧ flushPromises r' = flushPromises r
  ∧ match answer with
    | Fulfilled response => unconfirmed response (resultQueue r')
    | Rejected _ => True
    end.
Proof.
  cbv zeta. pose proof (settleFlush_spec batch answer r w) as Hspec.
  destruct answer as [response|e].
  - cbv zeta in Hspec. destruct Hspec as [-> _].
    destruct (0 <? len (default [] (resp_results response))) eqn:Hlen.
    + split; [|split; [reflexivity|]].
      * repeat split; try reflexivity. apply filter_sublist.
      * unfold unconfirmed. apply Forall_forall. intros item Hin.
        apply pruneQueue_spec in Hin. apply Hin.
    + split; [apply pruned_refl|]. split; [reflexivity|].
      unfold unconfirmed.
      destruct (default [] (resp_results response)) as [|first rest];
        [|exfalso; apply Z.ltb_ge in Hlen; unfold len in Hlen;
          simpl in Hlen; lia].
      apply Forall_forall. intros item _. apply not_elem_of_nil.
  - destruct Hspec as [-> _]. split; [apply pruned_refl|].
    split; [reflexivity | exact I].
Qed.

Lemma allSettled_pruned ps r (w : World W) :
  let r' := (allSettled ps r w).1.2 in
  pruned r r'
  ∧ flushPromises r' = flushPromises r
  ∧ ∀ batch response,
      InFlight batch (Fulfilled response) ∈ ps →
      unconfirmed response (resultQueue r').
Proof.
  cbv zeta. revert r w. induction ps as [|p ps IH]; intros r w.
  - split; [apply pruned_refl|]. split; [reflexivity|].
    intros batch response Hin. inversion Hin.
  - cbn [allSettled].
    assert (Hstep : ((finish p ;; allSettled ps) r w).1.2
                    = (allSettled ps (finish p r w).1.2 (finish p r w).2).1.2)
      by (unfold bind; destruct (finish p r w) as [[? ?] ?]; reflexivity).
    rewrite Hstep. clear Hstep.
    assert (Hfirst :
      pruned r (finish p r w).1.2
      ∧ flushPromises (finish p r w).1.2 = flushPromises r
      ∧ ∀ batch response, p = InFlight batch (Fulfilled response) →
                          unconfirmed response
                            (resultQueue (finish p r w).1.2)).
    { unfold finish. destruct p as [batch answer|s].
      - unfold bind, ret.
        pose proof (settleFlush_pruned batch answer r w) as Hs.
        cbv zeta in Hs.
        destruct (settleFlush batch answer r w) as [[s r1] w1].
        cbn [fst snd] in *. destruct Hs as (Hp & Hf & Hu).
        split; [exact Hp|]. split; [exact Hf|].
        intros batch' response [= -> ->]. exact Hu.
      - split; [apply pruned_refl|]. split; [reflexivity|].
        intros batch response Heq. discriminate Heq. }
    destruct (finish p r w) as [[p' r1] w1]. cbn [fst snd] in Hfirst |- *.
    destruct Hfirst as (Hp1 & Hf1 & Hu1).
    destruct (IH r1 w1) as (Hp2 & Hf2 & Hu2).
    split; [eapply pruned_trans; eassumption|].
    split; [congruence|].
    intros batch response Hin. apply elem_of_cons in Hin as [<- | Hin].
    + eapply unconfirmed_sublist; [apply Hp2 | apply (Hu1 _ _ eq_refl)].
    + apply (Hu2 _ _ Hin).
Qed.

Lemma sendTestResults_queue r (w : World W) :
  truthy (testRunId (state r)) = true →
  let r' := (sendTestResults r w).1.2 in
  pruned r r'
  ∧ flushPromises r' = []
  ∧ ((0 <? len (resultQueue r)) = true →
     ∀ response,
       (submitTestResults_api (batchRequest r) (remote w)).1
         = Fulfilled response →
       unconfirmed response (resultQueue r')).
Proof.
  intros Hid. cbv zeta. pattern (sendTestResults r w).
  match goal with |- ?Q _ => set (P := Q) end.
  unfold sendTestResults. exec_pure. rewrite Hid.
  cbn [negb]. exec_pure.
  pose proof (flushResults_spec r w) as Hflush.
  rewrite (canFlush_when r Hid) in Hflush.
  unfold bind at 1.
  assert (Hfirst :
    let r1 := (when (0 <? len (resultQueue r)) flushResults r w).1.2 in
    pruned r r1
    ∧ (if 0 <? len (resultQueue r) then
         flushPromises r1
         = (flushPromises r
              ++ [InFlight (resultQueue r)
                    (submitTestResults_api (batchRequest r) (remote w)).1])%list
       else flushPromises r1 = flushPromises r)).
  { cbv zeta. destruct (0 <? len (resultQueue r)); simpl.
    - destruct Hflush as [-> _]. split; [|reflexivity].
      repeat split; reflexivity.
    - split; [apply pruned_refl | reflexivity]. }
  destruct (when (0 <? len (resultQueue r)) flushResults r w)
    as [[[] r1] w1].
  cbv zeta in Hfirst. cbn [fst snd] in Hfirst. destruct Hfirst as [Hp1 Hf1].
  exec_pure.
  destruct (0 <? len (flushPromises r1)) eqn:Hlen; unfold when.
  - exec_pure. exec_quiet quiet_batched. exec_pure. unfold bind at 1.
    pose proof (allSettled_pruned (flushPromises r1) r1 w0) as Hall.
    cbv zeta in Hall.
    destruct (allSettled (flushPromises r1) r1 w0) as [[[] r2] w2].
    cbn [fst snd] in Hall. destruct Hall as (Hp2 & Hf2 & Hu2).
    exec_pure.
    pose proof (log_quiet_b "All test results sent successfully" []
                  (setFlushPromises [] r2) w2) as (Hsame & _).
    destruct (log "All test results sent successfully" []
                (setFlushPromises [] r2) w2) as [[[] r3] w3].
    cbn [fst snd] in Hsame. subst r3 P. cbn [fst snd].
    split; [|split; [reflexivity|]].
    + eapply pruned_trans; [exact Hp1|]. exact Hp2.
    + intros Hq response Hanswer. rewrite Hq in Hf1.
      apply (Hu2 (resultQueue r)). rewrite Hf1, Hanswer.
      apply elem_of_app. right. constructor.
  - exec_pure.
    pose proof (log_quiet_b "All test results sent successfully" []
                  r1 w1) as (Hsame & _).
    destruct (log "All test results sent successfully" [] r1 w1)
      as [[[] r3] w3].
    cbn [fst snd] in Hsame. subst r3 P. cbn [fst snd].
    assert (Hnil : flushPromises r1 = []).
    { destruct (flushPromises r1); [reflexivity|].
      apply Z.ltb_ge in Hlen. unfold len in Hlen. simpl in Hlen. lia. }
    split; [exact Hp1|]. split; [exact Hnil|].
    intros Hq response Hanswer. rewrite Hq in Hf1. rewrite Hnil in Hf1.
    destruct (flushPromises r); discriminate Hf1.
Qed.

Lemma onEnd_reporter_b now r (w : World W) :
  ∃ w0,
    remote w0 = remote w
    ∧ (onEnd now r w).1.2
      = (sendTestResults (setState (setEndTime (Some now)) r) w0).1.2.
Proof.
  unfold onEnd. exec_pure. cbv zeta.
  exec_quiet quiet_batched. exec_pure. exec_quiet quiet_batched.
  exec_quiet quiet_batched.
  exists w2. split; [congruence|].
  unfold bind at 1.
  destruct (sendTestResults (setState (setEndTime (Some now)) r) w2)
    as [[[] r1] w3].
  match goal with
  | |- (?m r1 w3).1.2 = _ =>
      assert (Htail : keeps sameReporter m)
        by (unfold handleError, say, log;
            frame; first [ apply keeps_inWorld_reporter
                         | apply keeps_ask_reporter ]);
      exact (Htail r1 w3)
  end.
Qed.

End BatchedDrain.

(** X14: in the batched revision [onEnd] with a run id leaves no request
    in flight and never adds to the queue: what stays queued are records
    that were queued before, in their order.  When the service answers the
    batch sent by the drain and lists the title of every queued record,
    the queue is empty after [onEnd]: every record has been delivered. *)
Theorem batched_drain_delivers_confirmed_records :
  ∀ W (client : ApiClient W) now (r : Batched.Reporter) (w : World W),
    truthy (testRunId (Batched.state r)) = true →
    let r' := (Batched.onEnd now r w).1.2 in
    Batched.flushPromises r' = []
    ∧ Batched.resultQueue r' `sublist_of` Batched.resultQueue r
    ∧ Batched.counters r' = Batched.counters r
    ∧ ∀ response,
        (submitTestResults_api (batchRequest r) (remote w)).1
          = Fulfilled response →
        confirmsAll response (Batched.resultQueue r) →
        Batched.resultQueue r' = [].
Proof.
  intros W client now r w Hid. cbv zeta.
  destruct (onEnd_reporter_b now r w) as (w0 & Hremote & ->).
  destruct (sendTestResults_queue
              (Batched.setState (setEndTime (Some now)) r) w0 Hid)
    as ((_ & _ & Hc & Hsub) & Hfp & Hconf).
  cbn [Batched.resultQueue Batched.setState Batched.counters] in *.
  split; [exact Hfp|]. split; [exact Hsub|]. split; [exact Hc|].
  intros response Hanswer Hall.
  destruct (Batched.resultQueue r) as [|first rest] eqn:Hq.
  { apply sublist_nil_r, Hsub. }
  assert (Hlen : (0 <? len (first :: rest)) = true)
    by (apply Z.ltb_lt; unfold len; simpl; lia).
  change (batchRequest (Batched.setState (setEndTime (Some now)) r))
    with (batchRequest r) in Hconf.
  rewrite Hremote in Hconf.
  specialize (Hconf Hlen response Hanswer).
  destruct (Batched.resultQueue
              (Batched.sendTestResults
                 (Batched.setState (setEndTime (Some now)) r) w0).1.2)
    as [|item items]; [reflexivity|].
  exfalso. apply Forall_cons in Hconf as [Hnot _]. apply Hnot.
  unfold confirmsAll in Hall. rewrite Forall_forall in Hall. apply Hall.
  eapply elem_of_sublist; [|exact Hsub]. constructor.
Qed.

Lemma batched_drain_delivers_confirmed_records_witness :
  let m := Batched.run (client := scripted happy) twoQueued batchedStart in
  let r' := (Batched.onEnd (client := scripted happy) 100 m.1 m.2).1.2 in
  truthy (testRunId (Batched.state m.1)) = true
  ∧ (submitTestResults_api (ApiClient := scripted happy) (batchRequest m.1)
       (remote m.2)).1 = Fulfilled bothConfirmed
  ∧ confirmsAll bothConfirmed (Batched.resultQueue m.1)
  ∧ len (Batched.resultQueue m.1) = 2
  ∧ Batched.resultQueue r' = [].
Proof.
  cbv zeta.
  set (m := Batched.run (client := scripted happy) twoQueued batchedStart).
  assert (H1 : truthy (testRunId (Batched.state m.1)) = true)
    by (vm_compute; reflexivity).
  assert (H2 : (submitTestResults_api (ApiClient := scripted happy)
                  (batchRequest m.1) (remote m.2)).1
               = Fulfilled bothConfirmed) by (vm_compute; reflexivity).
  assert (H3 : confirmsAll bothConfirmed (Batched.resultQueue m.1)).
  { unfold confirmsAll. vm_compute. repeat constructor. }
  split; [exact H1|]. split; [exact H2|]. split; [exact H3|].
  split; [vm_compute; reflexivity|].
  exact (proj2 (proj2 (proj2
           (batched_drain_delivers_confirmed_records unit (scripted happy)
              100 m.1 m.2 H1))) bothConfirmed H2 H3).
Defined.

(** * Further properties: the streaming revision *)

Section StreamingRuns.
Import Streaming.
Context {W : Type} {client : ApiClient W}.

Ltac quiet_streamed :=
  frame; first [ apply log_quiet_s | apply handleError_quiet_s
               | apply keeps_print_quiet ].

Lemma failuresByStatus_snoc failures failure :
  failuresByStatus (failures ++ [failure])
  = let '(p, f, s) := failuresByStatus failures in
    match uf_status failure with
    | inPassed => (p + 1, f, s)
    | inFailed => (p, f + 1, s)
    | inSkipped => (p, f, s + 1)
    end.
Proof. unfold failuresByStatus. rewrite foldl_app. reflexivity. Qed.

Lemma sendTestResult_reporter_s result atts :
  keeps sameReporter (sendTestResult (W := W) result atts).
Proof.
  unfold sendTestResult, uploadAttachments, log.
  frame; try first [ apply keeps_inWorld_reporter
                   | apply keeps_ask_reporter ].
  all: unfold uploadOne, log; frame;
    first [apply keeps_inWorld_reporter | apply keeps_ask_reporter].
Qed.

(** What [onTestEnd] does to the counters and to the recorded failures. *)
Lemma onTestEnd_effect_s now test res r (w : World W) :
  let r' := (onTestEnd now test res r w).1.2 in
  (counters r' = counters r ∧ uploadFailures r' = uploadFailures r)
  ∨ (counters r' = countStatus (status res) (incTotal (counters r))
     ∧ (uploadFailures r' = uploadFailures r
        ∨ ∃ e, uploadFailures r'
               = (uploadFailures r
                    ++ [{| uf_testTitle := title test;
                           uf_error := messageOf e;
                           uf_status := failedStatus (status res) |}])%list)).
Proof.
  cbv zeta. pattern (onTestEnd now test res r w).
  match goal with |- ?Q _ => set (P := Q) end.
  unfold onTestEnd. exec_pure.
  destruct (tests (state r) !! getTestId test) as [td|].
  2:{ destruct (run_quiet _ r w (log_quiet_s
        ("Warning: Test data not found for " +:+ title test) []))
        as (Hr & _).
      subst P. cbv beta. rewrite Hr. left. split; reflexivity. }
  exec_pure. destruct (retry res =? retries test); unfold when at 1.
  2:{ exec_pure.
      match goal with
      | |- context [log ?m [] ?r1 ?w1] =>
          destruct (run_quiet _ r1 w1 (log_quiet_s m [])) as (Hr & _)
      end.
      subst P. cbv beta. rewrite Hr. left. split; reflexivity. }
  exec_pure.
  cbn [state setState setCounters testRunId setTests].
  destruct (truthy (testRunId (state r))); unfold when at 1.
  2:{ exec_pure.
      match goal with
      | |- context [log ?m [] ?r1 ?w1] =>
          destruct (run_quiet _ r1 w1 (log_quiet_s m [])) as (Hr & _)
      end.
      subst P. cbv beta. rewrite Hr. right. split; [reflexivity|].
      left. reflexivity. }
  exec_pure. cbv zeta. exec_print. unfold catch_ at 1. exec_pure.
  unfold bind at 1.
  match goal with
  | |- context [sendTestResult ?q ?atts ?r1 ?w1] =>
      pose proof (sendTestResult_reporter_s q atts r1 w1) as Hsame;
      destruct (sendTestResult q atts r1 w1) as [[[u|e] r2] w2]
  end; unfold sameReporter in Hsame; cbn [fst snd] in Hsame; subst r2.
  - exec_pure.
    match goal with
    | |- context [log ?m [] ?r1 ?w1] =>
        destruct (run_quiet _ r1 w1 (log_quiet_s m [])) as (Hr & _)
    end.
    subst P. cbv beta. rewrite Hr. right. split; [reflexivity|].
    left. reflexivity.
  - unfold onSendFailure. exec_pure.
    cbn [options setState setCounters setUploadFailures uploadFailures].
    exec_quiet ltac:(unfold when; quiet_streamed). exec_pure.
    match goal with
    | |- context [log ?m [] ?r1 ?w1] =>
        destruct (run_quiet _ r1 w1 (log_quiet_s m [])) as (Hr & _)
    end.
    subst P. cbv beta. rewrite Hr. right. split; [reflexivity|].
    right. exists e. reflexivity.
Qed.

Lemma onTestEnd_accounted now test res r (w : World W) :
  accounted r → accounted (onTestEnd now test res r w).1.2.
Proof.
  intros Hacc. pose proof (onTestEnd_effect_s now test res r w) as Heff.
  cbv zeta in Heff. unfold accounted in *. cbv zeta in *.
  destruct Heff as [[-> ->] | [-> Hfail]]; [exact Hacc|].
  destruct Hacc as (Hb & Hp & Hf & Hs & Hsum).
  assert (Hb' : balanced (countStatus (status res) (incTotal (counters r))))
    by (apply balanced_count, Hb).
  destruct Hfail as [-> | [e ->]].
  - split; [exact Hb'|].
    destruct (status res); unfold countStatus, incTotal; simpl;
      repeat split; lia.
  - rewrite failuresByStatus_snoc.
    destruct (failuresByStatus (uploadFailures r)) as [[p f] s].
    cbn [fst snd uf_status] in *.
    assert (Hlen : len (uploadFailures r ++ [{|
                     uf_testTitle := title test; uf_error := messageOf e;
                     uf_status := failedStatus (status res) |}])
                   = len (uploadFailures r) + 1)
      by (unfold len; rewrite length_app; simpl; lia).
    rewrite Hlen. split; [exact Hb'|].
    destruct (status res); unfold countStatus, incTotal, failedStatus;
      cbn [fst snd passedTests failedTests skippedTests];
      repeat split; lia.
Qed.

Lemma others_keep_field {B} (f : Reporter → B) e :
  (∀ g x, f (setState g x) = f x) →
  (∀ g x, f (setPendingCreate g x) = f x) →
  match e with OnTestEnd _ _ _ | OnEnd _ => True
  | _ => keeps (sameField f) (handle (W := W) e) end.
Proof.
  intros Hs Hp.
  destruct e; try exact I; cbn [handle].
  - unfold onBegin, log.
    frame; first [ field_leaf | intros x v; unfold sameField, modify; cbn;
                   rewrite ?Hs, ?Hp; reflexivity ].
  - unfold onBeginResume, handleError, log.
    frame; first [ field_leaf | intros x v; unfold sameField, modify; cbn;
                   rewrite ?Hs, ?Hp; reflexivity ].
  - unfold onTestBegin, log.
    frame; first [ field_leaf | intros x v; unfold sameField, modify; cbn;
                   rewrite ?Hs, ?Hp; reflexivity ].
Qed.

Lemma step_accounted e r (w : World W) :
  accounted r → accounted (step e (r, w)).1.
Proof.
  intros Hacc.
  assert (Hsame : ∀ r',
    counters r' = counters r → uploadFailures r' = uploadFailures r →
    accounted r')
    by (intros r' Hc Hf; unfold accounted in *; rewrite Hc, Hf; exact Hacc).
  pose proof (others_keep_field counters e
                (λ _ _, eq_refl) (λ _ _, eq_refl)) as Hc.
  pose proof (others_keep_field uploadFailures e
                (λ _ _, eq_refl) (λ _ _, eq_refl)) as Hf.
  unfold step. cbn [fst snd].
  destruct e as [now| |now test res|now test res|now].
  1-3: specialize (Hc r w); specialize (Hf r w);
       unfold sameField in Hc, Hf; cbn [fst snd] in Hc, Hf;
       destruct (handle _ r w) as [[u r'] w']; apply Hsame; assumption.
  - cbn [handle].
    pose proof (onTestEnd_accounted now test res r w Hacc) as H.
    destruct (onTestEnd now test res r w) as [[u r'] w']. exact H.
  - cbn [handle]. unfold bind, ret.
    destruct (onEnd_spec_s now r w) as (c & r' & w' & -> & Hf' & Hc' & _).
    apply Hsame; assumption.
Qed.

Lemma run_accounted es r (w : World W) :
  accounted r → accounted (run es (r, w)).1.
Proof.
  revert r w. induction es as [|e es IH]; intros r w Hacc; [exact Hacc|].
  cbn [run foldl]. fold (run es (step e (r, w))).
  pose proof (step_accounted e r w Hacc) as Hstep.
  destruct (step e (r, w)) as [r1 w1]. apply IH, Hstep.
Qed.

Lemma newReporter_accounted o : accounted (newReporter o).
Proof. unfold accounted, balanced, len. cbn. lia. Qed.

End StreamingRuns.

(** X15: in every run of the streaming revision the summary of the
    completion request adds up: the reported total is the sum of the
    passed, failed and skipped counts, and each of these lies between zero
    and the number of tests that ended with that status. *)
Theorem streaming_summary_adds_up :
  ∀ W (client : ApiClient W) o (w0 : W) es now req,
    let m := Streaming.run es (Streaming.newReporter o, newWorld w0) in
    CallCompleteTestRun req ∈ newCalls m.2 (Streaming.onEnd now m.1 m.2).2 →
    total (summary req)
      = sum_passed (summary req) + sum_failed (summary req)
        + sum_skipped (summary req)
    ∧ 0 ≤ sum_passed (summary req) ≤ passedTests (Streaming.counters m.1)
    ∧ 0 ≤ sum_failed (summary req) ≤ failedTests (Streaming.counters m.1)
    ∧ 0 ≤ sum_skipped (summary req) ≤ skippedTests (Streaming.counters m.1).
Proof.
  intros W client o w0 es now req. cbv zeta.
  pose proof (run_accounted es (Streaming.newReporter o) (newWorld w0)
                (newReporter_accounted o)) as Hacc.
  destruct (Streaming.run es (Streaming.newReporter o, newWorld w0))
    as [r w]. cbn [fst snd] in *. intros Hin.
  destruct (onEnd_spec_s now r w) as (c & r' & w' & E & _ & _ & Hcalls).
  rewrite E in Hin. cbn [fst snd] in Hin.
  destruct Hcalls as [Hsame | Hsent].
  - rewrite (newCalls_same _ _ Hsame) in Hin. inversion Hin.
  - rewrite (newCalls_app _ _ _ Hsent) in Hin.
    apply list_elem_of_singleton in Hin. injection Hin as ->.
    cbn [summary total sum_passed sum_failed sum_skipped].
    unfold accounted, balanced in Hacc. cbv zeta in Hacc.
    unfold Streaming.actualUploaded.
    destruct (Streaming.failuresByStatus (Streaming.uploadFailures r))
      as [[p f] s]. cbn [fst snd] in *. lia.
Qed.

Lemma streaming_summary_adds_up_witness :
  let m := Streaming.run (client := scripted offline) threeStreamed
             streamingStart in
  let req := completion100 0 0 0 0 in
  CallCompleteTestRun req
    ∈ newCalls m.2 (Streaming.onEnd (client := scripted offline) 100 m.1 m.2).2
  ∧ total (summary req)
      = sum_passed (summary req) + sum_failed (summary req)
        + sum_skipped (summary req)
  ∧ 0 ≤ sum_passed (summary req) ≤ passedTests (Streaming.counters m.1)
  ∧ 0 ≤ sum_failed (summary req) ≤ failedTests (Streaming.counters m.1)
  ∧ 0 ≤ sum_skipped (summary req) ≤ skippedTests (Streaming.counters m.1).
Proof.
  cbv zeta.
  assert (Hin :
    CallCompleteTestRun (completion100 0 0 0 0)
    ∈ newCalls
        (Streaming.run (client := scripted offline) threeStreamed
           streamingStart).2
        (Streaming.onEnd (client := scripted offline) 100
           (Streaming.run (client := scripted offline) threeStreamed
              streamingStart).1
           (Streaming.run (client := scripted offline) threeStreamed
              streamingStart).2).2)
    by (vm_compute; repeat constructor).
  split; [exact Hin|].
  exact (streaming_summary_adds_up unit (scripted offline) defaults tt
           threeStreamed 100 (completion100 0 0 0 0) Hin).
Defined.

(** * Further properties: attachments of a batch *)

Section BatchedUploads.
Import Batched.
Context {W : Type} {client : ApiClient W}.

Lemma titleToResultId_lookup resultIds t :
  titleToResultId resultIds !! t = lastListed resultIds t.
Proof.
  unfold titleToResultId, lastListed.
  induction resultIds as [|rid ids IH] using rev_ind; [reflexivity|].
  rewrite foldl_app, filter_app. cbn [foldl].
  destruct (decide (rid_title rid = t)) as [<- | Hne].
  - rewrite lookup_insert_eq.
    rewrite (filter_cons_True _ rid []) by reflexivity.
    rewrite filter_nil, last_snoc. reflexivity.
  - rewrite lookup_insert_ne by exact Hne.
    rewrite (filter_cons_False _ rid []) by exact Hne.
    rewrite filter_nil, app_nil_r. exact IH.
Qed.

Lemma allAttachments_calls batch resultIds :
  (λ a, uploadCallOf (pa_testResultId a) a) <$> allAttachments batch resultIds
  = batchUploads batch resultIds.
Proof.
  unfold allAttachments, batchUploads.
  induction batch as [|item batch IH]; [reflexivity|].
  cbn [flat_map]. rewrite fmap_app, IH. f_equal.
  rewrite titleToResultId_lookup.
  destruct (lastListed resultIds (qa_title (result item))) as [id|];
    [|reflexivity].
  cbn [truthy showOpt default]. unfold default.
  destruct (String.eqb id ""); cbn [negb andb]; [reflexivity|].
  destruct (0 <? len (atts item)) eqn:Hlen.
  - rewrite <- list_fmap_compose. reflexivity.
  - destruct (atts item); [reflexivity|].
    apply Z.ltb_ge in Hlen. unfold len in Hlen.
    rewrite length_cons in Hlen. lia.
Qed.

Lemma uploadOne_request a r (w : World W) :
  (uploadOne a r w).1.2 = r
  ∧ calls (uploadOne a r w).2
    = (calls w ++ [uploadCallOf (pa_testResultId a) a])%list.
Proof.
  unfold uploadOne, bind, ask, request.
  destruct (uploadAttachment_api _ _ _ _ _ (remote w)) as [[u|e] remote'];
    match goal with
    | |- context [log ?m ?args ?r1 ?w1] =>
        destruct (run_quiet _ r1 w1 (log_quiet_b m args)) as (-> & -> & _)
    end; split; reflexivity.
Qed.

Lemma forEach_uploadOne_request all r (w : World W) :
  (forEach uploadOne all r w).1.2 = r
  ∧ calls (forEach uploadOne all r w).2
    = (calls w ++ ((λ a, uploadCallOf (pa_testResultId a) a) <$> all))%list.
Proof.
  revert w. induction all as [|a all IH]; intros w.
  - cbn. rewrite app_nil_r. split; reflexivity.
  - cbn [forEach fmap list_fmap]. unfold bind.
    destruct (uploadOne_request a r w) as (Hr & Hc).
    destruct (uploadOne a r w) as [[u r1] w1]. cbn [fst snd] in Hr, Hc.
    subst r1. destruct (IH w1) as (-> & ->). rewrite Hc, <- app_assoc.
    split; reflexivity.
Qed.

End BatchedUploads.

(** X16: the upload requests of a batch are, in the order of the batch,
    one request per attachment of every record whose title the response
    lists with a non-empty identifier, each sent to the identifier listed
    last for that title; attachments of the other records are not
    uploaded, and no other request is sent. *)
Theorem batch_attachments_follow_last_listed_id :
  ∀ W (client : ApiClient W) batch resultIds (r : Batched.Reporter)
    (w : World W),
    calls (Batched.uploadBatchAttachments batch resultIds r w).2
    = (calls w ++ batchUploads batch resultIds)%list.
Proof.
  intros W client batch resultIds r w.
  rewrite <- allAttachments_calls.
  pattern (Batched.uploadBatchAttachments batch resultIds r w).
  match goal with |- ?Q _ => set (P := Q) end.
  unfold Batched.uploadBatchAttachments. cbv zeta.
  destruct (len (Batched.allAttachments batch resultIds) =? 0) eqn:Hlen.
  - destruct (Batched.allAttachments batch resultIds).
    + subst P. cbn. rewrite app_nil_r. reflexivity.
    + apply Z.eqb_eq in Hlen. unfold len in Hlen.
      rewrite length_cons in Hlen. lia.
  - exec_pure.
    exec_quiet ltac:(apply log_quiet_b).
    unfold bind at 1.
    destruct (forEach_uploadOne_request
                (Batched.allAttachments batch resultIds) r w0) as (Hr & Hc).
    destruct (forEach Batched.uploadOne _ r w0) as [[u r1] w1].
    cbn [fst snd] in Hr, Hc. subst r1.
    exec_quiet ltac:(apply log_quiet_b).
    subst P. unfold ret. cbn [fst snd]. congruence.
Qed.

(** * Further properties: the metadata of a test *)

Lemma filter_tag_eqb (annotations : list Annotation) :
  List.filter (λ a, String.eqb (ann_type a) "tag") annotations
  = filter (λ a, ann_type a = "tag") annotations.
Proof.
  induction annotations as [|a l IH]; [reflexivity|].
  cbn [List.filter]. destruct (String.eqb_spec (ann_type a) "tag") as [E|E].
  - rewrite filter_cons_True by exact E. rewrite IH. reflexivity.
  - rewrite filter_cons_False by exact E. exact IH.
Qed.

Lemma assignments_lookup annotations (start : gmap string MetadataValue) key :
  foldl
    (λ metadata a,
       if customAnnotation a
       then assignProperty (ann_type a) (MetaText (ann_description a)) metadata
       else metadata)
    start annotations !! key
  = match last (filter (writesProperty key) annotations) with
    | Some a => Some (MetaText (ann_description a))
    | None => start !! key
    end.
Proof.
  induction annotations as [|a l IH] using rev_ind; [reflexivity|].
  rewrite foldl_app, filter_app. cbn [foldl].
  destruct (decide (writesProperty key a)) as [Hw | Hw].
  - rewrite (filter_cons_True _ a []) by exact Hw.
    rewrite filter_nil, last_snoc.
    destruct Hw as (-> & <- & Hproto). unfold assignProperty.
    destruct (String.eqb_spec (ann_type a) "__proto__") as [E|_];
      [contradiction|].
    apply lookup_insert_eq.
  - rewrite (filter_cons_False _ a []) by exact Hw.
    rewrite filter_nil, app_nil_r, <- IH.
    destruct (customAnnotation a) eqn:Hc; [|reflexivity].
    unfold assignProperty.
    destruct (String.eqb_spec (ann_type a) "__proto__") as [E|E];
      [reflexivity|].
    apply lookup_insert_ne. intros <-. apply Hw. repeat split; assumption.
Qed.

(** X17: the property [key] of the metadata of a test is the description
    of the last annotation of that type, when there is one whose type is
    not [tag], [testCaseId] or [__proto__]; otherwise [tags] holds the
    descriptions of the [tag] annotations when there are any, [location]
    the location of the test when it has one, and every other property is
    absent. An annotation of type [tags] or [location] thus replaces the
    list of tags or the location. *)
Theorem extractMetadata_property :
  ∀ annotations location key,
    extractMetadata annotations location !! key
    = match last (filter (writesProperty key) annotations) with
      | Some a => Some (MetaText (ann_description a))
      | None =>
          if decide (key = "location") then MetaLocation <$> location
          else if decide (key = "tags") then
            match tagsOf annotations with
            | [] => None
            | tags => Some (MetaTags tags)
            end
          else None
      end.
Proof.
  intros annotations location key. unfold extractMetadata. cbv zeta.
  rewrite assignments_lookup.
  destruct (last (filter (writesProperty key) annotations)); [reflexivity|].
  rewrite filter_tag_eqb. fold (tagsOf annotations).
  assert (Htags :
    (if 0 <? len (tagsOf annotations)
     then <["tags" := MetaTags (tagsOf annotations)]> ∅
     else (∅ : gmap string MetadataValue)) !! key
    = if decide (key = "tags") then
        match tagsOf annotations with
        | [] => None
        | tags => Some (MetaTags tags)
        end
      else None).
  { destruct (tagsOf annotations) as [|t tags] eqn:Et.
    - change (0 <? len (@nil (option string))) with false. cbv iota.
      rewrite lookup_empty. destruct (decide (key = "tags")); reflexivity.
    - assert (Hpos : (0 <? len (t :: tags)) = true)
        by (apply Z.ltb_lt; unfold len; rewrite length_cons; lia).
      rewrite Hpos. destruct (decide (key = "tags")) as [-> | Hne].
      + apply lookup_insert_eq.
      + rewrite lookup_insert_ne by congruence. apply lookup_empty. }
  destruct location as [[file line column]|]; cbn [loc_file loc_line loc_column].
  - destruct (decide (key = "location")) as [-> | Hne].
    + rewrite lookup_insert_eq. reflexivity.
    + rewrite lookup_insert_ne by congruence. exact Htags.
  - destruct (decide (key = "location")) as [-> | Hne]; [|exact Htags].
    rewrite Htags. reflexivity.
Qed.
